(** * FirstCry monitor: extraction, change detection and notification

    A shallow embedding of [monitor_firstcry.py].  Pure helpers become
    functions; the run itself ([main]) is written in a state-and-exception
    monad over an explicit world: standard output, the sleeps, the requests,
    the table [products] as committed to the database file and as the open
    connection sees it, and the SMTP sessions.

    Calls into third-party libraries whose result the script cannot
    determine are read from a record of oracles ([externals]): the HTTP
    exchange, the HTML parser, [urlparse], the clock, and whether [print],
    an sqlite call or an SMTP session raises.

    What is taken for granted:
    - Strings are Rocq strings, read as the UTF-8 bytes of the Python text.
      Splitting at a character, searching and [quote_plus] work on the
      bytes and agree with Python on every text.  [len] counts the bytes
      that start a character; [strip], [split()] and [splitlines] recognise
      the whitespace and line-break characters by their UTF-8 sequences.
      [str.lower] is applied to ASCII letters only, which changes neither
      of the two tests the script makes on a lowered text: no character
      outside ASCII lowers to a text with one of the letters [h], [t],
      [p], [s], and the only one that lowers to a text with a letter of
      [javascript] gives that letter followed by a combining mark.
    - sqlite keeps the writes of a connection in a transaction until
      [commit]; a connection that goes away without [commit] leaves the
      file as it was.  So the table on disk after a run is the committed
      one.
    - The exceptions are those that [except Exception] catches. *)

From Stdlib Require Import String Ascii List ZArith Lia Bool.
From stdpp Require Import gmap strings list fin_maps pretty.

Open Scope string_scope.

(** ** Python string primitives *)

Module Py.

(** *** Whitespace

    The characters for which [str.isspace] holds, and which [str.strip] and
    [str.split] therefore cut, are U+0009-U+000D, U+001C-U+0020, U+0085,
    U+00A0, U+1680, U+2000-U+200A, U+2028, U+2029, U+202F, U+205F and
    U+3000.  In UTF-8 they take one, two or three bytes. *)

(** TAB, LF, VT, FF, CR, the four separators FS GS RS US, and the blank. *)
Definition space1 (c1 : ascii) : bool :=
  let b1 := N_of_ascii c1 in
  ((9 <=? b1) && (b1 <=? 13) || (28 <=? b1) && (b1 <=? 32))%N.

(** U+0085 (C2 85) and U+00A0 (C2 A0). *)
Definition space2 (c1 c2 : ascii) : bool :=
  let b1 := N_of_ascii c1 in
  let b2 := N_of_ascii c2 in
  ((b1 =? 194) && ((b2 =? 133) || (b2 =? 160)))%N.

(** U+1680 (E1 9A 80), U+2000-U+200A (E2 80 80 to E2 80 8A), U+2028,
    U+2029 and U+202F (E2 80 A8, A9, AF), U+205F (E2 81 9F) and U+3000
    (E3 80 80). *)
Definition space3 (c1 c2 c3 : ascii) : bool :=
  let b1 := N_of_ascii c1 in
  let b2 := N_of_ascii c2 in
  let b3 := N_of_ascii c3 in
  ((b1 =? 225) && (b2 =? 154) && (b3 =? 128)
   || (b1 =? 226) && (b2 =? 128) &&
      ((128 <=? b3) && (b3 <=? 138) || (b3 =? 168) || (b3 =? 169) || (b3 =? 175))
   || (b1 =? 226) && (b2 =? 129) && (b3 =? 159)
   || (b1 =? 227) && (b2 =? 128) && (b3 =? 128))%N.

#[global] Arguments space1 : simpl never.
#[global] Arguments space2 : simpl never.
#[global] Arguments space3 : simpl never.

(** What follows the whitespace character at the head of [s], if [s]
    starts with one. *)
Definition after_space (s : string) : option string :=
  match s with
  | EmptyString => None
  | String c1 s1 =>
      if space1 c1 then Some s1
      else match s1 with
           | EmptyString => None
           | String c2 s2 =>
               if space2 c1 c2 then Some s2
               else match s2 with
                    | EmptyString => None
                    | String c3 s3 => if space3 c1 c2 c3 then Some s3 else None
                    end
           end
  end.

Definition starts_space (s : string) : bool :=
  match after_space s with Some _ => true | None => false end.

Definition isupper (c : ascii) : bool :=
  let n := nat_of_ascii c in (65 <=? n)%nat && (n <=? 90)%nat.

Definition islower (c : ascii) : bool :=
  let n := nat_of_ascii c in (97 <=? n)%nat && (n <=? 122)%nat.

Definition isdigit (c : ascii) : bool :=
  let n := nat_of_ascii c in (48 <=? n)%nat && (n <=? 57)%nat.

Definition lower_char (c : ascii) : ascii :=
  if isupper c then ascii_of_nat (nat_of_ascii c + 32) else c.

(** [s.lower()] *)
Fixpoint lower (s : string) : string :=
  match s with
  | EmptyString => EmptyString
  | String c s' => String (lower_char c) (lower s')
  end.

(** A byte of the form 10xxxxxx: it continues the UTF-8 sequence of a
    character. *)
Definition is_continuation (c : ascii) : bool :=
  let b := N_of_ascii c in ((128 <=? b) && (b <? 192))%N.

(** [len(s)]: the number of characters, one for every byte that starts a
    UTF-8 sequence. *)
Fixpoint len (s : string) : nat :=
  match s with
  | EmptyString => 0
  | String c s' => if is_continuation c then len s' else S (len s')
  end.

(** [s.startswith(p)] *)
Definition startswith (s p : string) : bool := String.prefix p s.

(** [needle in s] *)
Fixpoint contains (needle s : string) : bool :=
  String.prefix needle s ||
  match s with
  | EmptyString => false
  | String _ s' => contains needle s'
  end.

(** Truth value of a string: [not s] is [is_empty s]. *)
Definition is_empty (s : string) : bool :=
  match s with EmptyString => true | String _ _ => false end.

(** [x or y] on strings. *)
Definition or_else (x y : string) : string := if is_empty x then y else x.

(** [s.lstrip()]: the whitespace characters at the head are dropped, as in
    [after_space], one after the other. *)
Fixpoint lstrip (s : string) : string :=
  match s with
  | EmptyString => EmptyString
  | String c1 s1 =>
      if space1 c1 then lstrip s1
      else match s1 with
           | EmptyString => s
           | String c2 s2 =>
               if space2 c1 c2 then lstrip s2
               else match s2 with
                    | EmptyString => s
                    | String c3 s3 => if space3 c1 c2 c3 then lstrip s3 else s
                    end
           end
  end.

(** [s] is made of whitespace characters only. *)
Fixpoint all_space (s : string) : bool :=
  match s with
  | EmptyString => true
  | String c1 s1 =>
      if space1 c1 then all_space s1
      else match s1 with
           | EmptyString => false
           | String c2 s2 =>
               if space2 c1 c2 then all_space s2
               else match s2 with
                    | EmptyString => false
                    | String c3 s3 => if space3 c1 c2 c3 then all_space s3 else false
                    end
           end
  end.

(** [s.rstrip()]: the text is cut where only whitespace follows. *)
Fixpoint rstrip (s : string) : string :=
  match s with
  | EmptyString => EmptyString
  | String c s' => if all_space s then EmptyString else String c (rstrip s')
  end.

(** [s.strip()] *)
Definition strip (s : string) : string := rstrip (lstrip s).

(** [s.split(sep)] for a one-character separator: every occurrence cuts,
    empty pieces are kept, the result is never empty. *)
Fixpoint split (sep : ascii) (s : string) : list string :=
  match s with
  | EmptyString => [EmptyString]
  | String c s' =>
      if Ascii.eqb c sep then EmptyString :: split sep s'
      else match split sep s' with
           | [] => [String c EmptyString]
           | w :: ws => String c w :: ws
           end
  end.

(** The pieces of [s.split()] when [s] is the byte [c] of a word followed
    by [s'] with the pieces [rest]: [c] joins the first piece unless
    whitespace follows it. *)
Definition word_byte (c : ascii) (s' : string) (rest : list string) : list string :=
  if starts_space s' then String c EmptyString :: rest
  else match rest with
       | [] => [String c EmptyString]
       | w :: ws => String c w :: ws
       end.

(** [s.split()]: cut at runs of whitespace, no empty pieces. *)
Fixpoint split_ws (s : string) : list string :=
  match s with
  | EmptyString => []
  | String c1 s1 =>
      if space1 c1 then split_ws s1
      else match s1 with
           | EmptyString => word_byte c1 s1 (split_ws s1)
           | String c2 s2 =>
               if space2 c1 c2 then split_ws s2
               else match s2 with
                    | EmptyString => word_byte c1 s1 (split_ws s1)
                    | String c3 s3 =>
                        if space3 c1 c2 c3 then split_ws s3
                        else word_byte c1 s1 (split_ws s1)
                    end
           end
  end.

(** *** Line breaks

    [str.splitlines] cuts at LF, VT, FF, CR, FS, GS, RS, the pair CR LF,
    U+0085 (C2 85), U+2028 and U+2029 (E2 80 A8, E2 80 A9). *)

Definition break1 (c1 : ascii) : bool :=
  let b1 := N_of_ascii c1 in
  ((10 <=? b1) && (b1 <=? 13) || (28 <=? b1) && (b1 <=? 30))%N.

Definition break2 (c1 c2 : ascii) : bool :=
  let b1 := N_of_ascii c1 in
  let b2 := N_of_ascii c2 in
  ((b1 =? 13) && (b2 =? 10) || (b1 =? 194) && (b2 =? 133))%N.

Definition break3 (c1 c2 c3 : ascii) : bool :=
  let b1 := N_of_ascii c1 in
  let b2 := N_of_ascii c2 in
  let b3 := N_of_ascii c3 in
  ((b1 =? 226) && (b2 =? 128) && ((b3 =? 168) || (b3 =? 169)))%N.

#[global] Arguments break1 : simpl never.
#[global] Arguments break2 : simpl never.
#[global] Arguments break3 : simpl never.

(** What follows the line break at the head of [s], if [s] starts with
    one; CR LF is one break. *)
Definition after_break (s : string) : option string :=
  match s with
  | EmptyString => None
  | String c1 s1 =>
      match s1 with
      | EmptyString => if break1 c1 then Some s1 else None
      | String c2 s2 =>
          if break2 c1 c2 then Some s2
          else if break1 c1 then Some s1
          else match s2 with
               | EmptyString => None
               | String c3 s3 => if break3 c1 c2 c3 then Some s3 else None
               end
      end
  end.

(** [len(s.splitlines()) > 1]: something follows the first line break. *)
Fixpoint multiline (s : string) : bool :=
  match s with
  | EmptyString => false
  | String _ s' =>
      match after_break s with
      | Some rest => negb (is_empty rest)
      | None => multiline s'
      end
  end.

(** [sep.join(l)] *)
Definition join (sep : string) (l : list string) : string :=
  String.concat sep l.

(** [l[-1]] with a default for the empty list. *)
Definition last_or (l : list string) (d : string) : string := List.last l d.

(** ["=" * n] *)
Fixpoint repeat_str (s : string) (n : nat) : string :=
  match n with
  | O => EmptyString
  | S n' => s ++ repeat_str s n'
  end.

(** *** [urllib.parse.quote_plus] with the default [safe=''] *)

(** The always-safe set of [urllib.parse.quote]: letters, digits, [_.-~]. *)
Definition always_safe (c : ascii) : bool :=
  isupper c || islower c || isdigit c ||
  Ascii.eqb c "_" || Ascii.eqb c "." || Ascii.eqb c "-" || Ascii.eqb c "~".

Definition hex_digit (n : nat) : ascii :=
  if (n <? 10)%nat then ascii_of_nat (48 + n) else ascii_of_nat (55 + n).

(** ['%{:02X}'.format(byte)] *)
Definition percent_byte (c : ascii) : string :=
  let n := nat_of_ascii c in
  String "%" (String (hex_digit (n / 16)) (String (hex_digit (n mod 16)) EmptyString)).

Fixpoint quote_plus (s : string) : string :=
  match s with
  | EmptyString => EmptyString
  | String c s' =>
      (if always_safe c then String c EmptyString
       else if Ascii.eqb c " " then "+"
       else percent_byte c) ++ quote_plus s'
  end.

(** The inverse reading, [urllib.parse.unquote_plus], used to state that
    [quote_plus] loses nothing. *)
Definition hex_value (c : ascii) : option nat :=
  let n := nat_of_ascii c in
  if isdigit c then Some (n - 48)
  else if (65 <=? n)%nat && (n <=? 70)%nat then Some (n - 55)
  else if (97 <=? n)%nat && (n <=? 102)%nat then Some (n - 87)
  else None.

Fixpoint unquote_plus (s : string) : string :=
  match s with
  | EmptyString => EmptyString
  | String c s' =>
      let plain := String (if Ascii.eqb c "+" then " "%char else c) (unquote_plus s') in
      if Ascii.eqb c "%" then
        match s' with
        | String h (String l s'') =>
            match hex_value h, hex_value l with
            | Some a, Some b =>
                String (ascii_of_nat (16 * a + b)) (unquote_plus s'')
            | _, _ => plain
            end
        | _ => plain
        end
      else plain
  end.

End Py.

(** ** Exceptions and results *)

(** The exceptions a run can meet.  [RuntimeError] is the one the script
    raises itself; the others come out of library calls and carry the text
    that [repr] shows for them.  [RequestException], [SqliteError],
    [SMTPException] and [OutputError] stand for whatever the request, the
    sqlite call, the SMTP session and [print] raised. *)
Inductive exn : Type :=
  | RuntimeError (msg : string)
  | KeyError (key : string)
  | ValueError (shown : string)
  | OverflowError (shown : string)
  | AttributeError (shown : string)
  | ParserRejectedMarkup (shown : string)
  | RequestException (shown : string)
  | SqliteError (shown : string)
  | SMTPException (shown : string)
  | OutputError (shown : string).

(** [repr(e)].  For [RuntimeError] and [KeyError] the argument is quoted as
    Python quotes a text without quote marks or escapes. *)
Definition repr (e : exn) : string :=
  match e with
  | RuntimeError msg => "RuntimeError('" ++ msg ++ "')"
  | KeyError key => "KeyError('" ++ key ++ "')"
  | ValueError shown => shown
  | OverflowError shown => shown
  | AttributeError shown => shown
  | ParserRejectedMarkup shown => shown
  | RequestException shown => shown
  | SqliteError shown => shown
  | SMTPException shown => shown
  | OutputError shown => shown
  end.

Inductive result (A : Type) : Type :=
  | Ok (a : A)
  | Raise (e : exn).
Arguments Ok {A} a.
Arguments Raise {A} e.

#[global] Instance result_ret : MRet result := λ A a, Ok a.
#[global] Instance result_bind : MBind result :=
  λ A B f m, match m with Ok a => f a | Raise e => Raise e end.

(** What a library call does: it returns a value or raises; [shown] is the
    [repr] of what it raised. *)
Inductive outcome (A : Type) : Type :=
  | Returns (a : A)
  | Fails (shown : string).
Arguments Returns {A} a.
Arguments Fails {A} shown.

Definition lift_outcome {A} (wrap : string → exn) (o : outcome A) : result A :=
  match o with
  | Returns a => Ok a
  | Fails shown => Raise (wrap shown)
  end.

(** ** Data model *)

(** A product record as the script handles it: the tuple [(pid, title)]. *)
Definition product : Type := string * string.

(** One element of [soup.find_all("a", href=True)]: the [href] attribute as
    written and the result of [a.get_text(strip=True)]. *)
Record anchor : Type := Anchor {
  a_href : string;
  a_text : string
}.

(** One element of [soup.select("[data-product-id]")]: the attribute value
    and, for each of the four selectors tried for the title, the
    [get_text(strip=True)] of [tile.select_one(selector)] when it finds an
    element. *)
Record tile : Type := Tile {
  data_product_id : string;
  sel_a : option string;
  sel_product_name : option string;
  sel_h2 : option string;
  sel_h3 : option string
}.

(** What the script reads off a parsed document. *)
Record soup : Type := Soup {
  find_all_a_href : list anchor;
  select_data_product_id : list tile
}.

(** A row of the table [products] without its key. *)
Record row : Type := Row {
  title_col : string;
  last_seen : Z
}.

(** The table [products], keyed by [product_id]. *)
Abbreviation table := (gmap string row).

(** The message built by [send_email]. *)
Record message : Type := Message {
  msg_from : string;
  msg_to : string;
  msg_subject : string;
  msg_content : string
}.

(** The module-level configuration read from the environment. *)
Record config : Type := Config {
  SEARCH_QUERY : string;
  FIRSTCRY_SEARCH_URL : string;
  SMTP_HOST : string;
  SMTP_PORT : Z;
  SMTP_USER : string;
  SMTP_PASS : string;
  EMAIL_TO : string;
  SHOW_SAMPLE : bool
}.

(** How the [with smtplib.SMTP(...)] block of [send_email] ends. *)
Inductive session_end : Type :=
  (** the server accepted the message and the block ended normally *)
  | Accepted
  (** something raised before the server accepted the message: the
      connection, [ehlo], [starttls], [login] or [send_message] *)
  | Refused (shown : string)
  (** the server accepted the message, and leaving the block raised: [quit]
      in [SMTP.__exit__] raises on a reply other than 221 *)
  | AcceptedThenRaised (shown : string).

(** The library calls the script cannot determine.  Calls that can happen
    several times in a run are indexed by how many came before them. *)
Record externals : Type := Externals {
  (** [requests.get(url, ...)] followed by [raise_for_status()]: the text
      of the response, or what was raised. *)
  requests_get : string → nat → outcome string;
  (** [BeautifulSoup(html_text, "html.parser")]; the constructor raises
      [ParserRejectedMarkup] on markup the parser gives up on. *)
  BeautifulSoup : string → outcome soup;
  (** [urlparse(href).path]; [urlparse] raises [ValueError] on some
      malformed network locations. *)
  urlparse_path : string → outcome string;
  (** [int(time.time())] *)
  time_time : nat → Z;
  (** whether [print] raises, given how many lines were printed before and
      the line to print (an encoding error of the console, a closed
      stream) *)
  print_fault : nat → string → option string;
  (** whether the n-th sqlite call of the run raises *)
  sqlite_fault : nat → option string;
  (** how the n-th SMTP session of the run ends *)
  smtp_end : nat → session_end
}.

(** ** Extractor *)

(** [pid = parts[-1] if parts else path] with
    [parts = [p for p in path.split("/") if p]]. *)
Definition last_segment (path : string) : string :=
  let parts := List.filter (λ p, negb (Py.is_empty p)) (Py.split "/" path) in
  match parts with
  | [] => path
  | _ :: _ => Py.last_or parts path
  end.

(** The loop of lines 107-118 (marker ["/hotwheels/"]) and again of lines
    122-133 (marker ["/product/"]); [products] is the list being appended
    to. *)
Fixpoint link_loop (ext : externals) (marker : string)
    (anchors : list anchor) (products : list product) : result (list product) :=
  match anchors with
  | [] => Ok products
  | a :: anchors' =>
      let href := Py.strip (a_href a) in
      let text := a_text a in
      if Py.is_empty text then link_loop ext marker anchors' products
      else if Py.contains marker href then
        path ← lift_outcome ValueError (urlparse_path ext href);
        let pid := last_segment path in
        let title := Py.join " " (Py.split_ws text) in
        link_loop ext marker anchors' (products ++ [(pid, title)])
      else link_loop ext marker anchors' products
  end.

(** [tile.select_one("a") or tile.select_one(".product-name") or ...]: a
    found element is always true, so the first one found is taken. *)
Definition title_tag (t : tile) : option string :=
  match sel_a t with
  | Some x => Some x
  | None =>
      match sel_product_name t with
      | Some x => Some x
      | None =>
          match sel_h2 t with
          | Some x => Some x
          | None => sel_h3 t
          end
      end
  end.

(** The loop of lines 137-142. *)
Fixpoint tile_loop (tiles : list tile) (products : list product) : list product :=
  match tiles with
  | [] => products
  | t :: tiles' =>
      let pid := data_product_id t in
      let title := match title_tag t with Some x => x | None => "" end in
      if Py.is_empty pid then tile_loop tiles' products
      else tile_loop tiles' (products ++ [(Py.strip pid, Py.strip title)])
  end.

(** The loop of lines 146-154. *)
Fixpoint fallback_loop (ext : externals)
    (anchors : list anchor) (products : list product) : result (list product) :=
  match anchors with
  | [] => Ok products
  | a :: anchors' =>
      let href := Py.strip (a_href a) in
      let text := a_text a in
      if Py.is_empty text || (Py.len text <? 4)%nat then
        fallback_loop ext anchors' products
      else if Py.contains "javascript" (Py.lower href) then
        fallback_loop ext anchors' products
      else
        path ← lift_outcome ValueError (urlparse_path ext href);
        let pid :=
          Py.or_else (hd "" (Py.split "?" (Py.last_or (Py.split "/" path) ""))) href in
        fallback_loop ext anchors' (products ++ [(pid, text)])
  end.

(** The dictionary [unique]: keys in insertion order. *)
Definition dict : Type := list (string * string).

Definition dict_mem (key : string) (d : dict) : bool :=
  existsb (λ kv, String.eqb key kv.1) d.

Fixpoint dict_get (key : string) (d : dict) : result string :=
  match d with
  | [] => Raise (KeyError key)
  | (k, v) :: d' => if String.eqb key k then Ok v else dict_get key d'
  end.

(** [d[key] = value]: an existing key keeps its place. *)
Fixpoint dict_set (key value : string) (d : dict) : dict :=
  match d with
  | [] => [(key, value)]
  | (k, v) :: d' =>
      if String.eqb key k then (k, value) :: d' else (k, v) :: dict_set key value d'
  end.

Definition dict_keys (d : dict) : list string := d.*1.

(** The loop of lines 158-160. *)
Fixpoint dedup_loop (products : list product) (unique : dict) : dict :=
  match products with
  | [] => unique
  | (pid, title) :: products' =>
      if negb (Py.is_empty pid) && negb (dict_mem pid unique)
      then dedup_loop products' (dict_set pid title unique)
      else dedup_loop products' unique
  end.

(** [[(pid, unique[pid]) for pid in unique]] *)
Fixpoint pairs_of (keys : list string) (unique : dict) : result (list product) :=
  match keys with
  | [] => Ok []
  | pid :: keys' =>
      title ← dict_get pid unique;
      rest ← pairs_of keys' unique;
      Ok ((pid, title) :: rest)
  end.

Definition no_products (products : list product) : bool :=
  match products with [] => true | _ :: _ => false end.

Definition parse_products_from_html (ext : externals) (html_text : string)
    : result (list product) :=
  soup ← lift_outcome ParserRejectedMarkup (BeautifulSoup ext html_text);
  let products := [] in
  (* Primary: '/hotwheels/' links *)
  products ← link_loop ext "/hotwheels/" (find_all_a_href soup) products;
  (* Secondary: '/product/' links *)
  products ← (if no_products products
              then link_loop ext "/product/" (find_all_a_href soup) products
              else Ok products);
  (* Tertiary: data-product-id attributes *)
  products ← (if no_products products
              then Ok (tile_loop (select_data_product_id soup) products)
              else Ok products);
  (* Final fallback: any <a> with visible text *)
  products ← (if no_products products
              then fallback_loop ext (find_all_a_href soup) products
              else Ok products);
  (* Deduplicate preserving first seen title *)
  let unique := dedup_loop products [] in
  pairs_of (dict_keys unique) unique.

(** ** The world of a run *)

Record world : Type := World {
  (** lines printed so far, oldest first *)
  stdout : list string;
  (** arguments of the [time.sleep] calls so far *)
  slept : list Z;
  (** URLs of the [requests.get] calls so far *)
  requested : list string;
  (** number of clock readings so far *)
  clock_reads : nat;
  (** number of sqlite calls so far *)
  sqlite_calls : nat;
  (** the table as committed to the database file *)
  disk : table;
  (** the table as the open connection sees it, uncommitted writes included *)
  conn : table;
  (** SMTP sessions opened so far: whether STARTTLS was used, and the message *)
  smtp_sessions : list (bool * message);
  (** messages the server accepted *)
  delivered : list message
}.

Definition M (A : Type) : Type := world → result A * world.

#[global] Instance M_ret : MRet M := λ A a w, (Ok a, w).
#[global] Instance M_bind : MBind M :=
  λ A B f m w,
    match m w with
    | (Ok a, w') => f a w'
    | (Raise e, w') => (Raise e, w')
    end.

Definition raise {A} (e : exn) : M A := λ w, (Raise e, w).

(** [try: body / except Exception as e: handler e] *)
Definition try_except {A} (body : M A) (handler : exn → M A) : M A :=
  λ w,
    match body w with
    | (Ok a, w') => (Ok a, w')
    | (Raise e, w') => handler e w'
    end.

(** A pure computation that may raise, run inside [M]. *)
Definition lift_result {A} (r : result A) : M A := λ w, (r, w).

(** [print(line)]: the call returns and the line is on the output, or it
    raises; [stdout] holds the lines of the calls that returned. *)
Definition print (ext : externals) (line : string) : M unit :=
  λ w,
    match print_fault ext (List.length (stdout w)) line with
    | Some shown => (Raise (OutputError shown), w)
    | None =>
        (Ok (),
         World (stdout w ++ [line]) (slept w) (requested w) (clock_reads w)
               (sqlite_calls w) (disk w) (conn w) (smtp_sessions w) (delivered w))
    end.

(** The longest sleep [time.sleep] takes: the seconds are converted to a
    64-bit count of nanoseconds. *)
Definition max_sleep : Z := 9223372036.

Definition sleep_negative : string :=
  "ValueError('sleep length must be non-negative')".

Definition sleep_too_large : string :=
  "OverflowError('timestamp too large to convert to C _PyTime_t')".

(** [time.sleep(seconds)] for an integer: the conversion to nanoseconds
    raises [OverflowError] out of range, a negative length raises
    [ValueError], and nobody sleeps in either case. *)
Definition time_sleep (seconds : Z) : M unit :=
  λ w,
    if ((seconds <? - max_sleep) || (max_sleep <? seconds))%Z then
      (Raise (OverflowError sleep_too_large), w)
    else if (seconds <? 0)%Z then
      (Raise (ValueError sleep_negative), w)
    else
      (Ok (),
       World (stdout w) (slept w ++ [seconds]) (requested w) (clock_reads w)
             (sqlite_calls w) (disk w) (conn w) (smtp_sessions w) (delivered w)).

(** [r = requests.get(url, ...); r.raise_for_status()] *)
Definition http_get (ext : externals) (url : string) : M string :=
  λ w, (lift_outcome RequestException (requests_get ext url (List.length (requested w))),
        World (stdout w) (slept w) (requested w ++ [url]) (clock_reads w)
              (sqlite_calls w) (disk w) (conn w) (smtp_sessions w) (delivered w)).

(** [int(time.time())] *)
Definition read_clock (ext : externals) : M Z :=
  λ w, (Ok (time_time ext (clock_reads w)),
        World (stdout w) (slept w) (requested w) (S (clock_reads w))
              (sqlite_calls w) (disk w) (conn w) (smtp_sessions w) (delivered w)).

(** One sqlite call: it raises when the oracle says so, and otherwise acts
    on the pair of the committed table and the connection's table. *)
Definition sqlite_call {A} (ext : externals)
    (act : table → table → A * table * table) : M A :=
  λ w,
    let n := sqlite_calls w in
    match sqlite_fault ext n with
    | Some shown =>
        (Raise (SqliteError shown),
         World (stdout w) (slept w) (requested w) (clock_reads w)
               (S n) (disk w) (conn w) (smtp_sessions w) (delivered w))
    | None =>
        let '(a, disk', conn') := act (disk w) (conn w) in
        (Ok a,
         World (stdout w) (slept w) (requested w) (clock_reads w)
               (S n) disk' conn' (smtp_sessions w) (delivered w))
    end.

(** ** Store *)

(** [sqlite3.connect(DB_PATH)]: the connection starts from what is on disk. *)
Definition sql_connect (d c : table) : unit * table * table := ((), d, d).

(** [CREATE TABLE IF NOT EXISTS products (...)]: no row changes. *)
Definition sql_create_table (d c : table) : unit * table * table := ((), d, c).

(** [conn.commit()] *)
Definition sql_commit (d c : table) : unit * table * table := ((), c, c).

(** [SELECT COUNT( * ) FROM products] *)
Definition sql_count (d c : table) : nat * table * table := (size c, d, c).

(** [SELECT product_id FROM products WHERE product_id = ?] then
    [fetchone()]: [None] when no row has the key. *)
Definition sql_select_id (pid : string) (d c : table) : option string * table * table :=
  ((λ _, pid) <$> c !! pid, d, c).

(** [INSERT OR REPLACE INTO products (product_id, title, last_seen)] *)
Definition sql_insert_or_replace (pid title : string) (now : Z) (d c : table)
    : unit * table * table :=
  ((), d, <[pid := Row title now]> c).

(** [UPDATE products SET last_seen = ? WHERE product_id = ?] *)
Definition sql_update_last_seen (now : Z) (pid : string) (d c : table)
    : unit * table * table :=
  ((), d, alter (λ r, Row (title_col r) now) pid c).

Definition ensure_db (ext : externals) : M unit :=
  sqlite_call ext sql_connect;;
  sqlite_call ext sql_create_table;;
  sqlite_call ext sql_commit.

(** ** Fetcher *)

(** [range(lo, hi)] *)
Definition py_range (lo hi : Z) : list Z :=
  List.map (λ i, (lo + Z.of_nat i)%Z) (seq 0 (Z.to_nat (hi - lo))).

(** The loop of lines 56-68 over the remaining values of [attempt]; the
    result is [None] when the loop runs out without returning or raising. *)
Fixpoint retry_loop (ext : externals) (url : string) (retries backoff : Z)
    (attempts : list Z) : M (option string) :=
  match attempts with
  | [] => mret None
  | attempt :: attempts' =>
      try_except
        (r ← http_get ext url; mret (Some r))
        (λ e,
           if (attempt <=? retries)%Z then
             let wait := (backoff * attempt)%Z in
             print ext ("Request failed (attempt " ++ pretty attempt ++
                        ") — retrying in " ++ pretty wait ++ "s...");;
             time_sleep wait;;
             retry_loop ext url retries backoff attempts'
           else raise e)
  end.

Definition requests_get_with_retry (ext : externals) (url : string)
    (retries backoff : Z) : M (option string) :=
  retry_loop ext url retries backoff (py_range 1 (retries + 2)).

Definition is_http_url (query : string) : bool :=
  Py.startswith (Py.lower query) "http://" || Py.startswith (Py.lower query) "https://".

Definition build_fetch_url (cfg : config) (query : string) : string :=
  if is_http_url query then query
  else FIRSTCRY_SEARCH_URL cfg ++ Py.quote_plus query.

(** The [repr] of what [None.text] raises. *)
Definition none_has_no_text : string :=
  let dq := String (ascii_of_nat 34) EmptyString in
  "AttributeError(" ++ dq ++ "'NoneType' object has no attribute 'text'" ++ dq ++ ")".

Definition fetch_search_html (ext : externals) (cfg : config) (query : string) : M string :=
  let url := build_fetch_url cfg query in
  print ext ("Fetching URL: " ++ url);;
  r ← requests_get_with_retry ext url 2 2;
  match r with
  | Some text => mret text
  | None => raise (AttributeError none_has_no_text)
  end.

(** ** Notifier *)

(** The [with smtplib.SMTP(...)] block: one session.  The server accepts
    the message or not, and the block returns or raises; it can raise after
    the message was accepted. *)
Definition smtp_session (ext : externals) (starttls : bool) (msg : message) : M unit :=
  λ w,
    let sessions := (smtp_sessions w ++ [(starttls, msg)])%list in
    match smtp_end ext (List.length (smtp_sessions w)) with
    | Accepted =>
        (Ok (),
         World (stdout w) (slept w) (requested w) (clock_reads w)
               (sqlite_calls w) (disk w) (conn w) sessions (delivered w ++ [msg]))
    | Refused shown =>
        (Raise (SMTPException shown),
         World (stdout w) (slept w) (requested w) (clock_reads w)
               (sqlite_calls w) (disk w) (conn w) sessions (delivered w))
    | AcceptedThenRaised shown =>
        (Raise (SMTPException shown),
         World (stdout w) (slept w) (requested w) (clock_reads w)
               (sqlite_calls w) (disk w) (conn w) sessions (delivered w ++ [msg]))
    end.

(** What [msg[name] = value] raises for a value of more than one line. *)
Definition header_error : string :=
  "ValueError('Header values may not contain linefeed or carriage return characters')".

(** Lines 169-173: the three headers are set in the order From, To,
    Subject, and each assignment raises [ValueError] when
    [len(value.splitlines()) > 1]. *)
Definition build_message (cfg : config) (subject body : string) : result message :=
  if Py.multiline (SMTP_USER cfg) || Py.multiline (EMAIL_TO cfg) || Py.multiline subject
  then Raise (ValueError header_error)
  else Ok (Message (SMTP_USER cfg) (EMAIL_TO cfg) subject body).

Definition email_configured (cfg : config) : bool :=
  negb (Py.is_empty (SMTP_HOST cfg) || Py.is_empty (SMTP_USER cfg) ||
        Py.is_empty (SMTP_PASS cfg) || Py.is_empty (EMAIL_TO cfg)).

Definition send_email (ext : externals) (cfg : config) (subject body : string) : M unit :=
  if negb (email_configured cfg) then
    print ext "Email not configured properly. Skipping email send.";;
    print ext ("Subject: " ++ subject)
  else
    msg ← lift_result (build_message cfg subject body);
    smtp_session ext (SMTP_PORT cfg =? 587)%Z msg;;
    print ext ("Email sent: " ++ subject).

Definition newline : string := String (ascii_of_nat 10) EmptyString.

(** Lines 221-224: the body of the mail that lists the new items. *)
Definition new_items_body (cfg : config) (new_found : list product) : string :=
  let lines :=
    ("New items found for '" ++ SEARCH_QUERY cfg ++ "' on FirstCry (" ++
     pretty (List.length new_found) ++ "):") ::
    List.map (λ p : product, "• " ++ p.2 ++ " — id: " ++ p.1) new_found in
  Py.join newline lines.

(** Lines 220-229. *)
Definition notify (ext : externals) (cfg : config)
    (new_found : list product) (prev_count curr_count : nat) : M unit :=
  if negb (no_products new_found) then
    send_email ext cfg ("[FirstCry] New items for " ++ SEARCH_QUERY cfg)
               (new_items_body cfg new_found)
  else if (prev_count <? curr_count)%nat then
    send_email ext cfg ("[FirstCry] Count increased for " ++ SEARCH_QUERY cfg)
               ("Count: " ++ pretty prev_count ++ " → " ++ pretty curr_count)
  else
    print ext "No new items found this run.".

(** ** Change detection *)

(** The loop of lines 207-214; [new_found] is the list being appended to. *)
Fixpoint detect_loop (ext : externals) (now : Z)
    (products : list product) (new_found : list product) : M (list product) :=
  match products with
  | [] => mret new_found
  | (pid, title) :: products' =>
      found ← sqlite_call ext (sql_select_id pid);
      match found with
      | None =>
          sqlite_call ext (sql_insert_or_replace pid title now);;
          detect_loop ext now products' (new_found ++ [(pid, title)])
      | Some _ =>
          sqlite_call ext (sql_update_last_seen now pid);;
          detect_loop ext now products' new_found
      end
  end.

(** Lines 202-216: the result is [(new_found, prev_count, curr_count)]. *)
Definition detect_changes (ext : externals) (products : list product)
    : M (list product * nat * nat) :=
  now ← read_clock ext;
  prev_count ← sqlite_call ext sql_count;
  new_found ← detect_loop ext now products [];
  sqlite_call ext sql_commit;;
  let curr_count := List.length products in
  mret (new_found, prev_count, curr_count).

(** ** The run *)

Definition suspicious_message : string :=
  "Fetched HTML is suspiciously small — possible blocking or incorrect URL.".

(** Lines 199-200, [i] being the number of the next line. *)
Fixpoint print_sample (ext : externals) (i : nat) (products : list product) : M unit :=
  match products with
  | [] => mret ()
  | (pid, title) :: products' =>
      print ext (pretty i ++ ". " ++ title ++ " — id: " ++ pid);;
      print_sample ext (S i) products'
  end.

(** Lines 186-191: banner, database, download. *)
Definition open_and_fetch (ext : externals) (cfg : config) : M string :=
  print ext (Py.repeat_str "=" 40);;
  print ext ("FirstCry Monitor — query: '" ++ SEARCH_QUERY cfg ++ "'");;
  ensure_db ext;;
  fetch_search_html ext cfg (SEARCH_QUERY cfg).

(** Lines 186-216: everything up to and including the commit; the result
    is [(new_found, prev_count, curr_count)]. *)
Definition gather (ext : externals) (cfg : config) : M (list product * nat * nat) :=
  html_text ← open_and_fetch ext cfg;
  if Py.is_empty html_text || (Py.len html_text <? 100)%nat then
    raise (RuntimeError suspicious_message)
  else
    products ← lift_result (parse_products_from_html ext html_text);
    (if SHOW_SAMPLE cfg then
       print ext "First 10 parsed products (sample):";;
       print_sample ext 1 (take 10 products)
     else mret ());;
    detect_changes ext products.

(** Lines 218-231: report and notify. *)
Definition report (ext : externals) (cfg : config)
    (found : list product * nat * nat) : M unit :=
  let '(new_found, prev_count, curr_count) := found in
  print ext ("Parsed products: " ++ pretty curr_count ++
             " (previous stored: " ++ pretty prev_count ++ ")");;
  notify ext cfg new_found prev_count curr_count;;
  print ext "Run complete.".

(** The [try] block of [main]. *)
Definition main_body (ext : externals) (cfg : config) : M unit :=
  found ← gather ext cfg;
  report ext cfg found.

(** The handler of [main]: log, then try to mail, and swallow what the
    mailing raises. *)
Definition handle_error (ext : externals) (cfg : config) (e : exn) : M unit :=
  print ext ("Error: " ++ repr e);;
  try_except
    (send_email ext cfg ("[FirstCry Monitor] Error for " ++ SEARCH_QUERY cfg) (repr e))
    (λ _, mret ()).

Definition main (ext : externals) (cfg : config) : M unit :=
  try_except (main_body ext cfg) (handle_error ext cfg).

(** A world in which nothing has happened yet and the database file holds
    [d]. *)
Definition fresh_world (d : table) : world :=
  World [] [] [] 0 0 d ∅ [] [].

(** ** Notions used to state the properties *)

(** A text that starts with [http://] or [https://], in any letter case. *)
Definition absolute_http_url (query : string) : Prop :=
  ∃ scheme rest, query = scheme ++ rest ∧
    (Py.lower scheme = "http://" ∨ Py.lower scheme = "https://").

(** The characters a percent-encoded text is made of. *)
Definition encoded_char (c : ascii) : bool :=
  Py.always_safe c || Ascii.eqb c "+" || Ascii.eqb c "%".

(** What tier [i] (0 primary, 1 secondary, 2 tertiary, 3 fallback) appends
    when it runs on an empty list of products. *)
Definition tier (ext : externals) (s : soup) (i : nat) : result (list product) :=
  match i with
  | 0 => link_loop ext "/hotwheels/" (find_all_a_href s) []
  | 1 => link_loop ext "/product/" (find_all_a_href s) []
  | 2 => Ok (tile_loop (select_data_product_id s) [])
  | _ => fallback_loop ext (find_all_a_href s) []
  end.

(** [(pid, title)] is the first record of [products] with the id [pid]. *)
Definition first_occurrence (pid title : string) (products : list product) : Prop :=
  ∃ before after, products = (before ++ (pid, title) :: after)%list ∧ pid ∉ before.*1.

(** In [products] the record [p] is the first with its id, [q] is the first
    with its own, and [p] stands before [q]. *)
Definition first_before (p q : product) (products : list product) : Prop :=
  ∃ before between after,
    products = (before ++ p :: between ++ q :: after)%list ∧
    (p.1 ∉ before.*1) ∧ (q.1 ∉ ((before ++ p :: between)%list).*1).

(** [m] relates every world it starts from to the world it ends in by [R],
    whether it returns or raises. *)
Definition preserves {A} (R : world → world → Prop) (m : M A) : Prop :=
  ∀ w, R w (m w).2.

(** Nothing touched the database or the clock. *)
Definition same_database (w w' : world) : Prop :=
  disk w' = disk w ∧ conn w' = conn w ∧
  clock_reads w' = clock_reads w ∧ sqlite_calls w' = sqlite_calls w.

(** No sqlite call raises in this run. *)
Definition sqlite_sound (ext : externals) : Prop :=
  ∀ n, sqlite_fault ext n = None.

(** No [print] raises in this run. *)
Definition console_sound (ext : externals) : Prop :=
  ∀ n line, print_fault ext n line = None.

(** A length [time.sleep] takes. *)
Definition sleepable (seconds : Z) : Prop :=
  (0 ≤ seconds ≤ max_sleep)%Z.

(** The records that are new for a store holding the ids [known]: those
    whose id is neither in [known] nor carried by an earlier record. *)
Fixpoint new_records (known : gset string) (products : list product) : list product :=
  match products with
  | [] => []
  | p :: rest =>
      if decide (p.1 ∈ known) then new_records known rest
      else p :: new_records ({[p.1]} ∪ known) rest
  end.

(** The table after every record of [products] was written at time [now]:
    an unknown id gets a row, a known one gets the new time. *)
Fixpoint store_after (now : Z) (products : list product) (c : table) : table :=
  match products with
  | [] => c
  | (pid, title) :: rest =>
      store_after now rest
        (match c !! pid with
         | None => <[pid := Row title now]> c
         | Some _ => alter (λ r, Row (title_col r) now) pid c
         end)
  end.

(** Whatever [m] raises satisfies [P]. *)
Definition raises_only {A} (P : exn → Prop) (m : M A) : Prop :=
  ∀ w e w', m w = (Raise e, w') → P e.

(** The exceptions that come out of a library call, as opposed to the one
    the script raises itself. *)
Definition from_library (e : exn) : Prop :=
  match e with
  | RuntimeError _ => False
  | _ => True
  end.

(** The SMTP session [send_email] opens for a subject and a body, with
    the STARTTLS flag and the message: none with incomplete mail settings,
    and none when a header has more than one line. *)
Definition mail_attempt (cfg : config) (subject body : string) : option (bool * message) :=
  if email_configured cfg then
    match build_message cfg subject body with
    | Ok mail => Some ((SMTP_PORT cfg =? 587)%Z, mail)
    | Raise _ => None
    end
  else None.

(** The server accepted the message of a session that ends so. *)
Definition accepts (e : session_end) : bool :=
  match e with
  | Refused _ => false
  | Accepted | AcceptedThenRaised _ => true
  end.

(** The messages the server accepts in the n-th session of the run, when
    that session is [attempt]. *)
Definition accepted_of (ext : externals) (n : nat) (attempt : option (bool * message))
    : list message :=
  match attempt with
  | Some (_, mail) => if accepts (smtp_end ext n) then [mail] else []
  | None => []
  end.

(** [ext] with another HTML parser and another [urlparse]. *)
Definition with_parser (ext : externals) (bs : string → outcome soup)
    (up : string → outcome string) : externals :=
  Externals (requests_get ext) bs up (time_time ext) (print_fault ext)
            (sqlite_fault ext) (smtp_end ext).

(** A word: a non-empty text without whitespace; no whitespace character
    starts anywhere in it. *)
Fixpoint no_space (s : string) : bool :=
  match s with
  | EmptyString => true
  | String c s' => negb (Py.starts_space s) && no_space s'
  end.

Definition is_word (s : string) : bool := negb (Py.is_empty s) && no_space s.

(** ** Further notions *)

(** [s] is made of the character [c] only. *)
Fixpoint only_char (c : ascii) (s : string) : bool :=
  match s with
  | EmptyString => true
  | String d s' => Ascii.eqb d c && only_char c s'
  end.

(** The anchors a link tier with the given marker takes a record from. *)
Definition link_match (marker : string) (a : anchor) : bool :=
  negb (Py.is_empty (a_text a)) && Py.contains marker (Py.strip (a_href a)).

(** The anchors the fallback tier takes a record from. *)
Definition fallback_match (a : anchor) : bool :=
  negb (Py.is_empty (a_text a) || (Py.len (a_text a) <? 4)%nat) &&
  negb (Py.contains "javascript" (Py.lower (Py.strip (a_href a)))).

(** No SMTP session was opened. *)
Definition same_mail (w w' : world) : Prop :=
  smtp_sessions w' = smtp_sessions w ∧ delivered w' = delivered w.

(** No request was made and nobody slept. *)
Definition same_network (w w' : world) : Prop :=
  requested w' = requested w ∧ slept w' = slept w.

(** The messages the server accepted in the sessions [ss], the first of
    which is session number [start] of the run. *)
Fixpoint accepted_in (ext : externals) (start : nat) (ss : list (bool * message))
    : list message :=
  match ss with
  | [] => []
  | s :: ss' =>
      ((if accepts (smtp_end ext start) then [s.2] else []) ++
       accepted_in ext (S start) ss')%list
  end.

(** A session as [send_email] opens it: STARTTLS exactly on port 587, the
    configured sender and recipient, and headers of one line each. *)
Definition session_of (cfg : config) (s : bool * message) : Prop :=
  s.1 = (SMTP_PORT cfg =? 587)%Z ∧
  msg_from s.2 = SMTP_USER cfg ∧ msg_to s.2 = EMAIL_TO cfg ∧
  Py.multiline (msg_from s.2) = false ∧ Py.multiline (msg_to s.2) = false ∧
  Py.multiline (msg_subject s.2) = false.



(** Between [w] and [w'] some lines were printed, and nothing printed
    before was taken back; each of the new lines satisfies [P]. *)
Definition printed (P : string → Prop) (w w' : world) : Prop :=
  ∃ lines, stdout w' = (stdout w ++ lines)%list ∧ Forall P lines.

(** A printed line other than the closing line of a run. *)
Definition not_closing (line : string) : Prop := line ≠ "Run complete.".

(** The worlds agree on everything but what was printed. *)
Definition same_but_stdout (w w' : world) : Prop :=
  slept w' = slept w ∧ requested w' = requested w ∧
  clock_reads w' = clock_reads w ∧ sqlite_calls w' = sqlite_calls w ∧
  disk w' = disk w ∧ conn w' = conn w ∧
  smtp_sessions w' = smtp_sessions w ∧ delivered w' = delivered w.

(** [m] does not read what was printed: from two worlds that agree on
    everything else it gives the same result and prints the same lines, and
    the worlds still agree afterwards. *)
Definition output_blind {A} (m : M A) : Prop :=
  ∀ w1 w2,
    same_but_stdout w1 w2 →
    (m w1).1 = (m w2).1 ∧
    same_but_stdout (m w1).2 (m w2).2 ∧
    ∃ lines, stdout (m w1).2 = (stdout w1 ++ lines)%list ∧
             stdout (m w2).2 = (stdout w2 ++ lines)%list.

(** The configuration with [SHOW_SAMPLE] set to [b]. *)
Definition with_sample (cfg : config) (b : bool) : config :=
  Config (SEARCH_QUERY cfg) (FIRSTCRY_SEARCH_URL cfg) (SMTP_HOST cfg) (SMTP_PORT cfg)
         (SMTP_USER cfg) (SMTP_PASS cfg) (EMAIL_TO cfg) b.

(** The lines of the sample, numbered from [i]. *)
Definition numbered_from (i : nat) (products : list product) : list string :=
  imap (λ j (p : product), pretty (i + j)%nat ++ ". " ++ p.2 ++ " — id: " ++ p.1)
       products.

(** What lines 198-200 print for [products]. *)
Definition sample_lines (products : list product) : list string :=
  "First 10 parsed products (sample):" :: numbered_from 1 (take 10 products).

(** The products a run extracts from the page it downloads, if it gets as
    far as line 195 and the extraction returns. *)
Definition extracted (ext : externals) (cfg : config) (w : world) : option (list product) :=
  match (open_and_fetch ext cfg w).1 with
  | Ok html_text =>
      if Py.is_empty html_text || (Py.len html_text <? 100)%nat then None
      else match parse_products_from_html ext html_text with
           | Ok products => Some products
           | Raise _ => None
           end
  | Raise _ => None
  end.

(** What the handler prints after the line of the error on a console that
    takes every line: nothing when the message could not be built or the
    SMTP session raised, and otherwise what [send_email] prints. *)
Definition handler_lines (cfg : config) (subject : string) (lines : list string) : Prop :=
  lines = [] ∨ lines = ["Email sent: " ++ subject] ∨
  lines = ["Email not configured properly. Skipping email send."; "Subject: " ++ subject].

(** ** Example data *)

Module Ex.

Definition cfg : config :=
  Config "hot wheels" "https://www.firstcry.com/search?query="
         "smtp.gmail.com" 587 "monitor@example.com" "secret" "owner@example.com" false.

(** A page of 170 characters. *)
Definition page : string := Py.repeat_str "<p>0123456789</p>" 10.

(** [urlparse(href).path] for a relative reference without parameters or
    fragment: the part before the query. *)
Definition path_of (href : string) : outcome string :=
  Returns (hd "" (Py.split "?" href)).

(** Two primary-tier links to the same product, with different texts, and
    a third link. *)
Definition primary_soup : soup :=
  Soup [Anchor " /hotwheels/car-1 " "Red  Car";
        Anchor "/hotwheels/car-1?ref=top" "Blue Car";
        Anchor "/hotwheels/car-2" "Van"]
       [].

(** No primary-tier link, one secondary-tier link, and material for the
    two later tiers. *)
Definition secondary_soup : soup :=
  Soup [Anchor "/about-us" "About us"; Anchor "/product/9" "Pedal car"]
       [Tile "77" None (Some "Scooter") None None].

(** The two links to the same product alone. *)
Definition twin_soup : soup :=
  Soup [Anchor " /hotwheels/car-1 " "Red  Car";
        Anchor "/hotwheels/car-1?ref=top" "Blue Car"]
       [].

(** The network fails twice and then answers with [page]. *)
Definition flaky_get (url : string) (n : nat) : outcome string :=
  if (n <? 2)%nat then Fails "ConnectionError()" else Returns page.

Definition ext : externals :=
  Externals flaky_get (λ _, Returns primary_soup) path_of (λ _, 1700000000%Z)
            (λ _ _, None) (λ _, None) (λ _, Accepted).

Definition twin_ext : externals :=
  Externals flaky_get (λ _, Returns twin_soup) path_of (λ _, 1700000000%Z)
            (λ _ _, None) (λ _, None) (λ _, Accepted).

Definition secondary_ext : externals :=
  Externals flaky_get (λ _, Returns secondary_soup) path_of (λ _, 1700000000%Z)
            (λ _ _, None) (λ _, None) (λ _, Accepted).

(** The server answers at once with a page of 7 characters. *)
Definition blocked_ext : externals :=
  Externals (λ _ _, Returns "blocked") (λ _, Returns primary_soup) path_of
            (λ _, 1700000000%Z) (λ _ _, None) (λ _, None) (λ _, Accepted).

(** As [ext], but the eighth sqlite call of the run, the write of the
    second record, fails, and so does every SMTP session. *)
Definition faulty_ext : externals :=
  Externals flaky_get (λ _, Returns primary_soup) path_of (λ _, 1700000000%Z)
            (λ _ _, None)
            (λ n, if (n =? 7)%nat then Some "OperationalError('disk I/O error')" else None)
            (λ _, Refused "SMTPServerDisconnected('Connection unexpectedly closed')").

(** The output stream is closed: every [print] raises. *)
Definition mute_ext : externals :=
  Externals flaky_get (λ _, Returns primary_soup) path_of (λ _, 1700000000%Z)
            (λ _ _, Some "ValueError('I/O operation on closed file.')")
            (λ _, None) (λ _, Accepted).


(** U+00A0, the no-break space, and U+00E9, e with acute accent. *)
Definition nbsp : string := String (ascii_of_nat 194) (String (ascii_of_nat 160) EmptyString).
Definition e_acute : string := String (ascii_of_nat 195) (String (ascii_of_nat 169) EmptyString).

(** A page of 60 characters and 120 bytes. *)
Definition short_page : string := Py.repeat_str e_acute 60.

Definition short_ext : externals :=
  Externals (λ _ _, Returns short_page) (λ _, Returns primary_soup) path_of
            (λ _, 1700000000%Z) (λ _ _, None) (λ _, None) (λ _, Accepted).

(** Two links to the same product; the first has no-break spaces around
    the link and inside the text. *)
Definition nbsp_soup : soup :=
  Soup [Anchor (nbsp ++ "/hotwheels/x" ++ nbsp) ("Red" ++ nbsp ++ "Car  Two");
        Anchor "/hotwheels/x" "Blue Car"]
       [].

Definition nbsp_ext : externals :=
  Externals flaky_get (λ _, Returns nbsp_soup) path_of (λ _, 1700000000%Z)
            (λ _ _, None) (λ _, None) (λ _, Accepted).

(** A database file that already knows [car-1]. *)
Definition seeded : table := {["car-1" := Row "Red Car" 1600000000]}.

(** A store that knows [A] and [B]. *)
Definition store_ab : table :=
  <["A" := Row "a" 1600000000]> {["B" := Row "b" 1600000001]}.

Definition world_ab : world := World [] [] [] 0 0 store_ab store_ab [] [].

Definition abc : list product := [("A", "a2"); ("B", "b2"); ("C", "c")].

End Ex.

(** ** More example data *)

Module Ex2.

(** The only tile has a blank [data-product-id]; the anchor would do for the
    fallback tier. *)
Definition blank_tile_soup : soup :=
  Soup [Anchor "/about-us" "About us"] [Tile "  " None None None None].

Definition blank_tile_ext : externals :=
  Externals Ex.flaky_get (λ _, Returns blank_tile_soup) Ex.path_of (λ _, 1700000000%Z)
            (λ _ _, None) (λ _, None) (λ _, Accepted).

(** A page without anchors and tiles. *)
Definition empty_ext : externals :=
  Externals Ex.flaky_get (λ _, Returns (Soup [] [])) Ex.path_of (λ _, 1700000000%Z)
            (λ _ _, None) (λ _, None) (λ _, Accepted).

(** Every request fails, each with its own message. *)
Definition refused (n : nat) : string :=
  "ConnectionError('attempt " ++ pretty n ++ "')".

Definition dead_ext : externals :=
  Externals (λ _ n, Fails (refused n)) (λ _, Returns Ex.primary_soup) Ex.path_of
            (λ _, 1700000000%Z) (λ _ _, None) (λ _, None) (λ _, Accepted).

(** [urlparse] rejects every link. *)
Definition strict_ext : externals :=
  Externals Ex.flaky_get (λ _, Returns Ex.primary_soup)
            (λ _, Fails "ValueError('Invalid IPv6 URL')") (λ _, 1700000000%Z)
            (λ _ _, None) (λ _, None) (λ _, Accepted).

(** The first SMTP session breaks off after the server has accepted the
    message; the later ones go through. *)
Definition late_ext : externals :=
  Externals Ex.flaky_get (λ _, Returns Ex.primary_soup) Ex.path_of (λ _, 1700000000%Z)
            (λ _ _, None) (λ _, None)
            (λ n, match n with
                  | 0 => AcceptedThenRaised
                           "SMTPServerDisconnected('Connection unexpectedly closed')"
                  | _ => Accepted
                  end).

(** Anchors for the fallback tier: a short label, a label of two
    characters in four bytes, a script link, a plain link, a directory link
    and an empty link. *)
Definition fallback_anchors : list anchor :=
  [Anchor "/x" "abc"; Anchor "/y" (Ex.e_acute ++ Ex.e_acute);
   Anchor "JavaScript:void(0)" "Open menu";
   Anchor "/toys/robot-7?ref=1" "Robot"; Anchor "/toys/" "All toys";
   Anchor "" "Nowhere"].

Definition tiles : list tile :=
  [Tile " 77 " None (Some "Scooter") (Some "Ignored") None;
   Tile "" (Some "No id") None None None;
   Tile "78" None None None None].

End Ex2.

(** * Properties *)

(** ** URL building *)

Lemma append_cons (c : ascii) (a b : string) : String c a ++ b = String c (a ++ b).
Proof. reflexivity. Qed.

Lemma append_empty (b : string) : "" ++ b = b.
Proof. reflexivity. Qed.

Lemma prefix_app_iff (p s : string) :
  String.prefix p s = true ↔ ∃ r, s = p ++ r.
Proof.
  revert s. induction p as [| a p IH]; intros s; simpl.
  - destruct s; split; eauto.
  - destruct s as [| b s]; simpl.
    + split; [discriminate | intros [r Hr]; rewrite append_cons in Hr; discriminate].
    + destruct (Ascii.ascii_dec a b) as [-> | Hne].
      * rewrite IH. split; intros [r Hr]; exists r; rewrite ?append_cons in *; congruence.
      * split; [discriminate | intros [r Hr]; rewrite append_cons in Hr; congruence].
Qed.

Lemma lower_app (a b : string) : Py.lower (a ++ b) = Py.lower a ++ Py.lower b.
Proof. induction a as [| c a IH]; simpl; [done | by rewrite IH]. Qed.

Lemma lower_split (q p r : string) :
  Py.lower q = p ++ r → ∃ a b, q = a ++ b ∧ Py.lower a = p ∧ Py.lower b = r.
Proof.
  revert q. induction p as [| c p IH]; intros q H; simpl in *.
  - by exists "", q.
  - destruct q as [| d q]; simpl in H; [discriminate |].
    injection H as Hc Hq. destruct (IH _ Hq) as (a & b & -> & Ha & Hb).
    exists (String d a), b. simpl. by rewrite Hc, Ha.
Qed.

Lemma is_http_url_iff (query : string) :
  is_http_url query = true ↔ absolute_http_url query.
Proof.
  unfold is_http_url, absolute_http_url, Py.startswith.
  rewrite orb_true_iff, !prefix_app_iff. split.
  - intros [[r H] | [r H]]; apply lower_split in H as (a & b & -> & Ha & _); eauto.
  - intros (scheme & rest & -> & [H | H]); rewrite lower_app, H; eauto.
Qed.

Lemma percent_byte_encodedb (c : ascii) :
  forallb encoded_char (list_ascii_of_string (Py.percent_byte c)) = true.
Proof. destruct c as [[] [] [] [] [] [] [] []]; vm_compute; reflexivity. Qed.

Lemma percent_byte_encoded (c : ascii) :
  Forall (λ x, encoded_char x = true) (list_ascii_of_string (Py.percent_byte c)).
Proof.
  apply Forall_forall. intros x Hx. apply list_elem_of_In in Hx.
  exact (proj1 (forallb_forall _ _) (percent_byte_encodedb c) x Hx).
Qed.

Lemma list_ascii_of_string_app (a b : string) :
  list_ascii_of_string (a ++ b) = (list_ascii_of_string a ++ list_ascii_of_string b)%list.
Proof. induction a as [| c a IH]; simpl; [done | by rewrite IH]. Qed.

Lemma quote_plus_encoded (s : string) :
  Forall (λ x, encoded_char x = true) (list_ascii_of_string (Py.quote_plus s)).
Proof.
  induction s as [| c s IH]; simpl; [constructor |].
  rewrite list_ascii_of_string_app. apply Forall_app. split; [| done].
  destruct (Py.always_safe c) eqn:Hs.
  - repeat constructor. unfold encoded_char. by rewrite Hs.
  - destruct (Ascii.eqb c " "); [by repeat constructor | apply percent_byte_encoded].
Qed.

Lemma unquote_percent_byte (c : ascii) (t : string) :
  Py.unquote_plus (Py.percent_byte c ++ t) = String c (Py.unquote_plus t).
Proof. destruct c as [[] [] [] [] [] [] [] []]; reflexivity. Qed.

Lemma unquote_safe (c : ascii) (t : string) :
  Py.always_safe c = true →
  Py.unquote_plus (String c t) = String c (Py.unquote_plus t).
Proof.
  destruct c as [[] [] [] [] [] [] [] []]; intros H;
    first [reflexivity | vm_compute in H; discriminate H].
Qed.

Lemma unquote_quote_plus (s : string) : Py.unquote_plus (Py.quote_plus s) = s.
Proof.
  induction s as [| c s IH]; [done |].
  change (Py.quote_plus (String c s)) with
    ((if Py.always_safe c then String c EmptyString
      else if Ascii.eqb c " " then "+" else Py.percent_byte c) ++ Py.quote_plus s).
  destruct (Py.always_safe c) eqn:Hs.
  - change (String c "" ++ Py.quote_plus s) with (String c (Py.quote_plus s)).
    by rewrite unquote_safe, IH.
  - destruct (Ascii.eqb_spec c " ") as [-> | Hne].
    + change ("+" ++ Py.quote_plus s) with (String "+" (Py.quote_plus s)).
      simpl. by rewrite IH.
    + by rewrite unquote_percent_byte, IH.
Qed.

(** C8.  A query that already starts with [http://] or [https://] (in any
    letter case) is the URL, unchanged.  Any other query is percent-encoded
    by [quote_plus] and appended to the configured search prefix; the
    encoded text is made only of letters, digits, [_.-~], [+] and [%], and
    decoding it gives the query back. *)
Theorem build_fetch_url_spec (cfg : config) (query : string) :
  (absolute_http_url query → build_fetch_url cfg query = query) ∧
  (¬ absolute_http_url query →
     build_fetch_url cfg query = FIRSTCRY_SEARCH_URL cfg ++ Py.quote_plus query) ∧
  Forall (λ c, encoded_char c = true) (list_ascii_of_string (Py.quote_plus query)) ∧
  Py.unquote_plus (Py.quote_plus query) = query.
Proof.
  unfold build_fetch_url. split; [| split; [| split]].
  - intros H. apply is_http_url_iff in H. by rewrite H.
  - intros H. destruct (is_http_url query) eqn:E; [| done].
    by apply is_http_url_iff in E.
  - apply quote_plus_encoded.
  - apply unquote_quote_plus.
Qed.

(** ** Whitespace *)

Lemma string_len_ind (P : string → Prop) :
  (∀ s, (∀ t, (String.length t < String.length s)%nat → P t) → P s) → ∀ s, P s.
Proof.
  intros Hstep s. remember (String.length s) as n eqn:Hn. revert s Hn.
  induction n as [n IH] using lt_wf_ind. intros s ->.
  apply Hstep. intros t Ht. by apply (IH (String.length t)).
Qed.

Lemma after_space_shorter (s r : string) :
  Py.after_space s = Some r → (String.length r < String.length s)%nat.
Proof.
  destruct s as [| c1 [| c2 [| c3 s3]]]; cbn [Py.after_space];
    repeat case_match; intros [= <-]; cbn [String.length]; lia.
Qed.

(** A whitespace character at the head of a text is one at the head of
    every longer text. *)
Lemma after_space_app (s r t : string) :
  Py.after_space s = Some r → Py.after_space (s ++ t) = Some (r ++ t).
Proof.
  destruct s as [| c1 [| c2 [| c3 s3]]]; cbn [Py.after_space];
    rewrite ?append_cons, ?append_empty; cbn [Py.after_space];
    repeat case_match; intros [= <-]; rewrite ?append_empty; try done.
Qed.

Lemma starts_space_app (s t : string) :
  Py.starts_space s = true → Py.starts_space (s ++ t) = true.
Proof.
  unfold Py.starts_space. destruct (Py.after_space s) as [r |] eqn:E; [| done].
  by rewrite (after_space_app s r t E).
Qed.

Lemma starts_space_prefix (s t : string) :
  Py.starts_space (s ++ t) = false → Py.starts_space s = false.
Proof.
  intros H. destruct (Py.starts_space s) eqn:E; [| done].
  by rewrite (starts_space_app s t E) in H.
Qed.

Lemma after_space_blank (t : string) : Py.after_space (String " " t) = Some t.
Proof. reflexivity. Qed.

(** The blank is no byte of a longer whitespace character. *)
Lemma space2_blank (c1 : ascii) : Py.space2 c1 " " = false.
Proof. unfold Py.space2. cbv zeta. by destruct (N_of_ascii c1 =? 194)%N. Qed.

Lemma space3_blank_2 (c1 c3 : ascii) : Py.space3 c1 " " c3 = false.
Proof.
  unfold Py.space3. cbv zeta.
  by destruct (N_of_ascii c1 =? 225)%N, (N_of_ascii c1 =? 226)%N, (N_of_ascii c1 =? 227)%N.
Qed.

Lemma space3_blank_3 (c1 c2 : ascii) : Py.space3 c1 c2 " " = false.
Proof.
  unfold Py.space3. cbv zeta.
  by destruct (N_of_ascii c1 =? 225)%N, (N_of_ascii c1 =? 226)%N, (N_of_ascii c1 =? 227)%N,
     (N_of_ascii c2 =? 154)%N, (N_of_ascii c2 =? 128)%N, (N_of_ascii c2 =? 129)%N.
Qed.

(** A blank after a text that does not start with whitespace does not make
    it start with whitespace. *)
Lemma starts_space_blank_end (s t : string) :
  s ≠ "" → Py.starts_space s = false → Py.starts_space (s ++ String " " t) = false.
Proof.
  unfold Py.starts_space.
  destruct s as [| c1 [| c2 [| c3 s3]]]; [done | | |]; intros _;
    rewrite ?append_cons, ?append_empty; cbn [Py.after_space].
  - destruct (Py.space1 c1); [done |]. intros _. rewrite space2_blank.
    destruct t as [| c3 t]; [done |]. by rewrite space3_blank_2.
  - destruct (Py.space1 c1); [done |]. destruct (Py.space2 c1 c2); [done |].
    intros _. by rewrite space3_blank_3.
  - destruct (Py.space1 c1); [done |]. destruct (Py.space2 c1 c2); [done |].
    by destruct (Py.space3 c1 c2 c3).
Qed.

(** The three functions in terms of [after_space]. *)
Lemma lstrip_eq (s : string) :
  Py.lstrip s = match Py.after_space s with Some r => Py.lstrip r | None => s end.
Proof.
  destruct s as [| c1 s1]; [done |].
  change (Py.lstrip (String c1 s1)) with
    (if Py.space1 c1 then Py.lstrip s1
     else match s1 with
          | EmptyString => String c1 s1
          | String c2 s2 =>
              if Py.space2 c1 c2 then Py.lstrip s2
              else match s2 with
                   | EmptyString => String c1 s1
                   | String c3 s3 =>
                       if Py.space3 c1 c2 c3 then Py.lstrip s3 else String c1 s1
                   end
          end).
  cbn [Py.after_space]. destruct (Py.space1 c1); [done |].
  destruct s1 as [| c2 s2]; [done |]. destruct (Py.space2 c1 c2); [done |].
  destruct s2 as [| c3 s3]; [done |]. by destruct (Py.space3 c1 c2 c3).
Qed.

Lemma all_space_eq (s : string) :
  Py.all_space s =
  match s with
  | EmptyString => true
  | String _ _ =>
      match Py.after_space s with Some r => Py.all_space r | None => false end
  end.
Proof.
  destruct s as [| c1 s1]; [done |].
  change (Py.all_space (String c1 s1)) with
    (if Py.space1 c1 then Py.all_space s1
     else match s1 with
          | EmptyString => false
          | String c2 s2 =>
              if Py.space2 c1 c2 then Py.all_space s2
              else match s2 with
                   | EmptyString => false
                   | String c3 s3 => if Py.space3 c1 c2 c3 then Py.all_space s3 else false
                   end
          end).
  cbn [Py.after_space]. destruct (Py.space1 c1); [done |].
  destruct s1 as [| c2 s2]; [done |]. destruct (Py.space2 c1 c2); [done |].
  destruct s2 as [| c3 s3]; [done |]. by destruct (Py.space3 c1 c2 c3).
Qed.

Lemma split_ws_eq (c : ascii) (s' : string) :
  Py.split_ws (String c s') =
  match Py.after_space (String c s') with
  | Some r => Py.split_ws r
  | None => Py.word_byte c s' (Py.split_ws s')
  end.
Proof.
  change (Py.split_ws (String c s')) with
    (if Py.space1 c then Py.split_ws s'
     else match s' with
          | EmptyString => Py.word_byte c s' (Py.split_ws s')
          | String c2 s2 =>
              if Py.space2 c c2 then Py.split_ws s2
              else match s2 with
                   | EmptyString => Py.word_byte c s' (Py.split_ws s')
                   | String c3 s3 =>
                       if Py.space3 c c2 c3 then Py.split_ws s3
                       else Py.word_byte c s' (Py.split_ws s')
                   end
          end).
  cbn [Py.after_space]. destruct (Py.space1 c); [done |].
  destruct s' as [| c2 s2]; [done |]. destruct (Py.space2 c c2); [done |].
  destruct s2 as [| c3 s3]; [done |]. by destruct (Py.space3 c c2 c3).
Qed.

Lemma rstrip_eq (c : ascii) (s' : string) :
  Py.rstrip (String c s') =
  if Py.all_space (String c s') then "" else String c (Py.rstrip s').
Proof. reflexivity. Qed.

(** *** [strip] *)

Lemma lstrip_head (s : string) : Py.starts_space (Py.lstrip s) = false.
Proof.
  induction s as [s IH] using string_len_ind. rewrite lstrip_eq.
  destruct (Py.after_space s) as [r |] eqn:E.
  - apply IH. by apply after_space_shorter.
  - unfold Py.starts_space. by rewrite E.
Qed.

Lemma lstrip_fixed (s : string) : Py.starts_space s = false → Py.lstrip s = s.
Proof.
  unfold Py.starts_space. rewrite lstrip_eq. by destruct (Py.after_space s).
Qed.

Lemma all_space_app (a b : string) :
  Py.all_space a = true → Py.all_space b = true → Py.all_space (a ++ b) = true.
Proof.
  induction a as [a IH] using string_len_ind. intros Ha Hb.
  destruct a as [| c a']; [by rewrite append_empty |].
  rewrite all_space_eq in Ha.
  destruct (Py.after_space (String c a')) as [r |] eqn:E; [| done].
  rewrite all_space_eq, append_cons, <- append_cons, (after_space_app _ _ b E).
  apply IH; [by apply after_space_shorter | done | done].
Qed.

(** What [rstrip] cuts off is whitespace. *)
Lemma rstrip_split (s : string) :
  ∃ t, s = Py.rstrip s ++ t ∧ Py.all_space t = true.
Proof.
  induction s as [| c s IH]; [by exists "" |]. rewrite rstrip_eq.
  destruct (Py.all_space (String c s)) eqn:E.
  - exists (String c s). by rewrite append_empty.
  - destruct IH as (t & Ht & Hs). exists t. split; [| done].
    by rewrite append_cons, <- Ht.
Qed.

(** What [rstrip] leaves does not end with whitespace. *)
Lemma rstrip_end (s a b : string) :
  Py.rstrip s = a ++ b → b ≠ "" → Py.all_space b = false.
Proof.
  revert a. induction s as [| c s IH]; intros a.
  - cbn. destruct a, b; rewrite ?append_cons, ?append_empty; done.
  - rewrite rstrip_eq. destruct (Py.all_space (String c s)) eqn:E.
    + destruct a, b; rewrite ?append_cons, ?append_empty; done.
    + destruct a as [| d a].
      * rewrite append_empty. intros <- _.
        destruct (Py.all_space (String c (Py.rstrip s))) eqn:E2; [| done].
        destruct (rstrip_split s) as (t & Ht & Hs).
        pose proof (all_space_app _ t E2 Hs) as Hall.
        rewrite append_cons, <- Ht in Hall. congruence.
      * rewrite append_cons. intros [= _ Heq]. by apply (IH a).
Qed.

Lemma rstrip_rstrip (s : string) : Py.rstrip (Py.rstrip s) = Py.rstrip s.
Proof.
  induction s as [| c s IH]; [done |]. rewrite rstrip_eq.
  destruct (Py.all_space (String c s)) eqn:E; [done |].
  rewrite rstrip_eq, IH.
  rewrite (rstrip_end (String c s) "" (String c (Py.rstrip s))); [done | | done].
  by rewrite rstrip_eq, E, append_empty.
Qed.

Lemma rstrip_head (s : string) :
  Py.starts_space s = false → Py.starts_space (Py.rstrip s) = false.
Proof.
  destruct (rstrip_split s) as (t & Ht & _). intros H. rewrite Ht in H.
  by apply starts_space_prefix in H.
Qed.

(** [strip] leaves no whitespace at either end, and so changes nothing
    when applied again. *)
Lemma strip_ends (s : string) :
  Py.starts_space (Py.strip s) = false ∧
  (∀ a b, Py.strip s = a ++ b → b ≠ "" → Py.all_space b = false).
Proof.
  unfold Py.strip. split; [apply rstrip_head, lstrip_head |].
  intros a b. apply rstrip_end.
Qed.

Lemma strip_start (s : string) : Py.starts_space (Py.strip s) = false.
Proof. apply strip_ends. Qed.

Lemma strip_end (s a b : string) :
  Py.strip s = a ++ b → b ≠ "" → Py.all_space b = false.
Proof. apply strip_ends. Qed.

Lemma strip_strip (s : string) : Py.strip (Py.strip s) = Py.strip s.
Proof.
  unfold Py.strip. rewrite (lstrip_fixed (Py.rstrip (Py.lstrip s))).
  - apply rstrip_rstrip.
  - apply rstrip_head, lstrip_head.
Qed.

(** *** [split()] *)

Lemma no_space_head (c : ascii) (s : string) :
  no_space (String c s) = true → Py.starts_space (String c s) = false ∧ no_space s = true.
Proof.
  cbn [no_space]. intros [H1 H2]%andb_true_iff. by apply negb_true_iff in H1.
Qed.

Lemma starts_space_word (w : string) : no_space w = true → Py.starts_space w = false.
Proof. destruct w as [| c w]; [done |]. by intros [? _]%no_space_head. Qed.

Lemma split_ws_shape (s : string) :
  Forall (λ w, is_word w = true) (Py.split_ws s) ∧
  (∀ w ws, Py.split_ws s = w :: ws → Py.starts_space s = false → ∃ rest, s = w ++ rest).
Proof.
  induction s as [s IH] using string_len_ind.
  destruct s as [| c s']; [by split; [constructor |] |].
  rewrite split_ws_eq.
  destruct (Py.after_space (String c s')) as [r |] eqn:E.
  - split; [by apply IH, after_space_shorter |].
    intros w ws _ Hs. unfold Py.starts_space in Hs. by rewrite E in Hs.
  - assert (Hhead : Py.starts_space (String c s') = false) by
      (unfold Py.starts_space; by rewrite E).
    assert (Hc : Py.starts_space (String c "") = false).
    { apply (starts_space_prefix _ s'). by rewrite append_cons, append_empty. }
    assert (Hone : is_word (String c "") = true).
    { unfold is_word. cbn [Py.is_empty negb no_space andb]. by rewrite Hc. }
    destruct (IH s') as [Hwords Hprefix]; [cbn; lia |].
    unfold Py.word_byte. destruct (Py.starts_space s') eqn:Es.
    + split; [by constructor |]. intros w ws [= <- <-] _. by exists s'.
    + destruct (Py.split_ws s') as [| w' ws'].
      * split; [by repeat constructor |]. intros w ws [= <- <-] _. by exists s'.
      * destruct (Hprefix w' ws' eq_refl eq_refl) as [rest Hrest].
        apply Forall_cons in Hwords as [Hw' Hws'].
        split.
        -- constructor; [| done]. unfold is_word in *.
           apply andb_true_iff in Hw' as [_ Hw'].
           cbn [Py.is_empty negb no_space andb]. rewrite Hw', andb_true_r.
           apply negb_true_iff, (starts_space_prefix _ rest).
           by rewrite append_cons, <- Hrest.
        -- intros w ws [= <- <-] _. exists rest. by rewrite append_cons, <- Hrest.
Qed.

(** The pieces of [s.split()] are words. *)
Lemma split_ws_words (s : string) :
  Forall (λ w, is_word w = true) (Py.split_ws s).
Proof. apply split_ws_shape. Qed.

Lemma split_ws_word (w : string) : is_word w = true → Py.split_ws w = [w].
Proof.
  unfold is_word. induction w as [| c w IH]; [done |].
  cbn [Py.is_empty negb andb]. intros [Hc Hw]%no_space_head.
  rewrite split_ws_eq. unfold Py.starts_space in Hc.
  destruct (Py.after_space (String c w)); [done |].
  unfold Py.word_byte. destruct w as [| d w]; [done |].
  rewrite (starts_space_word _ Hw), IH; [done |]. by rewrite Hw.
Qed.

Lemma split_ws_blank (rest : string) :
  Py.split_ws (String " " rest) = Py.split_ws rest.
Proof. by rewrite split_ws_eq, after_space_blank. Qed.

Lemma split_ws_word_blank (w rest : string) :
  is_word w = true →
  Py.split_ws (w ++ String " " rest) = w :: Py.split_ws rest.
Proof.
  unfold is_word. induction w as [| c w IH]; [done |].
  cbn [Py.is_empty negb andb]. intros Hword.
  pose proof (no_space_head _ _ Hword) as [Hc Hw].
  assert (Hs : Py.starts_space (String c w ++ String " " rest) = false)
    by (by apply starts_space_blank_end).
  rewrite append_cons in Hs |- *. rewrite split_ws_eq.
  unfold Py.starts_space in Hs.
  destruct (Py.after_space (String c (w ++ String " " rest))); [done |].
  unfold Py.word_byte. destruct w as [| d w].
  - rewrite append_empty. by rewrite split_ws_blank.
  - rewrite (starts_space_blank_end (String d w) rest);
      [| done | by apply starts_space_word].
    rewrite IH; [done |]. by rewrite Hw.
Qed.

(** A text made of words separated by single blanks is its own
    whitespace-collapsed form. *)
Lemma join_split_ws_words (words : list string) :
  Forall (λ w, is_word w = true) words →
  Py.join " " (Py.split_ws (Py.join " " words)) = Py.join " " words.
Proof.
  intros Hwords. f_equal. unfold Py.join.
  induction Hwords as [| w words Hw Hwords IH]; [done |].
  destruct words as [| w' words].
  - by apply split_ws_word.
  - change (String.concat " " (w :: w' :: words))
      with (w ++ String " " (String.concat " " (w' :: words))).
    rewrite split_ws_word_blank by done. by rewrite IH.
Qed.

(** ** Extractor: deduplication *)

Lemma is_empty_true (s : string) : Py.is_empty s = true ↔ s = "".
Proof. destruct s; simpl; split; congruence. Qed.

Lemma is_empty_false (s : string) : Py.is_empty s = false ↔ s ≠ "".
Proof. destruct s; simpl; split; congruence. Qed.

Lemma dict_mem_true (key : string) (d : dict) : dict_mem key d = true ↔ key ∈ d.*1.
Proof.
  unfold dict_mem. induction d as [| [k v] d IH]; simpl.
  - split; [discriminate | by intros ?%elem_of_nil].
  - rewrite orb_true_iff, IH, elem_of_cons, String.eqb_eq. tauto.
Qed.

Lemma dict_mem_false (key : string) (d : dict) : dict_mem key d = false ↔ key ∉ d.*1.
Proof. rewrite <- dict_mem_true. destruct (dict_mem key d); split; congruence. Qed.

Lemma dict_set_fresh (key value : string) (d : dict) :
  key ∉ d.*1 → dict_set key value d = (d ++ [(key, value)])%list.
Proof.
  induction d as [| [k v] d IH]; simpl; intros H; [done |].
  apply not_elem_of_cons in H as [Hne H].
  destruct (String.eqb_spec key k); [done |]. by rewrite IH.
Qed.

Lemma dict_get_first (key value : string) (before after : dict) :
  key ∉ before.*1 → dict_get key (before ++ (key, value) :: after)%list = Ok value.
Proof.
  induction before as [| [k v] before IH]; simpl; intros H.
  - by rewrite String.eqb_refl.
  - apply not_elem_of_cons in H as [Hne H].
    destruct (String.eqb_spec key k); [done | auto].
Qed.

Lemma result_bind_ok {A B} (a : A) (f : A → result B) : Ok a ≫= f = f a.
Proof. reflexivity. Qed.

Lemma result_bind_raise {A B} (e : exn) (f : A → result B) : Raise e ≫= f = Raise e.
Proof. reflexivity. Qed.

Lemma pairs_of_suffix (before d : dict) :
  NoDup ((before ++ d)%list).*1 → pairs_of d.*1 (before ++ d)%list = Ok d.
Proof.
  revert before. induction d as [| [k v] d IH]; intros before Hnd; [done |].
  change (((k, v) :: d).*1) with (k :: d.*1). cbn [pairs_of].
  rewrite dict_get_first, result_bind_ok.
  - replace (before ++ (k, v) :: d)%list with ((before ++ [(k, v)]) ++ d)%list
      by (by rewrite <- app_assoc).
    rewrite IH; [done |]. by rewrite <- app_assoc.
  - rewrite fmap_app in Hnd. apply NoDup_app in Hnd as (_ & Hd & _).
    intros Hin. apply (Hd k Hin). simpl. left.
Qed.

(** The comprehension over the dictionary never raises [KeyError]: it
    lists the dictionary. *)
Lemma pairs_of_keys (d : dict) : NoDup d.*1 → pairs_of (dict_keys d) d = Ok d.
Proof. intros H. by apply (pairs_of_suffix []). Qed.

Lemma dedup_loop_spec (products : list product) (unique : dict) :
  ∃ added,
    dedup_loop products unique = (unique ++ added)%list ∧
    sublist added products ∧
    (NoDup unique.*1 → NoDup ((unique ++ added)%list).*1) ∧
    (∀ pid, pid ∈ added.*1 ↔ pid ≠ "" ∧ (pid ∉ unique.*1) ∧ pid ∈ products.*1) ∧
    (∀ pid title, (pid, title) ∈ added → first_occurrence pid title products) ∧
    (∀ i j p q, (i < j)%nat → added !! i = Some p → added !! j = Some q →
                first_before p q products).
Proof.
  revert unique. induction products as [| [pid title] rest IH]; intros unique; simpl.
  - exists []. rewrite app_nil_r. split_and!; try done.
    + intros p. split; [by intros ?%elem_of_nil | by intros (_ & _ & ?%elem_of_nil)].
    + by intros p t ?%elem_of_nil.
  - destruct (negb (Py.is_empty pid) && negb (dict_mem pid unique)) eqn:E.
    + apply andb_true_iff in E as [E1 E2].
      apply negb_true_iff, is_empty_false in E1.
      apply negb_true_iff, dict_mem_false in E2.
      rewrite dict_set_fresh by done.
      destruct (IH (unique ++ [(pid, title)])%list)
        as (added & Heq & Hsub & Hnd & Hin & Hfirst & Horder).
      assert (Hother : ∀ p, p ∈ added → p.1 ≠ pid).
      { intros p Hp Heq'. assert (Hp' : p.1 ∈ added.*1) by (by apply list_elem_of_fmap_2).
        rewrite Heq' in Hp'. apply Hin in Hp' as (_ & Hp' & _). apply Hp'.
        rewrite fmap_app, elem_of_app. right. simpl. left. }
      exists ((pid, title) :: added). rewrite Heq, <- app_assoc. simpl.
      split_and!; try done.
      * by apply sublist_skip.
      * intros Hu. rewrite <- app_assoc in Hnd. simpl in Hnd. apply Hnd.
        rewrite fmap_app. apply NoDup_app. split_and!; [done | | apply NoDup_singleton].
        simpl. intros x Hx ->%list_elem_of_singleton. done.
      * intros p. rewrite elem_of_cons, Hin, fmap_app, elem_of_app, elem_of_cons.
        simpl. rewrite list_elem_of_singleton.
        destruct (decide (p = pid)) as [-> | Hne]; [tauto |]. tauto.
      * intros p t [[= -> ->] | Hpt]%elem_of_cons.
        -- exists [], rest. split; [done | by intros ?%elem_of_nil].
        -- destruct (Hfirst p t Hpt) as (before & after & -> & Hb).
           exists ((pid, title) :: before), after. split; [done |].
           simpl. apply not_elem_of_cons. split; [| done].
           intros ->. assert (Hp : pid ∈ added.*1).
           { apply (list_elem_of_fmap_2 fst _ (pid, t)). done. }
           apply Hin in Hp as (_ & Hp & _). apply Hp.
           rewrite fmap_app, elem_of_app. right. simpl. left.
      * intros i j p q Hij Hp Hq. destruct j as [| j]; [lia |].
        cbn in Hq. assert (Hq1 : q.1 ≠ pid) by (by eapply Hother, list_elem_of_lookup_2).
        destruct i as [| i].
        -- injection Hp as <-. destruct q as [qid qtitle].
           destruct (Hfirst qid qtitle) as (before & after & -> & Hb);
             [by eapply list_elem_of_lookup_2 |].
           exists [], before, after. split; [done |]. split; [by intros ?%elem_of_nil |].
           simpl. apply not_elem_of_cons. split; done.
        -- cbn in Hp. assert (Hp1 : p.1 ≠ pid) by (by eapply Hother, list_elem_of_lookup_2).
           destruct (Horder i j p q) as (before & between & after & -> & Hb1 & Hb2);
             [lia | done | done |].
           exists ((pid, title) :: before), between, after. split; [done |].
           split; simpl; apply not_elem_of_cons; split; done.
    + destruct (IH unique) as (added & Heq & Hsub & Hnd & Hin & Hfirst & Horder).
      assert (Hother : ∀ p, p ∈ added → p.1 ≠ pid).
      { intros p Hp Heq'. assert (Hp' : p.1 ∈ added.*1) by (by apply list_elem_of_fmap_2).
        rewrite Heq' in Hp'. apply Hin in Hp' as (Hp1 & Hp2 & _).
        apply andb_false_iff in E as [E | E].
        - apply negb_false_iff, is_empty_true in E. done.
        - apply negb_false_iff, dict_mem_true in E. done. }
      exists added. split_and!; try done.
      * by apply sublist_cons.
      * intros p. rewrite Hin, elem_of_cons. simpl.
        split; [tauto |]. intros (Hp1 & Hp2 & [-> | Hp3]); [| done].
        exfalso. apply andb_false_iff in E as [E | E].
        -- apply negb_false_iff, is_empty_true in E. done.
        -- apply negb_false_iff, dict_mem_true in E. done.
      * intros p t Hpt. destruct (Hfirst p t Hpt) as (before & after & -> & Hb).
        exists ((pid, title) :: before), after. split; [done |].
        simpl. apply not_elem_of_cons. split; [| done].
        intros ->. assert (Hp : pid ∈ added.*1).
        { apply (list_elem_of_fmap_2 fst _ (pid, t)). done. }
        apply Hin in Hp as (Hp1 & Hp2 & _).
        apply andb_false_iff in E as [E | E].
        -- apply negb_false_iff, is_empty_true in E. done.
        -- apply negb_false_iff, dict_mem_true in E. done.
      * intros i j p q Hij Hp Hq.
        destruct (Horder i j p q) as (before & between & after & -> & Hb1 & Hb2);
          [done | done | done |].
        assert (Hp1 : p.1 ≠ pid)
          by (eapply Hother, list_elem_of_lookup_2; exact Hp).
        assert (Hq1 : q.1 ≠ pid)
          by (eapply Hother, list_elem_of_lookup_2; exact Hq).
        exists ((pid, title) :: before), between, after. split; [done |].
        split; simpl; apply not_elem_of_cons; split; done.
Qed.

(** What lines 157-162 return for a list of raw records. *)
Lemma dedup_spec (raw : list product) :
  ∃ l,
    pairs_of (dict_keys (dedup_loop raw [])) (dedup_loop raw []) = Ok l ∧
    sublist l raw ∧
    NoDup l.*1 ∧
    (∀ pid, pid ∈ l.*1 ↔ pid ≠ "" ∧ pid ∈ raw.*1) ∧
    (∀ pid title, (pid, title) ∈ l → first_occurrence pid title raw) ∧
    (∀ i j p q, (i < j)%nat → l !! i = Some p → l !! j = Some q → first_before p q raw).
Proof.
  destruct (dedup_loop_spec raw []) as (l & Heq & Hsub & Hnd & Hin & Hfirst & Horder).
  simpl in *. exists l. rewrite Heq.
  specialize (Hnd (NoDup_nil_2 : NoDup [])).
  split_and!; try done.
  - by apply pairs_of_keys.
  - intros p. rewrite Hin. split; [tauto |]. intros [? ?].
    split_and!; [done | by intros ?%elem_of_nil | done].
Qed.

(** ** Extractor: the four tiers *)

(** Line 103: when the parser rejects the markup nothing else runs. *)
Lemma parse_rejected (ext : externals) (html shown : string) :
  BeautifulSoup ext html = Fails shown →
  parse_products_from_html ext html = Raise (ParserRejectedMarkup shown).
Proof. intros H. unfold parse_products_from_html. by rewrite H. Qed.

(** The deduplicated form of a list of raw records. *)
Lemma parse_products_from_html_chosen (ext : externals) (html : string) (s : soup) :
  BeautifulSoup ext html = Returns s →
  ∃ i, i < 4 ∧
    (∀ j, j < i → tier ext s j = Ok []) ∧
    match tier ext s i with
    | Raise e => parse_products_from_html ext html = Raise e
    | Ok raw =>
        (raw = [] → i = 3) ∧
        parse_products_from_html ext html =
          pairs_of (dict_keys (dedup_loop raw [])) (dedup_loop raw [])
    end.
Proof.
  intros Hs. unfold parse_products_from_html. rewrite Hs.
  cbn [lift_outcome]. rewrite result_bind_ok.
  assert (H0 : ∀ j, j < 0 → tier ext s j = Ok []) by lia.
  destruct (tier ext s 0) as [[| p0 raw0] | e0] eqn:E0;
    [| exists 0; rewrite E0; simpl in E0; rewrite E0; split_and!; [lia | done | done | done]
     | exists 0; rewrite E0; simpl in E0; rewrite E0; split_and!; [lia | done | done]].
  assert (H1 : ∀ j, j < 1 → tier ext s j = Ok []).
  { intros j Hj. by replace j with 0 by lia. }
  destruct (tier ext s 1) as [[| p1 raw1] | e1] eqn:E1;
    [| exists 1; rewrite E1; simpl in E0, E1; rewrite E0; simpl; rewrite E1;
       split_and!; [lia | done | done | done]
     | exists 1; rewrite E1; simpl in E0, E1; rewrite E0; simpl; rewrite E1;
       split_and!; [lia | done | done]].
  assert (H2 : ∀ j, j < 2 → tier ext s j = Ok []).
  { intros j Hj. destruct j as [| j]; [done |]. by replace j with 0 by lia. }
  destruct (tier ext s 2) as [[| p2 raw2] | e2] eqn:E2;
    [| exists 2; rewrite E2; simpl in E0, E1, E2; rewrite E0; simpl; rewrite E1; simpl;
       injection E2 as E2; rewrite E2; split_and!; [lia | done | done | done]
     | done].
  assert (H3 : ∀ j, j < 3 → tier ext s j = Ok []).
  { intros j Hj. destruct j as [| [| j]]; [done | done |]. by replace j with 0 by lia. }
  exists 3. split_and!; [lia | done |].
  simpl in E0, E1, E2. injection E2 as E2.
  change (tier ext s 3) with (fallback_loop ext (find_all_a_href s) []).
  rewrite E0. simpl. rewrite E1. simpl. rewrite E2. simpl.
  destruct (fallback_loop ext (find_all_a_href s) []) as [raw3 | e3]; simpl; done.
Qed.

(** The tier that decides the result is determined by the document. *)
Lemma chosen_tier_unique (ext : externals) (s : soup) (i i' : nat) :
  (∀ j, j < i → tier ext s j = Ok []) →
  (∀ j, j < i' → tier ext s j = Ok []) →
  tier ext s i ≠ Ok [] ∨ i = 3 →
  tier ext s i' ≠ Ok [] ∨ i' = 3 →
  i < 4 → i' < 4 → i = i'.
Proof.
  intros Hi Hi' Ei Ei' Li Li'.
  destruct (Nat.lt_trichotomy i i') as [Hlt | [-> | Hlt]]; [| done |].
  - destruct Ei as [Ei | ->]; [| lia]. by specialize (Hi' i Hlt).
  - destruct Ei' as [Ei' | ->]; [| lia]. by specialize (Hi i' Hlt).
Qed.

(** C1.  The tiers are tried in the order primary, secondary, tertiary,
    fallback, each on an empty list of products.  There is one tier [i]
    such that every earlier tier appended nothing; if tier [i] raises, the
    extraction raises the same; otherwise the result is made of records
    appended by tier [i] alone, in their order, with exactly its non-empty
    ids; and tier [i] is the first one that appended a record, or the
    fallback when none did.  Hence whenever tier [i] is the first to append
    at least one record, the result holds records of tier [i] only.  When
    the parser rejects the markup at line 103, no tier runs and the
    extraction raises what the parser raised. *)
Theorem tiers_in_order (ext : externals) (html : string) :
  match BeautifulSoup ext html with
  | Fails shown =>
      parse_products_from_html ext html = Raise (ParserRejectedMarkup shown)
  | Returns s =>
      (∃ i, i < 4 ∧
         (∀ j, j < i → tier ext s j = Ok []) ∧
         match tier ext s i with
         | Raise e => parse_products_from_html ext html = Raise e
         | Ok raw =>
             (raw = [] → i = 3) ∧
             ∃ l, parse_products_from_html ext html = Ok l ∧
                  sublist l raw ∧
                  (∀ pid, pid ∈ l.*1 ↔ pid ≠ "" ∧ pid ∈ raw.*1)
         end) ∧
      (∀ i raw,
         i < 4 →
         (∀ j, j < i → tier ext s j = Ok []) →
         tier ext s i = Ok raw →
         raw ≠ [] →
         ∃ l, parse_products_from_html ext html = Ok l ∧
              sublist l raw ∧
              (∀ pid, pid ∈ l.*1 ↔ pid ≠ "" ∧ pid ∈ raw.*1))
  end.
Proof.
  destruct (BeautifulSoup ext html) as [s | shown] eqn:Hs;
    [| by apply parse_rejected].
  assert (Hfirst : ∃ i, i < 4 ∧
     (∀ j, j < i → tier ext s j = Ok []) ∧
     match tier ext s i with
     | Raise e => parse_products_from_html ext html = Raise e
     | Ok raw =>
         (raw = [] → i = 3) ∧
         ∃ l, parse_products_from_html ext html = Ok l ∧
              sublist l raw ∧
              (∀ pid, pid ∈ l.*1 ↔ pid ≠ "" ∧ pid ∈ raw.*1)
     end).
  { destruct (parse_products_from_html_chosen ext html s Hs) as (i & Hi & Hbefore & Hres).
    exists i. split_and!; [done | done |].
    destruct (tier ext s i) as [raw | e]; [| done].
    destruct Hres as [Hlast ->]. split; [done |].
    destruct (dedup_spec raw) as (l & Hl & Hsub & _ & Hin & _). by exists l. }
  split; [done |].
  intros i raw Hi Hbefore Hraw Hne.
  destruct Hfirst as (i' & Hi' & Hbefore' & Hres).
  assert (i = i') as <-.
  { apply (chosen_tier_unique ext s); try done.
    - left. rewrite Hraw. congruence.
    - destruct (tier ext s i') as [[| p raw'] | e] eqn:E.
      + right. by apply Hres.
      + by left.
      + by left. }
  rewrite Hraw in Hres. by destruct Hres as [_ Hres].
Qed.

(** C3.  Whenever the extraction returns a list, the list comes from the
    raw records of one tier, the first that appended a record: its ids are
    pairwise distinct, they are exactly the non-empty ids of the raw
    records, every record carries the title of the first raw record with
    its id, and the records stand in the order of these first occurrences:
    of two records of the list, the first raw record with the id of the
    earlier one stands before the first raw record with the id of the
    later one.  In particular two primary-tier anchors whose links give the
    same non-empty id yield the single record of that id with the first
    anchor's text, its whitespace collapsed as line 117 does; a text of
    words separated by single blanks is kept as it is. *)
Theorem extraction_deduplicates :
  (∀ (ext : externals) (html : string) (l : list product),
     parse_products_from_html ext html = Ok l →
     ∃ s i raw,
       BeautifulSoup ext html = Returns s ∧
       i < 4 ∧ (∀ j, j < i → tier ext s j = Ok []) ∧ tier ext s i = Ok raw ∧
       NoDup l.*1 ∧
       (∀ pid, pid ∈ l.*1 ↔ pid ≠ "" ∧ pid ∈ raw.*1) ∧
       (∀ pid title, (pid, title) ∈ l → first_occurrence pid title raw) ∧
       sublist l raw ∧
       (∀ m n p q, (m < n)%nat → l !! m = Some p → l !! n = Some q →
                   first_before p q raw)) ∧
  (∀ (ext : externals) (html : string) (a1 a2 : anchor) (tiles : list tile)
     (path1 path2 : string),
     BeautifulSoup ext html = Returns (Soup [a1; a2] tiles) →
     a_text a1 ≠ "" → a_text a2 ≠ "" →
     Py.contains "/hotwheels/" (Py.strip (a_href a1)) = true →
     Py.contains "/hotwheels/" (Py.strip (a_href a2)) = true →
     urlparse_path ext (Py.strip (a_href a1)) = Returns path1 →
     urlparse_path ext (Py.strip (a_href a2)) = Returns path2 →
     last_segment path1 = last_segment path2 →
     last_segment path1 ≠ "" →
     parse_products_from_html ext html =
       Ok [(last_segment path1, Py.join " " (Py.split_ws (a_text a1)))] ∧
     (∀ words,
        Forall (λ w, is_word w = true) words →
        a_text a1 = Py.join " " words →
        parse_products_from_html ext html = Ok [(last_segment path1, a_text a1)])).
Proof.
  split.
  - intros ext html l Hl.
    destruct (BeautifulSoup ext html) as [s | shown] eqn:Hs;
      [| by rewrite (parse_rejected ext html shown Hs) in Hl].
    destruct (parse_products_from_html_chosen ext html s Hs) as (i & Hi & Hbefore & Hres).
    destruct (tier ext s i) as [raw | e] eqn:E; [| congruence].
    destruct Hres as [_ Hres].
    destruct (dedup_spec raw) as (l' & Hl' & Hsub & Hnd & Hin & Hfirst & Horder).
    assert (l = l') as <- by congruence.
    by exists s, i, raw.
  - intros ext html a1 a2 tiles path1 path2 Hs Ht1 Ht2 Hc1 Hc2 Hp1 Hp2 Hsame Hne.
    assert (Hrun : parse_products_from_html ext html =
                   Ok [(last_segment path1, Py.join " " (Py.split_ws (a_text a1)))]).
    { unfold parse_products_from_html. rewrite Hs. simpl.
      apply is_empty_false in Ht1, Ht2, Hne.
      rewrite Ht1, Ht2, Hc1, Hc2, Hp1, Hp2. simpl.
      rewrite <- Hsame, Hne. simpl.
      rewrite String.eqb_refl. simpl. by rewrite String.eqb_refl. }
    split; [exact Hrun |].
    intros words Hwords Htext. rewrite Hrun, Htext.
    by rewrite join_split_ws_words.
Qed.

(** ** Running computations *)

Lemma bind_run {A B} (m : M A) (f : A → M B) (w : world) :
  (m ≫= f) w =
  match m w with
  | (Ok a, w') => f a w'
  | (Raise e, w') => (Raise e, w')
  end.
Proof. reflexivity. Qed.

(** [print] on a console that takes every line. *)
Lemma print_run (ext : externals) (line : string) (w : world) :
  console_sound ext →
  print ext line w =
    (Ok (),
     World (stdout w ++ [line]) (slept w) (requested w) (clock_reads w)
           (sqlite_calls w) (disk w) (conn w) (smtp_sessions w) (delivered w)).
Proof. intros Hc. unfold print. by rewrite Hc. Qed.

(** [time.sleep] for a length it takes. *)
Lemma time_sleep_run (seconds : Z) (w : world) :
  sleepable seconds →
  time_sleep seconds w =
    (Ok (),
     World (stdout w) (slept w ++ [seconds]) (requested w) (clock_reads w)
           (sqlite_calls w) (disk w) (conn w) (smtp_sessions w) (delivered w)).
Proof.
  intros [H0 Hmax]. unfold time_sleep.
  replace (seconds <? - max_sleep)%Z with false
    by (symmetry; apply Z.ltb_ge; unfold max_sleep in *; lia).
  replace (max_sleep <? seconds)%Z with false by (symmetry; apply Z.ltb_ge; lia).
  by replace (seconds <? 0)%Z with false by (symmetry; apply Z.ltb_ge; lia).
Qed.

Section Frame.
Variable R : world → world → Prop.
Hypothesis R_refl : ∀ w, R w w.
Hypothesis R_trans : ∀ w1 w2 w3, R w1 w2 → R w2 w3 → R w1 w3.

Lemma preserves_ret {A} (a : A) : preserves R (mret a : M A).
Proof using R_refl. intros w. apply R_refl. Qed.

Lemma preserves_raise {A} (e : exn) : preserves R (raise e : M A).
Proof using R_refl. intros w. apply R_refl. Qed.

Lemma preserves_lift_result {A} (r : result A) : preserves R (lift_result r).
Proof using R_refl. intros w. apply R_refl. Qed.

Lemma preserves_bind {A B} (m : M A) (f : A → M B) :
  preserves R m → (∀ a, preserves R (f a)) → preserves R (m ≫= f).
Proof using R_trans.
  intros Hm Hf w. rewrite bind_run. specialize (Hm w).
  destruct (m w) as [[a | e] w1]; simpl in *; [| done].
  eapply R_trans; [exact Hm | apply Hf].
Qed.

Lemma preserves_try_except {A} (body : M A) (handler : exn → M A) :
  preserves R body → (∀ e, preserves R (handler e)) →
  preserves R (try_except body handler).
Proof using R_trans.
  intros Hm Hh w. unfold try_except. specialize (Hm w).
  destruct (body w) as [[a | e] w1]; simpl in *; [done |].
  eapply R_trans; [exact Hm | apply Hh].
Qed.
End Frame.

Lemma same_database_refl (w : world) : same_database w w.
Proof. by repeat split. Qed.

Lemma same_database_trans (w1 w2 w3 : world) :
  same_database w1 w2 → same_database w2 w3 → same_database w1 w3.
Proof. unfold same_database. intros (? & ? & ? & ?) (? & ? & ? & ?). split_and!; congruence. Qed.

Create HintDb frame discriminated.

(** Tactic for the frame goals: use a known frame lemma, or else split the
    bind or handler at the head of the goal. *)
Ltac frame_db :=
  repeat first
    [ solve [auto 1 with frame nocore]
    | apply preserves_ret; exact same_database_refl
    | apply preserves_raise; exact same_database_refl
    | apply preserves_lift_result; exact same_database_refl
    | apply preserves_bind; [exact same_database_trans | | intros ?]
    | apply preserves_try_except; [exact same_database_trans | | intros ?] ].

Lemma print_same_database (ext : externals) (line : string) :
  preserves same_database (print ext line).
Proof.
  intros w. unfold print.
  by destruct (print_fault ext (length (stdout w)) line); repeat split.
Qed.

Lemma time_sleep_same_database (seconds : Z) : preserves same_database (time_sleep seconds).
Proof.
  intros w. unfold time_sleep.
  destruct ((seconds <? - max_sleep) || (max_sleep <? seconds))%Z; [by repeat split |].
  by destruct (seconds <? 0)%Z; repeat split.
Qed.

Lemma http_get_same_database (ext : externals) (url : string) :
  preserves same_database (http_get ext url).
Proof. intros w. by repeat split. Qed.

Lemma smtp_session_same_database (ext : externals) (tls : bool) (msg : message) :
  preserves same_database (smtp_session ext tls msg).
Proof.
  intros w. unfold smtp_session.
  by destruct (smtp_end ext (length (smtp_sessions w))); repeat split.
Qed.

#[export] Hint Resolve print_same_database time_sleep_same_database
  http_get_same_database smtp_session_same_database : frame.

Lemma retry_loop_same_database (ext : externals) (url : string)
    (retries backoff : Z) (attempts : list Z) :
  preserves same_database (retry_loop ext url retries backoff attempts).
Proof.
  induction attempts as [| attempt attempts IH]; cbn [retry_loop].
  - frame_db.
  - frame_db. destruct (attempt <=? retries)%Z; frame_db.
Qed.

#[export] Hint Resolve retry_loop_same_database : frame.

Lemma fetch_search_html_same_database (ext : externals) (cfg : config) (query : string) :
  preserves same_database (fetch_search_html ext cfg query).
Proof.
  unfold fetch_search_html, requests_get_with_retry.
  frame_db. destruct a0; frame_db.
Qed.

Lemma send_email_same_database (ext : externals) (cfg : config) (subject body : string) :
  preserves same_database (send_email ext cfg subject body).
Proof. unfold send_email. destruct (negb (email_configured cfg)); frame_db. Qed.

#[export] Hint Resolve fetch_search_html_same_database send_email_same_database : frame.

Lemma notify_same_database (ext : externals) (cfg : config)
    (new_found : list product) (prev_count curr_count : nat) :
  preserves same_database (notify ext cfg new_found prev_count curr_count).
Proof.
  unfold notify. destruct (negb (no_products new_found)); [frame_db |].
  destruct (prev_count <? curr_count)%nat; frame_db.
Qed.

#[export] Hint Resolve notify_same_database : frame.

Lemma report_same_database (ext : externals) (cfg : config)
    (found : list product * nat * nat) :
  preserves same_database (report ext cfg found).
Proof.
  destruct found as [[new_found prev_count] curr_count]. unfold report. frame_db.
Qed.

Lemma handle_error_same_database (ext : externals) (cfg : config) (e : exn) :
  preserves same_database (handle_error ext cfg e).
Proof. unfold handle_error. frame_db. Qed.

Lemma print_sample_same_database (ext : externals) (i : nat) (products : list product) :
  preserves same_database (print_sample ext i products).
Proof.
  revert i. induction products as [| [pid title] products IH]; intros i;
    cbn [print_sample]; frame_db.
Qed.

#[export] Hint Resolve report_same_database handle_error_same_database
  print_sample_same_database : frame.

(** ** Fetcher *)

Lemma py_range_empty (lo hi : Z) : (hi ≤ lo)%Z → py_range lo hi = [].
Proof. intros H. unfold py_range. by replace (Z.to_nat (hi - lo)) with 0 by lia. Qed.

Lemma py_range_cons (lo hi : Z) :
  (lo < hi)%Z → py_range lo hi = lo :: py_range (lo + 1) hi.
Proof.
  intros H. unfold py_range.
  replace (Z.to_nat (hi - lo)) with (S (Z.to_nat (hi - (lo + 1)))) by lia.
  simpl. f_equal; [lia |].
  rewrite <- seq_shift, List.map_map. apply List.map_ext. intros i. lia.
Qed.

(** One turn of the retry loop, when [print] returns and the wait is one
    that [time.sleep] takes. *)
Lemma retry_loop_cons (ext : externals) (url : string) (retries backoff : Z)
    (attempt : Z) (attempts : list Z) (w : world) :
  console_sound ext →
  ((attempt ≤ retries)%Z → sleepable (backoff * attempt)) →
  retry_loop ext url retries backoff (attempt :: attempts) w =
  match requests_get ext url (length (requested w)) with
  | Returns body =>
      (Ok (Some body),
       World (stdout w) (slept w) (requested w ++ [url]) (clock_reads w)
             (sqlite_calls w) (disk w) (conn w) (smtp_sessions w) (delivered w))
  | Fails shown =>
      if (attempt <=? retries)%Z then
        retry_loop ext url retries backoff attempts
          (World (stdout w ++
                    ["Request failed (attempt " ++ pretty attempt ++
                     ") — retrying in " ++ pretty (backoff * attempt)%Z ++ "s..."])
                 (slept w ++ [(backoff * attempt)%Z]) (requested w ++ [url])
                 (clock_reads w) (sqlite_calls w) (disk w) (conn w)
                 (smtp_sessions w) (delivered w))
      else
        (Raise (RequestException shown),
         World (stdout w) (slept w) (requested w ++ [url]) (clock_reads w)
               (sqlite_calls w) (disk w) (conn w) (smtp_sessions w) (delivered w))
  end.
Proof.
  intros Hc Hsleep.
  cbn [retry_loop]. unfold try_except. rewrite bind_run. unfold http_get.
  destruct (requests_get ext url (length (requested w))) as [body | shown];
    cbn [lift_outcome]; [done |].
  destruct (Z.leb_spec attempt retries) as [Hle | Hgt]; [| done].
  rewrite bind_run, print_run by done. rewrite bind_run, time_sleep_run by auto.
  done.
Qed.

(** The waits of the loop are lengths that [time.sleep] takes when the
    backoff is not negative and the longest wait is in range. *)
Lemma waits_sleepable (retries backoff attempt : Z) :
  (0 ≤ backoff)%Z → (backoff * retries ≤ max_sleep)%Z →
  (0 ≤ attempt)%Z → (attempt ≤ retries)%Z → sleepable (backoff * attempt).
Proof. unfold sleepable. nia. Qed.

(** The retry loop, entered with [attempt = a] and [m] attempts left. *)
Lemma retry_loop_spec (ext : externals) (url : string) (retries backoff : Z)
    (m : nat) (a : Z) (w : world) :
  console_sound ext →
  (0 ≤ backoff)%Z → (backoff * retries ≤ max_sleep)%Z → (0 ≤ a)%Z →
  (a + Z.of_nat m = retries + 2)%Z →
  ∃ n,
    (n ≤ m)%nat ∧ (m = 0 ∨ (1 ≤ n)%nat) ∧
    requested (retry_loop ext url retries backoff (py_range a (retries + 2)) w).2 =
      (requested w ++ replicate n url)%list ∧
    slept (retry_loop ext url retries backoff (py_range a (retries + 2)) w).2 =
      (slept w ++ List.map (λ k, backoff * k)%Z (py_range a (a + Z.of_nat n - 1)))%list ∧
    (∀ j, (j + 1 < n)%nat →
       ∃ shown, requests_get ext url (length (requested w) + j) = Fails shown) ∧
    (if decide (m = 0)
     then (retry_loop ext url retries backoff (py_range a (retries + 2)) w).1 = Ok None
     else match requests_get ext url (length (requested w) + (n - 1)) with
          | Returns body =>
              (retry_loop ext url retries backoff (py_range a (retries + 2)) w).1
              = Ok (Some body)
          | Fails shown =>
              n = m ∧
              (retry_loop ext url retries backoff (py_range a (retries + 2)) w).1
              = Raise (RequestException shown)
          end).
Proof.
  intros Hc Hb Hmax. revert a w. induction m as [| m IH]; intros a w Ha0 Ha.
  - rewrite py_range_empty by lia. exists 0. simpl.
    rewrite py_range_empty by lia. simpl. rewrite !app_nil_r.
    split_and!; try done; [by left | lia].
  - rewrite py_range_cons by lia.
    rewrite retry_loop_cons by (try done; by apply waits_sleepable).
    destruct (requests_get ext url (length (requested w))) as [body | shown] eqn:Hget.
    + exists 1. cbn. rewrite py_range_empty by lia.
      replace (length (requested w) + 0) with (length (requested w)) by lia.
      rewrite Hget. simpl. rewrite app_nil_r.
      split_and!; try done; [lia | by right | lia].
    + destruct (Z.leb_spec a retries) as [Hle | Hgt].
      * match goal with |- context [retry_loop _ _ _ _ _ ?w'] => set (w3 := w') end.
        destruct (IH (a + 1)%Z w3 ltac:(lia) ltac:(lia))
          as (n & Hn & Hn1 & Hreq & Hsl & Hfail & Hres).
        assert (1 ≤ n)%nat by (destruct Hn1; lia).
        exists (S n). rewrite Hreq, Hsl. subst w3. cbn [requested slept].
        rewrite <- !app_assoc. cbn [replicate].
        split_and!.
        -- lia.
        -- right; lia.
        -- done.
        -- f_equal. rewrite (py_range_cons a) by lia. simpl.
           by replace (a + Z.of_nat (S n) - 1)%Z with (a + 1 + Z.of_nat n - 1)%Z by lia.
        -- intros j Hj. destruct j as [| j].
           ++ replace (length (requested w) + 0) with (length (requested w)) by lia. eauto.
           ++ destruct (Hfail j ltac:(lia)) as [s Hs]. exists s.
              cbn [requested] in Hs. rewrite length_app in Hs. simpl in Hs.
              by replace (length (requested w) + S j) with (length (requested w) + 1 + j) by lia.
        -- destruct (decide (m = 0)) as [-> | Hm]; [lia |].
           destruct (decide (S m = 0)); [lia |].
           cbn [requested] in Hres. rewrite length_app in Hres. simpl in Hres.
           replace (length (requested w) + (S n - 1))
             with (length (requested w) + 1 + (n - 1)) by lia.
           destruct (requests_get ext url (length (requested w) + 1 + (n - 1)));
             [done |]. destruct Hres as [-> Hres]. done.
      * assert (m = 0) as -> by lia.
        exists 1. cbn. rewrite py_range_empty by lia.
        replace (length (requested w) + 0) with (length (requested w)) by lia.
        rewrite Hget. simpl. rewrite app_nil_r.
        split_and!; try done; [by right | lia].
Qed.

(** C5.  On a console that takes every line and with a backoff that is
    not negative, [requests_get_with_retry] with a retry limit [retries]
    whose longest wait [backoff * retries] is a length [time.sleep] takes
    makes [n] requests, between one and [retries + 1]; all but the last one
    failed; after the k-th failed request that is followed by another one
    it sleeps [backoff * k] seconds, so the waits are
    [backoff * 1, ..., backoff * (n - 1)]; it returns the body of the n-th
    request if that one succeeds, and otherwise [n = retries + 1] and what
    the last request raised is raised.  In particular, with the limit 2, two
    failures followed by a success give the body of the third request after
    exactly the two waits [backoff * 1] and [backoff * 2]; [fetch_search_html]
    uses the limit 2 and the backoff 2 and waits 2 and then 4 seconds. *)
Theorem fetch_retries (ext : externals) (url : string) (backoff : Z) (w : world) :
  console_sound ext →
  (0 ≤ backoff)%Z →
  (∀ retries : Z,
     (0 ≤ retries)%Z →
     (backoff * retries ≤ max_sleep)%Z →
     ∃ n : nat,
       (1 ≤ n)%nat ∧ (n ≤ Z.to_nat (retries + 1))%nat ∧
       requested (requests_get_with_retry ext url retries backoff w).2 =
         (requested w ++ replicate n url)%list ∧
       slept (requests_get_with_retry ext url retries backoff w).2 =
         (slept w ++ List.map (λ k, backoff * k)%Z (py_range 1 (Z.of_nat n)))%list ∧
       (∀ j, (j + 1 < n)%nat →
          ∃ shown, requests_get ext url (length (requested w) + j) = Fails shown) ∧
       match requests_get ext url (length (requested w) + (n - 1)) with
       | Returns body =>
           (requests_get_with_retry ext url retries backoff w).1 = Ok (Some body)
       | Fails shown =>
           n = Z.to_nat (retries + 1) ∧
           (requests_get_with_retry ext url retries backoff w).1
           = Raise (RequestException shown)
       end) ∧
  (∀ shown1 shown2 body : string,
     (backoff * 2 ≤ max_sleep)%Z →
     requests_get ext url (length (requested w)) = Fails shown1 →
     requests_get ext url (length (requested w) + 1) = Fails shown2 →
     requests_get ext url (length (requested w) + 2) = Returns body →
     (requests_get_with_retry ext url 2 backoff w).1 = Ok (Some body) ∧
     slept (requests_get_with_retry ext url 2 backoff w).2 =
       (slept w ++ [backoff * 1; backoff * 2]%Z)%list ∧
     requested (requests_get_with_retry ext url 2 backoff w).2 =
       (requested w ++ [url; url; url])%list) ∧
  (∀ (cfg : config) (query shown1 shown2 body : string),
     url = build_fetch_url cfg query →
     requests_get ext url (length (requested w)) = Fails shown1 →
     requests_get ext url (length (requested w) + 1) = Fails shown2 →
     requests_get ext url (length (requested w) + 2) = Returns body →
     (fetch_search_html ext cfg query w).1 = Ok body ∧
     slept (fetch_search_html ext cfg query w).2 = (slept w ++ [2; 4]%Z)%list).
Proof.
  intros Hc Hb.
  assert (Htwo : ∀ b attempt, (0 ≤ b)%Z → (b * 2 ≤ max_sleep)%Z →
                   (0 ≤ attempt)%Z → (attempt ≤ 2)%Z → sleepable (b * attempt))
    by (intros b attempt ? ? ? ?; by apply (waits_sleepable 2)).
  split_and!.
  - intros retries Hr Hmax. unfold requests_get_with_retry.
    destruct (retry_loop_spec ext url retries backoff (Z.to_nat (retries + 1)) 1 w
                Hc Hb Hmax ltac:(lia) ltac:(lia))
      as (n & Hn & Hn1 & Hreq & Hsl & Hfail & Hres).
    exists n. destruct (decide (Z.to_nat (retries + 1) = 0)) as [E | E]; [lia |].
    split_and!; try done.
    + destruct Hn1; [done | lia].
    + rewrite Hsl. by replace (1 + Z.of_nat n - 1)%Z with (Z.of_nat n) by lia.
  - intros shown1 shown2 body Hmax H1 H2 H3. unfold requests_get_with_retry.
    change (py_range 1 (2 + 2)) with [1; 2; 3]%Z.
    rewrite retry_loop_cons, H1 by (try done; intros ?; apply Htwo; lia).
    cbn [Z.leb Z.compare Pos.compare Pos.compare_cont].
    rewrite retry_loop_cons by (try done; intros ?; apply Htwo; lia).
    cbn [requested]. rewrite length_app. cbn [length].
    rewrite H2. cbn [Z.leb Z.compare Pos.compare Pos.compare_cont].
    rewrite retry_loop_cons by (try done; intros ?; lia).
    cbn [requested]. rewrite !length_app. cbn [length].
    replace (length (requested w) + 1 + 1) with (length (requested w) + 2) by lia.
    rewrite H3. cbn. by rewrite <- !app_assoc.
  - intros cfg query shown1 shown2 body -> H1 H2 H3.
    assert (Hmax : (2 * 2 ≤ max_sleep)%Z) by (by vm_compute).
    unfold fetch_search_html, requests_get_with_retry.
    rewrite bind_run, print_run by done. rewrite bind_run.
    change (py_range 1 (2 + 2)) with [1; 2; 3]%Z.
    rewrite retry_loop_cons by (try done; intros ?; apply Htwo; lia).
    cbn [requested]. rewrite H1.
    cbn [Z.leb Z.compare Pos.compare Pos.compare_cont].
    rewrite retry_loop_cons by (try done; intros ?; apply Htwo; lia).
    cbn [requested]. rewrite length_app. cbn [length].
    rewrite H2. cbn [Z.leb Z.compare Pos.compare Pos.compare_cont].
    rewrite retry_loop_cons by (try done; intros ?; lia).
    cbn [requested]. rewrite !length_app. cbn [length].
    replace (length (requested w) + 1 + 1) with (length (requested w) + 2) by lia.
    rewrite H3. cbn. by rewrite <- !app_assoc.
Qed.

(** ** Change detection against the store *)

Lemma first_occurrence_exists (pid : string) (products : list product) :
  pid ∈ products.*1 → ∃ title, first_occurrence pid title products.
Proof.
  induction products as [| [q t] rest IH]; simpl; [by intros ?%elem_of_nil |].
  intros Hin. destruct (decide (pid = q)) as [-> | Hne].
  - exists t, [], rest. split; [done | by intros ?%elem_of_nil].
  - apply elem_of_cons in Hin as [? | Hin]; [done |].
    destruct (IH Hin) as (title & before & after & -> & Hb).
    exists title, ((q, t) :: before), after. split; [done |].
    simpl. by apply not_elem_of_cons.
Qed.

Lemma new_records_sublist (known : gset string) (products : list product) :
  sublist (new_records known products) products.
Proof.
  revert known. induction products as [| p rest IH]; intros known; simpl; [done |].
  destruct (decide (p.1 ∈ known)); [by apply sublist_cons | by apply sublist_skip].
Qed.

Lemma new_records_known (known : gset string) (products : list product) (p : product) :
  p ∈ new_records known products → p.1 ∉ known.
Proof.
  revert known. induction products as [| q rest IH]; intros known; simpl;
    [by intros ?%elem_of_nil |].
  destruct (decide (q.1 ∈ known)) as [Hq | Hq]; [apply IH |].
  intros [-> | Hp]%elem_of_cons; [done |].
  apply IH in Hp. by apply not_elem_of_union in Hp as [_ Hp].
Qed.

Lemma new_records_spec (known : gset string) (products : list product)
    (pid title : string) :
  (pid, title) ∈ new_records known products ↔
  (pid ∉ known) ∧ first_occurrence pid title products.
Proof.
  split.
  - revert known. induction products as [| q rest IH]; intros known; simpl;
      [by intros ?%elem_of_nil |].
    destruct (decide (q.1 ∈ known)) as [Hq | Hq].
    + intros Hp. destruct (IH _ Hp) as (Hk & before & after & Heq & Hb).
      split; [done |]. exists (q :: before), after. split; [by rewrite Heq |].
      simpl. apply not_elem_of_cons. split; [congruence | done].
    + intros [<- | Hp]%elem_of_cons.
      * split; [done |]. exists [], rest. split; [done | by intros ?%elem_of_nil].
      * destruct (IH _ Hp) as (Hk & before & after & Heq & Hb).
        apply not_elem_of_union in Hk as [Hne Hk].
        apply not_elem_of_singleton in Hne.
        split; [done |]. exists (q :: before), after. split; [by rewrite Heq |].
        simpl. apply not_elem_of_cons. split; [done | done].
  - intros (Hk & before & after & -> & Hb). revert known Hk.
    induction before as [| q before IH]; intros known Hk; simpl.
    + destruct (decide (pid ∈ known)); [done | left].
    + simpl in Hb. apply not_elem_of_cons in Hb as [Hne Hb].
      destruct (decide (q.1 ∈ known)); [by apply IH |].
      right. apply IH; [done |].
      apply not_elem_of_union. split; [| done]. by apply not_elem_of_singleton.
Qed.

Lemma new_records_filter (known : gset string) (products : list product) :
  NoDup products.*1 →
  new_records known products = filter (λ p : product, p.1 ∉ known) products.
Proof.
  assert (Hext : ∀ (known : gset string) (q : string) (l : list product),
            q ∉ l.*1 →
            filter (λ p : product, p.1 ∉ {[q]} ∪ known) l =
            filter (λ p : product, p.1 ∉ known) l).
  { intros K q l. induction l as [| p l IHl]; simpl; intros Hq; [done |].
    apply not_elem_of_cons in Hq as [Hne Hq].
    destruct (decide (p.1 ∈ K)) as [Hk | Hk].
    - rewrite !filter_cons_False; [by apply IHl | by intros Hn; apply Hn |].
      intros Hn. apply Hn. apply elem_of_union. by right.
    - rewrite !filter_cons_True; [f_equal; by apply IHl | done |].
      apply not_elem_of_union. split; [| done]. by apply not_elem_of_singleton. }
  revert known. induction products as [| p rest IH]; intros known Hnd; [done |].
  simpl in Hnd. apply NoDup_cons in Hnd as [Hp Hnd]. simpl.
  destruct (decide (p.1 ∈ known)) as [Hk | Hk].
  - rewrite filter_cons_False by (intros Hn; by apply Hn). by apply IH.
  - rewrite filter_cons_True by done. f_equal.
    rewrite IH by done. by apply Hext.
Qed.

Lemma store_after_untouched (now : Z) (products : list product) (c : table)
    (pid : string) :
  pid ∉ products.*1 → store_after now products c !! pid = c !! pid.
Proof.
  revert c. induction products as [| [q t] rest IH]; intros c; simpl; [done |].
  intros [Hne Hrest]%not_elem_of_cons. rewrite IH by done.
  destruct (c !! q); [by rewrite lookup_alter_ne | by rewrite lookup_insert_ne].
Qed.

Lemma store_after_stamped (now : Z) (products : list product) (c : table)
    (pid title : string) :
  c !! pid = Some (Row title now) →
  store_after now products c !! pid = Some (Row title now).
Proof.
  revert c. induction products as [| [q t] rest IH]; intros c Hc; simpl; [done |].
  apply IH. destruct (decide (q = pid)) as [-> | Hne].
  - rewrite Hc. rewrite lookup_alter_eq, Hc. done.
  - destruct (c !! q); [by rewrite lookup_alter_ne | by rewrite lookup_insert_ne].
Qed.

Lemma store_after_first (now : Z) (products : list product) (c : table)
    (pid title : string) :
  first_occurrence pid title products →
  store_after now products c !! pid =
  Some (Row (match c !! pid with Some r => title_col r | None => title end) now).
Proof.
  intros (before & after & -> & Hb). revert c.
  induction before as [| [q t] before IH]; intros c; simpl.
  - apply store_after_stamped.
    destruct (c !! pid) as [r |] eqn:Hc.
    + by rewrite lookup_alter_eq, Hc.
    + by rewrite lookup_insert_eq.
  - simpl in Hb. apply not_elem_of_cons in Hb as [Hne Hb].
    rewrite IH by done.
    destruct (c !! q); [by rewrite lookup_alter_ne | by rewrite lookup_insert_ne].
Qed.

(** Every row of the table after the loop is either as it was or carries
    the time of this run. *)
Lemma store_after_rows (now : Z) (products : list product) (c : table) (pid : string) :
  store_after now products c !! pid = c !! pid ∨
  ∃ title, store_after now products c !! pid = Some (Row title now).
Proof.
  destruct (decide (pid ∈ products.*1)) as [Hin | Hout].
  - right. destruct (first_occurrence_exists _ _ Hin) as [title Hfirst].
    eexists. by apply store_after_first.
  - left. by apply store_after_untouched.
Qed.

(** ** Change detection as the run performs it *)

(** One turn of the detection loop. *)
Lemma detect_loop_cons (ext : externals) (now : Z) (pid title : string)
    (products new_found : list product) (w : world) :
  detect_loop ext now ((pid, title) :: products) new_found w =
  let n := sqlite_calls w in
  let at_calls k c :=
    World (stdout w) (slept w) (requested w) (clock_reads w) k (disk w) c
          (smtp_sessions w) (delivered w) in
  match sqlite_fault ext n with
  | Some shown => (Raise (SqliteError shown), at_calls (S n) (conn w))
  | None =>
      match sqlite_fault ext (S n) with
      | Some shown => (Raise (SqliteError shown), at_calls (S (S n)) (conn w))
      | None =>
          match conn w !! pid with
          | None =>
              detect_loop ext now products (new_found ++ [(pid, title)])
                (at_calls (S (S n)) (<[pid := Row title now]> (conn w)))
          | Some _ =>
              detect_loop ext now products new_found
                (at_calls (S (S n)) (alter (λ r, Row (title_col r) now) pid (conn w)))
          end
      end
  end.
Proof.
  cbn [detect_loop]. rewrite bind_run. unfold sqlite_call at 1.
  destruct (sqlite_fault ext (sqlite_calls w)) as [shown |]; [done |].
  cbn [sql_select_id]. destruct (conn w !! pid) as [r |]; cbn [fmap option_fmap option_map].
  - rewrite bind_run. unfold sqlite_call at 1. cbn [sqlite_calls].
    destruct (sqlite_fault ext (S (sqlite_calls w))); done.
  - rewrite bind_run. unfold sqlite_call at 1. cbn [sqlite_calls].
    destruct (sqlite_fault ext (S (sqlite_calls w))); done.
Qed.

(** The loop commits nothing and does not read the clock, however it ends. *)
Lemma detect_loop_frame (ext : externals) (now : Z)
    (products new_found : list product) (w : world) :
  disk (detect_loop ext now products new_found w).2 = disk w ∧
  clock_reads (detect_loop ext now products new_found w).2 = clock_reads w.
Proof.
  revert new_found w. induction products as [| [pid title] products IH];
    intros new_found w; [done |].
  rewrite detect_loop_cons. cbv zeta.
  destruct (sqlite_fault ext (sqlite_calls w)); [done |].
  destruct (sqlite_fault ext (S (sqlite_calls w))); [done |].
  destruct (conn w !! pid); apply (IH _ (World _ _ _ _ _ _ _ _ _)).
Qed.

(** When the loop returns, it has classified and written every record. *)
Lemma detect_loop_ok (ext : externals) (now : Z)
    (products new_found new_found' : list product) (w w' : world) :
  detect_loop ext now products new_found w = (Ok new_found', w') →
  new_found' = (new_found ++ new_records (dom (conn w)) products)%list ∧
  conn w' = store_after now products (conn w) ∧
  disk w' = disk w ∧
  clock_reads w' = clock_reads w.
Proof.
  revert new_found w. induction products as [| [pid title] products IH];
    intros new_found w.
  - intros [= <- <-]. simpl. by rewrite app_nil_r.
  - rewrite detect_loop_cons. cbv zeta.
    destruct (sqlite_fault ext (sqlite_calls w)); [done |].
    destruct (sqlite_fault ext (S (sqlite_calls w))); [done |].
    cbn [new_records store_after fst].
    destruct (conn w !! pid) as [r |] eqn:Hpid; intros Hrun;
      apply IH in Hrun as (-> & -> & -> & ->); cbn [conn disk clock_reads].
    + rewrite dom_alter_L.
      destruct (decide (pid ∈ dom (conn w))) as [Hin | Hout]; [done |].
      exfalso. apply Hout. apply elem_of_dom. by rewrite Hpid.
    + rewrite dom_insert_L.
      destruct (decide (pid ∈ dom (conn w))) as [Hin | Hout].
      * apply elem_of_dom in Hin as [r Hr]. congruence.
      * by rewrite <- app_assoc.
Qed.

(** Without sqlite failures the loop returns. *)
Lemma detect_loop_total (ext : externals) (now : Z)
    (products new_found : list product) (w : world) :
  sqlite_sound ext →
  ∃ new_found' w', detect_loop ext now products new_found w = (Ok new_found', w').
Proof.
  intros Hsound. revert new_found w.
  induction products as [| [pid title] products IH]; intros new_found w.
  - by exists new_found, w.
  - rewrite detect_loop_cons. cbv zeta. rewrite !Hsound.
    destruct (conn w !! pid); apply IH.
Qed.

(** What [detect_changes] leaves behind when it returns. *)
Lemma detect_changes_ok (ext : externals) (products new_found : list product)
    (prev_count curr_count : nat) (w w' : world) :
  detect_changes ext products w = (Ok (new_found, prev_count, curr_count), w') →
  new_found = new_records (dom (conn w)) products ∧
  prev_count = size (conn w) ∧
  curr_count = length products ∧
  conn w' = store_after (time_time ext (clock_reads w)) products (conn w) ∧
  disk w' = conn w' ∧
  clock_reads w' = S (clock_reads w).
Proof.
  unfold detect_changes. rewrite bind_run. cbn [read_clock].
  rewrite bind_run. unfold sqlite_call at 1. cbn [sqlite_calls].
  destruct (sqlite_fault ext (sqlite_calls w)); [done |].
  cbn [sql_count disk conn]. rewrite bind_run.
  match goal with |- context [detect_loop _ _ _ _ ?w1] => set (w1' := w1) end.
  destruct (detect_loop ext (time_time ext (clock_reads w)) products [] w1')
    as [[found | e] w2] eqn:Hloop; [| done].
  apply detect_loop_ok in Hloop as (-> & Hconn & Hdisk & Hclock).
  rewrite bind_run. unfold sqlite_call.
  destruct (sqlite_fault ext (sqlite_calls w2)); [done |].
  cbn [sql_commit]. intros [= <- <- <- <-]. cbn [conn disk clock_reads].
  subst w1'. cbn [conn disk clock_reads] in *. by rewrite Hconn, Hclock.
Qed.

(** However [detect_changes] ends, the clock was read once, and unless it
    returns nothing was committed. *)
Lemma detect_changes_raise (ext : externals) (products : list product)
    (e : exn) (w w' : world) :
  detect_changes ext products w = (Raise e, w') →
  disk w' = disk w ∧ clock_reads w' = S (clock_reads w).
Proof.
  unfold detect_changes. rewrite bind_run. cbn [read_clock].
  rewrite bind_run. unfold sqlite_call at 1. cbn [sqlite_calls].
  destruct (sqlite_fault ext (sqlite_calls w)); [by intros [= <- <-] |].
  cbn [sql_count disk conn]. rewrite bind_run.
  match goal with |- context [detect_loop _ _ _ _ ?w1] => set (w1' := w1) end.
  destruct (detect_loop_frame ext (time_time ext (clock_reads w)) products [] w1')
    as [Hdisk Hclock].
  destruct (detect_loop ext (time_time ext (clock_reads w)) products [] w1')
    as [[found | e'] w2] eqn:Hloop; cbn [snd] in Hdisk, Hclock.
  - rewrite bind_run. unfold sqlite_call.
    destruct (sqlite_fault ext (sqlite_calls w2)); [| done].
    intros [= <- <-]. cbn [disk clock_reads]. by rewrite Hdisk, Hclock.
  - intros [= <- <-]. by rewrite Hdisk, Hclock.
Qed.

(** Without sqlite failures [detect_changes] returns. *)
Lemma detect_changes_total (ext : externals) (products : list product) (w : world) :
  sqlite_sound ext →
  ∃ found w', detect_changes ext products w = (Ok found, w').
Proof.
  intros Hsound. unfold detect_changes. rewrite bind_run. cbn [read_clock].
  rewrite bind_run. unfold sqlite_call at 1. rewrite Hsound.
  cbn [sql_count]. rewrite bind_run.
  match goal with |- context [detect_loop _ _ _ _ ?w1] => set (w1' := w1) end.
  destruct (detect_loop_total ext (time_time ext (clock_reads w)) products [] w1' Hsound)
    as (found & w2 & ->).
  rewrite bind_run. unfold sqlite_call. rewrite Hsound. cbn [sql_commit]. eauto.
Qed.

(** C2.  When no sqlite call fails, change detection returns
    [(new_found, prev_count, curr_count)] where [prev_count] is the number
    of rows before the first write of the run and [curr_count] the length of
    the extraction result.  A record is in [new_found] exactly when its id
    was not in the store when the loop reached it: the id is not in the
    store of the start and no earlier record carries it; [new_found] keeps
    the extraction order.  A new id gets a row with its title and the time
    of the run, a known id keeps its title and gets the time of the run,
    every other row is as before, and everything is committed.  With the
    store holding the ids [A] and [B] and the extraction result [A, B, C],
    [new_found] is [C] alone, [prev_count] is 2 and [curr_count] is 3. *)
Theorem change_detection (ext : externals) (products : list product) (w : world) :
  sqlite_sound ext →
  ∃ new_found w',
    detect_changes ext products w =
      (Ok (new_found, size (conn w), length products), w') ∧
    (∀ pid title,
       (pid, title) ∈ new_found ↔
       (pid ∉ dom (conn w)) ∧ first_occurrence pid title products) ∧
    sublist new_found products ∧
    (NoDup products.*1 →
       new_found = filter (λ p : product, p.1 ∉ dom (conn w)) products) ∧
    disk w' = conn w' ∧
    (∀ pid, pid ∉ products.*1 → conn w' !! pid = conn w !! pid) ∧
    (∀ pid title,
       first_occurrence pid title products →
       conn w' !! pid =
       Some (Row (match conn w !! pid with Some r => title_col r | None => title end)
                 (time_time ext (clock_reads w)))) ∧
    (∀ A B C tA tB tC : string,
       products = [(A, tA); (B, tB); (C, tC)] →
       dom (conn w) = {[A; B]} → A ≠ B → C ≠ A → C ≠ B →
       new_found = [(C, tC)] ∧ size (conn w) = 2 ∧ length products = 3 ∧
       conn w' !! C = Some (Row tC (time_time ext (clock_reads w))) ∧
       (∀ r, conn w !! A = Some r →
             conn w' !! A = Some (Row (title_col r) (time_time ext (clock_reads w)))) ∧
       (∀ r, conn w !! B = Some r →
             conn w' !! B = Some (Row (title_col r) (time_time ext (clock_reads w))))).
Proof.
  intros Hsound.
  destruct (detect_changes_total ext products w Hsound) as ([[new_found prev] curr] & w' & Hrun).
  destruct (detect_changes_ok _ _ _ _ _ _ _ Hrun) as (Hnew & -> & -> & Hconn & Hdisk & _).
  exists new_found, w'. rewrite Hconn. subst new_found.
  assert (Hfirst : ∀ pid title,
            first_occurrence pid title products →
            store_after (time_time ext (clock_reads w)) products (conn w) !! pid =
            Some (Row (match conn w !! pid with Some r => title_col r | None => title end)
                      (time_time ext (clock_reads w)))).
  { intros pid title. apply store_after_first. }
  split_and!.
  - done.
  - intros pid title. apply new_records_spec.
  - apply new_records_sublist.
  - apply new_records_filter.
  - by rewrite Hdisk, Hconn.
  - intros pid. apply store_after_untouched.
  - done.
  - intros A B C tA tB tC -> Hdom HAB HCA HCB.
    assert (HA : first_occurrence A tA [(A, tA); (B, tB); (C, tC)]).
    { exists [], [(B, tB); (C, tC)]. split; [done | by intros ?%elem_of_nil]. }
    assert (HB : first_occurrence B tB [(A, tA); (B, tB); (C, tC)]).
    { exists [(A, tA)], [(C, tC)]. split; [done |]. simpl.
      by intros ?%list_elem_of_singleton. }
    assert (HC : first_occurrence C tC [(A, tA); (B, tB); (C, tC)]).
    { exists [(A, tA); (B, tB)], []. split; [done |]. simpl.
      intros [? | ?%list_elem_of_singleton]%elem_of_cons; done. }
    assert (HCn : conn w !! C = None).
    { apply not_elem_of_dom. rewrite Hdom. apply not_elem_of_union.
      split; by apply not_elem_of_singleton. }
    split_and!.
    + rewrite Hdom. cbn [new_records fst].
      assert (HCin : C ∉ ({[A; B]} : gset string)).
      { apply not_elem_of_union. split; by apply not_elem_of_singleton. }
      rewrite decide_True by (apply elem_of_union; left; by apply elem_of_singleton).
      rewrite decide_True by (apply elem_of_union; right; by apply elem_of_singleton).
      by rewrite decide_False.
    + rewrite <- size_dom, Hdom, size_union.
      * by rewrite !size_singleton.
      * apply disjoint_singleton_l. by apply not_elem_of_singleton.
    + done.
    + by rewrite (Hfirst C tC HC), HCn.
    + intros r Hr. by rewrite (Hfirst A tA HA), Hr.
    + intros r Hr. by rewrite (Hfirst B tB HB), Hr.
Qed.

(** ** The run: download *)

Lemma raises_only_bind {A B} (P : exn → Prop) (m : M A) (f : A → M B) :
  raises_only P m → (∀ a, raises_only P (f a)) → raises_only P (m ≫= f).
Proof.
  intros Hm Hf w e w'. rewrite bind_run.
  destruct (m w) as [[a | e1] w1] eqn:E.
  - apply Hf.
  - intros [= <- <-]. by apply (Hm w e1 w1).
Qed.

Lemma raises_only_try_except {A} (P Q : exn → Prop) (body : M A) (handler : exn → M A) :
  raises_only Q body → (∀ e, Q e → raises_only P (handler e)) →
  raises_only P (try_except body handler).
Proof.
  intros Hb Hh w e w'. unfold try_except.
  destruct (body w) as [[a | e1] w1] eqn:E; [done |].
  apply Hh. by apply (Hb w e1 w1).
Qed.

Lemma raises_only_print (ext : externals) (line : string) :
  raises_only from_library (print ext line).
Proof.
  intros w e w'. unfold print.
  by destruct (print_fault ext (length (stdout w)) line); intros [= <- <-].
Qed.

Lemma raises_only_time_sleep (seconds : Z) : raises_only from_library (time_sleep seconds).
Proof.
  intros w e w'. unfold time_sleep.
  destruct ((seconds <? - max_sleep) || (max_sleep <? seconds))%Z; [by intros [= <- <-] |].
  by destruct (seconds <? 0)%Z; intros [= <- <-].
Qed.

Lemma raises_only_http_get (ext : externals) (url : string) :
  raises_only from_library (http_get ext url).
Proof.
  intros w e w'. unfold http_get.
  by destruct (requests_get ext url (length (requested w))); intros [= <- <-].
Qed.

(** One [print] and what follows it. *)
Lemma print_then_run {A} (ext : externals) (line : string) (m : M A) (w : world) :
  (print ext line;; m) w =
  match print_fault ext (length (stdout w)) line with
  | Some shown => (Raise (OutputError shown), w)
  | None =>
      m (World (stdout w ++ [line]) (slept w) (requested w) (clock_reads w)
               (sqlite_calls w) (disk w) (conn w) (smtp_sessions w) (delivered w))
  end.
Proof.
  rewrite bind_run. unfold print.
  by destruct (print_fault ext (length (stdout w)) line).
Qed.

Lemma raises_only_sqlite_call {A} (ext : externals)
    (act : table → table → A * table * table) :
  raises_only from_library (sqlite_call ext act).
Proof.
  intros w e w'. unfold sqlite_call.
  destruct (sqlite_fault ext (sqlite_calls w)); [by intros [= <- <-] |].
  by destruct (act (disk w) (conn w)) as [[a d] c].
Qed.

Lemma raises_only_retry_loop (ext : externals) (url : string) (retries backoff : Z)
    (attempts : list Z) :
  raises_only from_library (retry_loop ext url retries backoff attempts).
Proof.
  induction attempts as [| attempt attempts IH]; [by intros w e w' |].
  cbn [retry_loop]. apply (raises_only_try_except _ from_library).
  - apply raises_only_bind; [apply raises_only_http_get | by intros r w e w'].
  - intros e He. destruct (attempt <=? retries)%Z; [| by intros w e' w' [= <- <-]].
    apply raises_only_bind; [apply raises_only_print | intros _].
    apply raises_only_bind; [apply raises_only_time_sleep | intros _]. apply IH.
Qed.

Lemma raises_only_fetch_search_html (ext : externals) (cfg : config) (query : string) :
  raises_only from_library (fetch_search_html ext cfg query).
Proof.
  unfold fetch_search_html, requests_get_with_retry.
  apply raises_only_bind; [apply raises_only_print | intros _].
  apply raises_only_bind; [apply raises_only_retry_loop | intros [text |]].
  - by intros w e w'.
  - by intros w e w' [= <- <-].
Qed.

Lemma raises_only_open_and_fetch (ext : externals) (cfg : config) :
  raises_only from_library (open_and_fetch ext cfg).
Proof.
  unfold open_and_fetch, ensure_db.
  apply raises_only_bind; [apply raises_only_print | intros _].
  apply raises_only_bind; [apply raises_only_print | intros _].
  apply raises_only_bind; [| intros _; apply raises_only_fetch_search_html].
  apply raises_only_bind; [apply raises_only_sqlite_call | intros _].
  apply raises_only_bind; [apply raises_only_sqlite_call | intros _].
  apply raises_only_sqlite_call.
Qed.

(** What [ensure_db] does, depending on the first of its three calls that
    fails. *)
Lemma ensure_db_run (ext : externals) (w : world) :
  let n := sqlite_calls w in
  let at_calls k c :=
    World (stdout w) (slept w) (requested w) (clock_reads w) k (disk w) c
          (smtp_sessions w) (delivered w) in
  ensure_db ext w =
  match sqlite_fault ext n with
  | Some shown => (Raise (SqliteError shown), at_calls (S n) (conn w))
  | None =>
      match sqlite_fault ext (S n) with
      | Some shown => (Raise (SqliteError shown), at_calls (S (S n)) (disk w))
      | None =>
          match sqlite_fault ext (S (S n)) with
          | Some shown => (Raise (SqliteError shown), at_calls (S (S (S n))) (disk w))
          | None => (Ok (), at_calls (S (S (S n))) (disk w))
          end
      end
  end.
Proof.
  cbv zeta. unfold ensure_db. rewrite bind_run. unfold sqlite_call at 1.
  destruct (sqlite_fault ext (sqlite_calls w)); [done |].
  cbn [sql_connect]. rewrite bind_run. unfold sqlite_call at 1. cbn [sqlite_calls].
  destruct (sqlite_fault ext (S (sqlite_calls w))); [done |].
  cbn [sql_create_table disk conn]. unfold sqlite_call. cbn [sqlite_calls].
  destruct (sqlite_fault ext (S (S (sqlite_calls w)))); done.
Qed.

(** The download commits nothing new and does not read the clock. *)
Lemma open_and_fetch_frame (ext : externals) (cfg : config) (w : world) :
  disk (open_and_fetch ext cfg w).2 = disk w ∧
  clock_reads (open_and_fetch ext cfg w).2 = clock_reads w.
Proof.
  unfold open_and_fetch. rewrite print_then_run.
  destruct (print_fault ext (length (stdout w)) _); [done |].
  rewrite print_then_run. cbn [stdout].
  destruct (print_fault ext _ _); [done |].
  rewrite bind_run, ensure_db_run. cbv zeta. cbn [sqlite_calls disk conn].
  destruct (sqlite_fault ext (sqlite_calls w)); [done |].
  destruct (sqlite_fault ext (S (sqlite_calls w))); [done |].
  destruct (sqlite_fault ext (S (S (sqlite_calls w)))); [done |].
  match goal with |- context [fetch_search_html _ _ _ ?w1] => set (w1' := w1) end.
  destruct (fetch_search_html_same_database ext cfg (SEARCH_QUERY cfg) w1')
    as (Hd & _ & Hc & _).
  by rewrite Hd, Hc.
Qed.

(** When the download returns, the connection holds what is on disk and
    only the three calls of [ensure_db] went to sqlite. *)
Lemma open_and_fetch_ok (ext : externals) (cfg : config) (w w1 : world) (html : string) :
  open_and_fetch ext cfg w = (Ok html, w1) →
  disk w1 = disk w ∧ conn w1 = disk w ∧
  clock_reads w1 = clock_reads w ∧ sqlite_calls w1 = 3 + sqlite_calls w.
Proof.
  unfold open_and_fetch. rewrite print_then_run.
  destruct (print_fault ext (length (stdout w)) _); [done |].
  rewrite print_then_run. cbn [stdout].
  destruct (print_fault ext _ _); [done |].
  rewrite bind_run, ensure_db_run. cbv zeta. cbn [sqlite_calls disk conn].
  destruct (sqlite_fault ext (sqlite_calls w)); [done |].
  destruct (sqlite_fault ext (S (sqlite_calls w))); [done |].
  destruct (sqlite_fault ext (S (S (sqlite_calls w)))); [done |].
  match goal with |- context [fetch_search_html _ _ _ ?w1] => set (w1' := w1) end.
  destruct (fetch_search_html_same_database ext cfg (SEARCH_QUERY cfg) w1')
    as (Hd & Hcn & Hc & Hs).
  intros Hrun. rewrite Hrun in Hd, Hcn, Hc, Hs. cbn [snd] in *.
  by rewrite Hd, Hcn, Hc, Hs.
Qed.

(** ** The run: from the download to the commit *)

(** Lines 197-200 touch neither the database nor the clock. *)
Lemma show_sample_same_database (ext : externals) (cfg : config) (products : list product) :
  preserves same_database
    (if SHOW_SAMPLE cfg then
       print ext "First 10 parsed products (sample):";;
       print_sample ext 1 (take 10 products)
     else mret ()).
Proof. destruct (SHOW_SAMPLE cfg); frame_db. Qed.

(** [gather], case by case. *)
Lemma gather_run (ext : externals) (cfg : config) (w : world) :
  gather ext cfg w =
  match open_and_fetch ext cfg w with
  | (Raise e, w1) => (Raise e, w1)
  | (Ok html_text, w1) =>
      if Py.is_empty html_text || (Py.len html_text <? 100)%nat then
        (Raise (RuntimeError suspicious_message), w1)
      else
        match parse_products_from_html ext html_text with
        | Raise e => (Raise e, w1)
        | Ok products =>
            ((if SHOW_SAMPLE cfg then
                print ext "First 10 parsed products (sample):";;
                print_sample ext 1 (take 10 products)
              else mret ());;
             detect_changes ext products) w1
        end
  end.
Proof.
  unfold gather. rewrite bind_run.
  destruct (open_and_fetch ext cfg w) as [[html_text | e] w1]; [| done].
  destruct (Py.is_empty html_text || (Py.len html_text <? 100)%nat); [done |].
  rewrite bind_run. unfold lift_result.
  by destruct (parse_products_from_html ext html_text).
Qed.

(** When [gather] returns, the page was large enough, the extraction
    returned, and every record was written and committed. *)
Lemma gather_ok (ext : externals) (cfg : config) (w w2 : world)
    (new_found : list product) (prev_count curr_count : nat) :
  gather ext cfg w = (Ok (new_found, prev_count, curr_count), w2) →
  ∃ html_text products w1,
    open_and_fetch ext cfg w = (Ok html_text, w1) ∧
    (100 ≤ Py.len html_text)%nat ∧
    parse_products_from_html ext html_text = Ok products ∧
    new_found = new_records (dom (disk w)) products ∧
    prev_count = size (disk w) ∧
    curr_count = length products ∧
    disk w2 = store_after (time_time ext (clock_reads w)) products (disk w) ∧
    conn w2 = disk w2 ∧
    clock_reads w2 = S (clock_reads w).
Proof.
  rewrite gather_run.
  destruct (open_and_fetch ext cfg w) as [[html_text | e] w1] eqn:Hfetch; [| done].
  apply open_and_fetch_ok in Hfetch as (Hd & Hcn & Hc & _).
  destruct (Py.is_empty html_text || (Py.len html_text <? 100)%nat) eqn:Hsmall; [done |].
  destruct (parse_products_from_html ext html_text) as [products | e] eqn:Hparse; [| done].
  rewrite bind_run.
  pose proof (show_sample_same_database ext cfg products w1) as (Hd' & Hcn' & Hc' & _).
  match goal with |- context [match ?m w1 with _ => _ end] =>
    destruct (m w1) as [[[] | e] w1s]
  end; [| done]. cbn [snd] in *.
  intros Hrun. apply detect_changes_ok in Hrun as (-> & -> & -> & Hconn & Hdisk & Hclock).
  exists html_text, products, w1. split_and!; try done.
  - apply orb_false_iff in Hsmall as [_ Hlen]. apply Nat.ltb_ge in Hlen. done.
  - by rewrite Hcn', Hcn.
  - by rewrite Hcn', Hcn.
  - by rewrite Hdisk, Hconn, Hcn', Hcn, Hc', Hc.
  - by rewrite Hclock, Hc', Hc.
Qed.

(** When [gather] raises, nothing was committed. *)
Lemma gather_raise (ext : externals) (cfg : config) (w w2 : world) (e : exn) :
  gather ext cfg w = (Raise e, w2) →
  disk w2 = disk w ∧ (clock_reads w2 ≤ S (clock_reads w))%nat.
Proof.
  rewrite gather_run.
  destruct (open_and_fetch_frame ext cfg w) as [Hd Hc].
  destruct (open_and_fetch ext cfg w) as [[html_text | e1] w1] eqn:Hfetch;
    cbn [snd] in Hd, Hc.
  - destruct (Py.is_empty html_text || (Py.len html_text <? 100)%nat).
    { intros [= <- <-]. rewrite Hd, Hc. split; [done | lia]. }
    destruct (parse_products_from_html ext html_text) as [products | e1].
    + rewrite bind_run.
      pose proof (show_sample_same_database ext cfg products w1) as (Hd' & _ & Hc' & _).
      match goal with |- context [match ?m w1 with _ => _ end] =>
        destruct (m w1) as [[[] | e2] w1s]
      end; cbn [snd] in *.
      * intros Hrun. apply detect_changes_raise in Hrun as [Hd2 Hc2].
        rewrite Hd2, Hc2, Hd', Hc', Hd, Hc. done.
      * intros [= <- <-]. rewrite Hd', Hc', Hd, Hc. split; [done | lia].
    + intros [= <- <-]. rewrite Hd, Hc. split; [done | lia].
  - intros [= <- <-]. rewrite Hd, Hc. split; [done | lia].
Qed.

(** ** The run: handler and outcome *)

(** Reduce the fields read off an explicit world. *)
Ltac world_simpl :=
  cbn [stdout slept requested clock_reads sqlite_calls disk conn
       smtp_sessions delivered fst snd].

(** [main], case by case. *)
Lemma main_run (ext : externals) (cfg : config) (w : world) :
  main ext cfg w =
  match gather ext cfg w with
  | (Raise e, w1) => handle_error ext cfg e w1
  | (Ok found, w1) =>
      match report ext cfg found w1 with
      | (Ok a, w2) => (Ok a, w2)
      | (Raise e, w2) => handle_error ext cfg e w2
      end
  end.
Proof.
  unfold main, try_except, main_body. rewrite bind_run.
  by destruct (gather ext cfg w) as [[found | e] w1].
Qed.

Lemma main_body_run (ext : externals) (cfg : config) (w : world) :
  main_body ext cfg w =
  match gather ext cfg w with
  | (Raise e, w1) => (Raise e, w1)
  | (Ok found, w1) => report ext cfg found w1
  end.
Proof.
  unfold main_body. rewrite bind_run.
  by destruct (gather ext cfg w) as [[found | e] w1].
Qed.

(** What [send_email] does, up to its last [print]. *)
Lemma send_email_run (ext : externals) (cfg : config) (subject body : string) (w : world) :
  send_email ext cfg subject body w =
  if email_configured cfg then
    match build_message cfg subject body with
    | Raise e => (Raise e, w)
    | Ok mail =>
        let sessions := (smtp_sessions w ++ [((SMTP_PORT cfg =? 587)%Z, mail)])%list in
        match smtp_end ext (length (smtp_sessions w)) with
        | Accepted =>
            print ext ("Email sent: " ++ subject)
              (World (stdout w) (slept w) (requested w) (clock_reads w) (sqlite_calls w)
                     (disk w) (conn w) sessions (delivered w ++ [mail]))
        | Refused shown =>
            (Raise (SMTPException shown),
             World (stdout w) (slept w) (requested w) (clock_reads w) (sqlite_calls w)
                   (disk w) (conn w) sessions (delivered w))
        | AcceptedThenRaised shown =>
            (Raise (SMTPException shown),
             World (stdout w) (slept w) (requested w) (clock_reads w) (sqlite_calls w)
                   (disk w) (conn w) sessions (delivered w ++ [mail]))
        end
    end
  else
    (print ext "Email not configured properly. Skipping email send.";;
     print ext ("Subject: " ++ subject)) w.
Proof.
  unfold send_email. cbv zeta. destruct (email_configured cfg); cbn [negb]; [| done].
  rewrite bind_run. unfold lift_result.
  destruct (build_message cfg subject body) as [mail | e]; [| done].
  rewrite bind_run. unfold smtp_session.
  by destruct (smtp_end ext (length (smtp_sessions w))).
Qed.

(** The prints of [send_email] touch neither the sessions nor the accepted
    messages. *)
Lemma print_mail (ext : externals) (line : string) (w : world) :
  smtp_sessions (print ext line w).2 = smtp_sessions w ∧
  delivered (print ext line w).2 = delivered w.
Proof. unfold print. by destruct (print_fault ext (length (stdout w)) line). Qed.

(** The sessions and accepted messages of one [send_email]. *)
Lemma send_email_mail (ext : externals) (cfg : config) (subject body : string) (w : world) :
  smtp_sessions (send_email ext cfg subject body w).2 =
    (smtp_sessions w ++ option_list (mail_attempt cfg subject body))%list ∧
  delivered (send_email ext cfg subject body w).2 =
    (delivered w ++
     accepted_of ext (length (smtp_sessions w)) (mail_attempt cfg subject body))%list.
Proof.
  rewrite send_email_run. unfold mail_attempt, accepted_of.
  destruct (email_configured cfg).
  - destruct (build_message cfg subject body) as [mail | e];
      [| by rewrite !app_nil_r].
    cbv zeta. cbn [option_list].
    destruct (smtp_end ext (length (smtp_sessions w))); cbn [accepts];
      [| by rewrite app_nil_r | done].
    match goal with |- context [print ext ?l ?w1] =>
      destruct (print_mail ext l w1) as [-> ->] end. done.
  - cbn [option_list]. rewrite !app_nil_r, bind_run.
    match goal with |- context [print ext ?l w] =>
      pose proof (print_mail ext l w) as [Hs Hd];
      destruct (print ext l w) as [[[] | e] w1] end; cbn [snd] in *; [| done].
    match goal with |- context [print ext ?l w1] =>
      destruct (print_mail ext l w1) as [-> ->] end. done.
Qed.

(** What the handler does: it logs the error and, if that [print] returns,
    tries to mail it and drops whatever the mailing raises. *)
Lemma handle_error_run (ext : externals) (cfg : config) (e : exn) (w : world) :
  handle_error ext cfg e w =
  match print_fault ext (length (stdout w)) ("Error: " ++ repr e) with
  | Some shown => (Raise (OutputError shown), w)
  | None =>
      match send_email ext cfg ("[FirstCry Monitor] Error for " ++ SEARCH_QUERY cfg)
              (repr e)
              (World (stdout w ++ [("Error: " ++ repr e)%string]) (slept w) (requested w)
                     (clock_reads w) (sqlite_calls w) (disk w) (conn w)
                     (smtp_sessions w) (delivered w)) with
      | (Ok a, w2) => (Ok a, w2)
      | (Raise _, w2) => (Ok (), w2)
      end
  end.
Proof.
  unfold handle_error. rewrite print_then_run.
  by destruct (print_fault ext (length (stdout w)) ("Error: " ++ repr e)).
Qed.

(** The handler raises only what its own [print] raises. *)
Lemma handle_error_returns (ext : externals) (cfg : config) (e : exn) (w : world) :
  print_fault ext (length (stdout w)) ("Error: " ++ repr e) = None →
  (handle_error ext cfg e w).1 = Ok ().
Proof.
  intros Hp. rewrite handle_error_run, Hp.
  by match goal with |- context [send_email ext cfg ?s ?b ?w1] =>
    destruct (send_email ext cfg s b w1) as [[[] | e1] w2] end.
Qed.

(** [print] only adds lines. *)
Lemma print_stdout (ext : externals) (line : string) (w : world) :
  ∃ more, stdout (print ext line w).2 = (stdout w ++ more)%list.
Proof.
  unfold print. destruct (print_fault ext (length (stdout w)) line).
  - exists []. by rewrite app_nil_r.
  - by exists [line].
Qed.

Lemma send_email_stdout (ext : externals) (cfg : config) (subject body : string)
    (w : world) :
  ∃ more, stdout (send_email ext cfg subject body w).2 = (stdout w ++ more)%list.
Proof.
  rewrite send_email_run. destruct (email_configured cfg).
  - destruct (build_message cfg subject body) as [mail | e];
      [| exists []; by rewrite app_nil_r].
    cbv zeta. destruct (smtp_end ext (length (smtp_sessions w)));
      [| exists []; by rewrite app_nil_r | exists []; by rewrite app_nil_r].
    match goal with |- context [print ext ?l ?w1] =>
      destruct (print_stdout ext l w1) as [more ->] end. by exists more.
  - rewrite bind_run.
    match goal with |- context [print ext ?l w] =>
      destruct (print_stdout ext l w) as [more1 H1];
      destruct (print ext l w) as [[[] | e] w1] end; cbn [snd] in *;
      [| by exists more1].
    match goal with |- context [print ext ?l w1] =>
      destruct (print_stdout ext l w1) as [more2 ->] end.
    exists (more1 ++ more2)%list. by rewrite H1, app_assoc.
Qed.

(** C9.  [main] raises only what the handler's own [print]
    raises: line 233 is outside the inner [try].  When the [try] block
    returns, so does [main].  When it raises [e], the handler prints
    ["Error: "] followed by [repr e]; if that [print] raises, [main]
    raises the same and does nothing else; if it returns, [main] returns:
    with complete mail settings and headers of one line it opens one SMTP
    session for a message with the subject
    ["[FirstCry Monitor] Error for <query>"] and the body [repr e], and
    whatever this attempt raises is dropped; the handler touches neither
    the database nor the clock.  So on a console that takes every line
    [main] returns normally from every world. *)
Theorem run_fails_only_by_print (ext : externals) (cfg : config) (w : world) :
  (∀ w1, main_body ext cfg w = (Ok (), w1) → main ext cfg w = (Ok (), w1)) ∧
  (∀ e w1 shown,
     main_body ext cfg w = (Raise e, w1) →
     print_fault ext (length (stdout w1)) ("Error: " ++ repr e) = Some shown →
     main ext cfg w = (Raise (OutputError shown), w1)) ∧
  (∀ e w1,
     main_body ext cfg w = (Raise e, w1) →
     print_fault ext (length (stdout w1)) ("Error: " ++ repr e) = None →
     let attempt :=
       mail_attempt cfg ("[FirstCry Monitor] Error for " ++ SEARCH_QUERY cfg) (repr e) in
     (main ext cfg w).1 = Ok () ∧
     (∃ more,
        stdout (main ext cfg w).2 =
          (stdout w1 ++ ("Error: " ++ repr e)%string :: more)%list) ∧
     smtp_sessions (main ext cfg w).2 = (smtp_sessions w1 ++ option_list attempt)%list ∧
     delivered (main ext cfg w).2 =
       (delivered w1 ++ accepted_of ext (length (smtp_sessions w1)) attempt)%list ∧
     same_database w1 (main ext cfg w).2) ∧
  (console_sound ext → (main ext cfg w).1 = Ok ()).
Proof.
  split_and!.
  - intros w1 Hbody. unfold main, try_except. by rewrite Hbody.
  - intros e w1 shown Hbody Hp. unfold main, try_except. rewrite Hbody.
    by rewrite handle_error_run, Hp.
  - intros e w1 Hbody Hp attempt. unfold main, try_except. rewrite Hbody.
    split; [by apply handle_error_returns |].
    pose proof (handle_error_same_database ext cfg e w1) as Hdb.
    rewrite handle_error_run, Hp in Hdb |- *.
    match goal with |- context [send_email ext cfg ?s ?b ?w2] =>
      destruct (send_email_mail ext cfg s b w2) as [Hs Hd];
      destruct (send_email_stdout ext cfg s b w2) as [more Hout];
      destruct (send_email ext cfg s b w2) as [[[] | e1] w3]
    end; cbn [snd stdout smtp_sessions delivered] in *;
      (split_and!; [exists more; by rewrite Hout, <- app_assoc | done | done | done]).
  - intros Hc. unfold main, try_except.
    destruct (main_body ext cfg w) as [[[] | e] w1]; [done |].
    by apply handle_error_returns.
Qed.

(** After [gather], nothing touches the database or the clock. *)
Lemma main_after_gather (ext : externals) (cfg : config) (w : world) :
  same_database (gather ext cfg w).2 (main ext cfg w).2.
Proof.
  rewrite main_run.
  destruct (gather ext cfg w) as [[found | e] w1]; cbn [snd];
    [| apply handle_error_same_database].
  pose proof (report_same_database ext cfg found w1) as Hreport.
  destruct (report ext cfg found w1) as [[[] | e] w2]; cbn [snd] in *; [done |].
  eapply same_database_trans; [exact Hreport | apply handle_error_same_database].
Qed.

(** C6.  The writes of a run reach the database file together or not at
    all.  If lines 186-216 raise, at whatever point before the commit has
    completed, the table on disk after the run is the table of before the
    run.  If they return, the table on disk holds every write of the run: a
    row with the run's time for every extracted id, with the extracted
    title when the id was unknown and with the stored title otherwise, and
    all other rows unchanged. *)
Theorem commit_is_atomic (ext : externals) (cfg : config) (w : world) :
  (∀ e w1,
     gather ext cfg w = (Raise e, w1) →
     disk (main ext cfg w).2 = disk w) ∧
  (∀ new_found prev_count curr_count w1,
     gather ext cfg w = (Ok (new_found, prev_count, curr_count), w1) →
     ∃ html_text products,
       parse_products_from_html ext html_text = Ok products ∧
       disk (main ext cfg w).2 =
         store_after (time_time ext (clock_reads w)) products (disk w) ∧
       (∀ pid, pid ∉ products.*1 → disk (main ext cfg w).2 !! pid = disk w !! pid) ∧
       (∀ pid title,
          first_occurrence pid title products →
          disk (main ext cfg w).2 !! pid =
          Some (Row (match disk w !! pid with Some r => title_col r | None => title end)
                    (time_time ext (clock_reads w))))).
Proof.
  destruct (main_after_gather ext cfg w) as (Hd & _). split.
  - intros e w1 Hg. rewrite Hg in Hd. cbn [snd] in Hd. rewrite Hd.
    by apply gather_raise in Hg as [-> _].
  - intros new_found prev_count curr_count w1 Hg.
    rewrite Hg in Hd. cbn [snd] in Hd. rewrite Hd.
    apply gather_ok in Hg as (html_text & products & w0 & _ & _ & Hparse & _ & _ & _ & -> & _).
    exists html_text, products. split_and!; [done | done | |].
    + intros pid. apply store_after_untouched.
    + intros pid title. apply store_after_first.
Qed.

(** Whatever the loop does to a row of the connection, it stamps it with
    [now]. *)
Lemma detect_loop_rows (ext : externals) (now : Z)
    (products new_found : list product) (w : world) (pid : string) :
  conn (detect_loop ext now products new_found w).2 !! pid = conn w !! pid ∨
  ∃ title, conn (detect_loop ext now products new_found w).2 !! pid = Some (Row title now).
Proof.
  revert new_found w. induction products as [| [q t] products IH];
    intros new_found w; [by left |].
  rewrite detect_loop_cons. cbv zeta.
  destruct (sqlite_fault ext (sqlite_calls w)); [by left |].
  destruct (sqlite_fault ext (S (sqlite_calls w))); [by left |].
  destruct (conn w !! q) as [r |] eqn:Hq.
  - match goal with |- context [detect_loop _ _ _ ?nf ?w1] =>
      destruct (IH nf w1) as [-> | Hst]; [| by right] end.
    world_simpl. destruct (decide (q = pid)) as [-> | Hne].
    + right. rewrite lookup_alter_eq, Hq. by eexists.
    + left. by rewrite lookup_alter_ne.
  - match goal with |- context [detect_loop _ _ _ ?nf ?w1] =>
      destruct (IH nf w1) as [-> | Hst]; [| by right] end.
    world_simpl. destruct (decide (q = pid)) as [-> | Hne].
    + right. rewrite lookup_insert_eq. by eexists.
    + left. by rewrite lookup_insert_ne.
Qed.

(** [detect_changes], case by case. *)
Lemma detect_changes_run (ext : externals) (products : list product) (w : world) :
  detect_changes ext products w =
  let n := sqlite_calls w in
  let now := time_time ext (clock_reads w) in
  let at_calls k :=
    World (stdout w) (slept w) (requested w) (S (clock_reads w)) k (disk w) (conn w)
          (smtp_sessions w) (delivered w) in
  match sqlite_fault ext n with
  | Some shown => (Raise (SqliteError shown), at_calls (S n))
  | None =>
      match detect_loop ext now products [] (at_calls (S n)) with
      | (Raise e, w2) => (Raise e, w2)
      | (Ok new_found, w2) =>
          match sqlite_fault ext (sqlite_calls w2) with
          | Some shown =>
              (Raise (SqliteError shown),
               World (stdout w2) (slept w2) (requested w2) (clock_reads w2)
                     (S (sqlite_calls w2)) (disk w2) (conn w2)
                     (smtp_sessions w2) (delivered w2))
          | None =>
              (Ok (new_found, size (conn w), length products),
               World (stdout w2) (slept w2) (requested w2) (clock_reads w2)
                     (S (sqlite_calls w2)) (conn w2) (conn w2)
                     (smtp_sessions w2) (delivered w2))
          end
      end
  end.
Proof.
  cbv zeta. unfold detect_changes. rewrite bind_run. cbn [read_clock].
  rewrite bind_run. unfold sqlite_call at 1. world_simpl.
  destruct (sqlite_fault ext (sqlite_calls w)); [done |].
  cbn [sql_count]. rewrite bind_run.
  match goal with |- context [detect_loop _ ?now _ ?nf ?w1] =>
    destruct (detect_loop ext now products nf w1) as [[found | e] w2]
  end; [| done].
  rewrite bind_run. unfold sqlite_call.
  by destruct (sqlite_fault ext (sqlite_calls w2)).
Qed.

Lemma detect_changes_rows (ext : externals) (products : list product)
    (w : world) (pid : string) :
  conn (detect_changes ext products w).2 !! pid = conn w !! pid ∨
  ∃ title, conn (detect_changes ext products w).2 !! pid
           = Some (Row title (time_time ext (clock_reads w))).
Proof.
  rewrite detect_changes_run. cbv zeta.
  destruct (sqlite_fault ext (sqlite_calls w)); [by left |].
  match goal with |- context [detect_loop _ ?now _ ?nf ?w1] =>
    pose proof (detect_loop_rows ext now products nf w1 pid) as Hrows;
    destruct (detect_loop ext now products nf w1) as [[found | e] w2]
  end; cbn [snd conn clock_reads] in Hrows; [| exact Hrows].
  destruct (sqlite_fault ext (sqlite_calls w2)); exact Hrows.
Qed.

Lemma detect_changes_clock (ext : externals) (products : list product) (w : world) :
  clock_reads (detect_changes ext products w).2 = S (clock_reads w).
Proof.
  destruct (detect_changes ext products w) as [[[[new_found prev] curr] | e] w'] eqn:Hrun;
    cbn [snd].
  - by apply detect_changes_ok in Hrun as (_ & _ & _ & _ & _ & ->).
  - by apply detect_changes_raise in Hrun as [_ ->].
Qed.

(** C10.  The clock is read once per change detection, whether it returns
    or raises, and every row of the connection that the detection changed
    or inserted carries that one reading as [last_seen]; when the detection
    returns, every extracted id has a row with that reading, and the rows
    are committed.  Over a whole run the clock is read at most once, and
    every row on disk is as it was before the run or carries the first
    clock reading of the run. *)
Theorem one_timestamp_per_run (ext : externals) :
  (∀ (products : list product) (w : world),
     clock_reads (detect_changes ext products w).2 = S (clock_reads w) ∧
     ∀ pid,
       conn (detect_changes ext products w).2 !! pid = conn w !! pid ∨
       ∃ title, conn (detect_changes ext products w).2 !! pid
                = Some (Row title (time_time ext (clock_reads w)))) ∧
  (∀ (products : list product) (w w' : world) found,
     detect_changes ext products w = (Ok found, w') →
     disk w' = conn w' ∧
     ∀ pid, pid ∈ products.*1 →
       ∃ title, conn w' !! pid = Some (Row title (time_time ext (clock_reads w)))) ∧
  (∀ (cfg : config) (w : world),
     (clock_reads (main ext cfg w).2 ≤ S (clock_reads w))%nat ∧
     ∀ pid,
       disk (main ext cfg w).2 !! pid = disk w !! pid ∨
       ∃ title, disk (main ext cfg w).2 !! pid
                = Some (Row title (time_time ext (clock_reads w)))).
Proof.
  split_and!.
  - intros products w. split; [apply detect_changes_clock | apply detect_changes_rows].
  - intros products w w' [[new_found prev] curr] Hrun.
    apply detect_changes_ok in Hrun as (_ & _ & _ & Hconn & Hdisk & _).
    split; [done |]. intros pid Hin. rewrite Hconn.
    destruct (first_occurrence_exists _ _ Hin) as [title Hfirst].
    eexists. by apply store_after_first.
  - intros cfg w. destruct (main_after_gather ext cfg w) as (Hd & _ & Hc & _).
    rewrite Hd, Hc.
    destruct (gather ext cfg w) as [[[[new_found prev] curr] | e] w1] eqn:Hg; cbn [snd].
    + apply gather_ok in Hg as (html_text & products & w0 & _ & _ & _ & _ & _ & _ & -> & _ & ->).
      split; [done |]. intros pid. apply store_after_rows.
    + apply gather_raise in Hg as [-> Hclock]. split; [done | by left].
Qed.
(** ** The run: a page that is too small *)

Lemma retry_loop_with_parser (ext : externals) (bs : string → outcome soup)
    (up : string → outcome string) (url : string) (retries backoff : Z)
    (attempts : list Z) (w : world) :
  retry_loop (with_parser ext bs up) url retries backoff attempts w =
  retry_loop ext url retries backoff attempts w.
Proof.
  revert w. induction attempts as [| attempt attempts IH]; intros w; [done |].
  cbn [retry_loop]. unfold try_except. rewrite !bind_run. unfold http_get.
  cbn [with_parser requests_get].
  destruct (requests_get ext url (length (requested w))); cbn [lift_outcome]; [done |].
  destruct (attempt <=? retries)%Z; [| done].
  rewrite !print_then_run. cbn [with_parser print_fault].
  destruct (print_fault ext _ _); [done |].
  rewrite !bind_run.
  match goal with |- context [time_sleep ?s ?w1] =>
    destruct (time_sleep s w1) as [[[] | e] w2] end; [apply IH | done].
Qed.

Lemma open_and_fetch_with_parser (ext : externals) (bs : string → outcome soup)
    (up : string → outcome string) (cfg : config) (w : world) :
  open_and_fetch (with_parser ext bs up) cfg w = open_and_fetch ext cfg w.
Proof.
  unfold open_and_fetch. rewrite !print_then_run. cbn [with_parser print_fault].
  destruct (print_fault ext _ _); [done |].
  destruct (print_fault ext _ _); [done |].
  rewrite !bind_run, !ensure_db_run. cbv zeta.
  cbn [with_parser sqlite_fault].
  destruct (sqlite_fault ext _); [done |].
  destruct (sqlite_fault ext _); [done |].
  destruct (sqlite_fault ext _); [done |].
  unfold fetch_search_html, requests_get_with_retry.
  rewrite !print_then_run. cbn [with_parser print_fault].
  destruct (print_fault ext _ _); [done |].
  rewrite !bind_run. by rewrite retry_loop_with_parser.
Qed.

Lemma handle_error_with_parser (ext : externals) (bs : string → outcome soup)
    (up : string → outcome string) (cfg : config) (e : exn) (w : world) :
  handle_error (with_parser ext bs up) cfg e w = handle_error ext cfg e w.
Proof. reflexivity. Qed.

(** C7.  When the download returns a page of fewer than 100 characters,
    the [try] block raises the [RuntimeError] with the text
    "Fetched HTML is suspiciously small ..." in the very world the download
    left: the handler takes over, nothing is written to the table, neither
    on disk nor in the connection, sqlite saw only the three calls of
    [ensure_db], the clock was not read, and the run does not depend on the
    HTML parser or on [urlparse], so no extraction took place.  This error
    is none of the errors a failing download raises: those all come out of
    library calls. *)
Theorem small_page_rejected (ext : externals) (cfg : config) (w w1 : world)
    (html_text : string) :
  open_and_fetch ext cfg w = (Ok html_text, w1) →
  (Py.len html_text < 100)%nat →
  main_body ext cfg w = (Raise (RuntimeError suspicious_message), w1) ∧
  main ext cfg w = handle_error ext cfg (RuntimeError suspicious_message) w1 ∧
  disk (main ext cfg w).2 = disk w ∧
  conn (main ext cfg w).2 = disk w ∧
  sqlite_calls (main ext cfg w).2 = 3 + sqlite_calls w ∧
  clock_reads (main ext cfg w).2 = clock_reads w ∧
  (∀ bs up, main (with_parser ext bs up) cfg w = main ext cfg w) ∧
  (∀ w0 e w0',
     open_and_fetch ext cfg w0 = (Raise e, w0') →
     from_library e ∧ e ≠ RuntimeError suspicious_message).
Proof.
  intros Hfetch Hlen.
  assert (Hsmall : Py.is_empty html_text || (Py.len html_text <? 100)%nat = true).
  { apply orb_true_iff. right. by apply Nat.ltb_lt. }
  assert (Hg : gather ext cfg w = (Raise (RuntimeError suspicious_message), w1)).
  { by rewrite gather_run, Hfetch, Hsmall. }
  assert (Hmain : main ext cfg w = handle_error ext cfg (RuntimeError suspicious_message) w1).
  { by rewrite main_run, Hg. }
  destruct (open_and_fetch_ok _ _ _ _ _ Hfetch) as (Hd & Hcn & Hc & Hs).
  destruct (handle_error_same_database ext cfg (RuntimeError suspicious_message) w1)
    as (Hd' & Hcn' & Hc' & Hs').
  split_and!.
  - by rewrite main_body_run, Hg.
  - done.
  - by rewrite Hmain, Hd', Hd.
  - by rewrite Hmain, Hcn', Hcn.
  - by rewrite Hmain, Hs', Hs.
  - by rewrite Hmain, Hc', Hc.
  - intros bs up. rewrite Hmain, main_run, gather_run, open_and_fetch_with_parser, Hfetch, Hsmall.
    apply handle_error_with_parser.
  - intros w0 e w0' Hraise. apply raises_only_open_and_fetch in Hraise.
    split; [done |]. by intros ->.
Qed.

(** ** The run: notification *)

Lemma append_assoc (a b c : string) : (a ++ b) ++ c = a ++ (b ++ c).
Proof. induction a as [| x a IH]; [done |]. rewrite !append_cons. by rewrite IH. Qed.


Lemma contains_here (needle rest : string) : Py.contains needle (needle ++ rest) = true.
Proof.
  assert (H : String.prefix needle (needle ++ rest) = true).
  { apply prefix_app_iff. by exists rest. }
  destruct (needle ++ rest); cbn [Py.contains]; by rewrite H.
Qed.

Lemma contains_append_l (needle before s : string) :
  Py.contains needle s = true → Py.contains needle (before ++ s) = true.
Proof.
  intros H. induction before as [| c before IH]; [done |].
  rewrite append_cons. cbn [Py.contains]. rewrite IH. apply orb_true_r.
Qed.

Lemma contains_append_r (needle s after : string) :
  Py.contains needle s = true → Py.contains needle (s ++ after) = true.
Proof.
  induction s as [| c s IH]; cbn [Py.contains].
  - rewrite orb_false_r. intros H. apply prefix_app_iff in H as [r Hr].
    destruct needle; [| by rewrite append_cons in Hr].
    rewrite append_empty. by destruct after.
  - intros [H | H]%orb_true_iff.
    + apply prefix_app_iff in H as [r Hr].
      rewrite Hr, append_assoc. apply contains_here.
    + rewrite append_cons. cbn [Py.contains]. rewrite (IH H). apply orb_true_r.
Qed.





(** * The properties on the example data *)

(** A page with a secondary-tier link and no primary-tier link yields the
    record of that link and nothing of the later tiers. *)
Lemma tiers_in_order_witness :
  ∃ l, parse_products_from_html Ex.secondary_ext "" = Ok l ∧
       sublist l [("9", "Pedal car")] ∧
       (∀ pid, pid ∈ l.*1 ↔ pid ≠ "" ∧ pid ∈ [("9", "Pedal car")].*1).
Proof.
  pose proof (tiers_in_order Ex.secondary_ext "") as H.
  change (BeautifulSoup Ex.secondary_ext "") with (Returns Ex.secondary_soup) in H.
  destruct H as [_ H].
  apply (H 1 [("9", "Pedal car")]).
  - lia.
  - intros j Hj. assert (j = 0) as -> by lia. vm_compute. reflexivity.
  - vm_compute. reflexivity.
  - discriminate.
Defined.

(** The store knows [A] and [B]; the extraction found [A], [B], [C]. *)
Lemma change_detection_witness :
  sqlite_sound Ex.ext ∧
  ∃ w', detect_changes Ex.ext Ex.abc Ex.world_ab = (Ok ([("C", "c")], 2, 3), w') ∧
        disk w' !! "C" = Some (Row "c" 1700000000) ∧
        disk w' !! "A" = Some (Row "a" 1700000000) ∧
        disk w' !! "B" = Some (Row "b" 1700000000).
Proof.
  assert (Hs : sqlite_sound Ex.ext) by (intros n; reflexivity).
  split; [exact Hs |].
  destruct (change_detection Ex.ext Ex.abc Ex.world_ab Hs)
    as (new_found & w' & Hrun & _ & _ & _ & Hdisk & _ & _ & Hex).
  destruct (Hex "A" "B" "C" "a2" "b2" "c") as (Hnew & Hprev & Hcur & HC & HA & HB);
    [reflexivity | vm_compute; reflexivity | discriminate | discriminate | discriminate |].
  exists w'. rewrite Hrun, Hnew, Hprev, Hcur, Hdisk. split_and!.
  - reflexivity.
  - exact HC.
  - apply (HA (Row "a" 1600000000)). vm_compute. reflexivity.
  - apply (HB (Row "b" 1600000001)). vm_compute. reflexivity.
Defined.

(** Two links to [car-1] with different texts, then one to [car-2]; and
    two links to [x], the first with no-break spaces around the link and
    inside the text. *)
Lemma extraction_deduplicates_witness :
  (parse_products_from_html Ex.ext "" = Ok [("car-1", "Red Car"); ("car-2", "Van")] ∧
   ∃ s i raw,
     BeautifulSoup Ex.ext "" = Returns s ∧
     i < 4 ∧ (∀ j, j < i → tier Ex.ext s j = Ok []) ∧ tier Ex.ext s i = Ok raw ∧
     NoDup [("car-1", "Red Car"); ("car-2", "Van")].*1 ∧
     (∀ pid, pid ∈ [("car-1", "Red Car"); ("car-2", "Van")].*1 ↔ pid ≠ "" ∧ pid ∈ raw.*1) ∧
     (∀ pid title,
        (pid, title) ∈ [("car-1", "Red Car"); ("car-2", "Van")] →
        first_occurrence pid title raw) ∧
     sublist [("car-1", "Red Car"); ("car-2", "Van")] raw ∧
     (∀ m n p q, (m < n)%nat →
        [("car-1", "Red Car"); ("car-2", "Van")] !! m = Some p →
        [("car-1", "Red Car"); ("car-2", "Van")] !! n = Some q →
        first_before p q raw)) ∧
  parse_products_from_html Ex.twin_ext "" = Ok [("car-1", "Red Car")] ∧
  parse_products_from_html Ex.nbsp_ext "" = Ok [("x", "Red Car Two")].
Proof.
  destruct extraction_deduplicates as [Hgeneral Htwins].
  assert (Hrun : parse_products_from_html Ex.ext ""
                 = Ok [("car-1", "Red Car"); ("car-2", "Van")])
    by (vm_compute; reflexivity).
  split; [split; [exact Hrun | exact (Hgeneral Ex.ext "" _ Hrun)] |].
  split.
  - apply (Htwins Ex.twin_ext "" (Anchor " /hotwheels/car-1 " "Red  Car")
                  (Anchor "/hotwheels/car-1?ref=top" "Blue Car") []
                  "/hotwheels/car-1" "/hotwheels/car-1");
      first [reflexivity | discriminate].
  - apply (Htwins Ex.nbsp_ext ""
                  (Anchor (Ex.nbsp ++ "/hotwheels/x" ++ Ex.nbsp)
                          ("Red" ++ Ex.nbsp ++ "Car  Two"))
                  (Anchor "/hotwheels/x" "Blue Car") []
                  "/hotwheels/x" "/hotwheels/x");
      first [vm_compute; reflexivity | vm_compute; discriminate].
Defined.



(** Two failures, then the page: two waits. *)
Lemma fetch_retries_witness :
  (requests_get_with_retry Ex.ext "https://www.firstcry.com/hotwheels" 2 5
     (fresh_world ∅)).1 = Ok (Some Ex.page) ∧
  slept (requests_get_with_retry Ex.ext "https://www.firstcry.com/hotwheels" 2 5
           (fresh_world ∅)).2 = [5; 10]%Z ∧
  requested (requests_get_with_retry Ex.ext "https://www.firstcry.com/hotwheels" 2 5
               (fresh_world ∅)).2
  = ["https://www.firstcry.com/hotwheels"; "https://www.firstcry.com/hotwheels";
     "https://www.firstcry.com/hotwheels"].
Proof.
  destruct (fetch_retries Ex.ext "https://www.firstcry.com/hotwheels" 5 (fresh_world ∅))
    as (_ & Htwice & _); [intros n line; reflexivity | lia |].
  apply (Htwice "ConnectionError()" "ConnectionError()" Ex.page);
    [vm_compute; discriminate | reflexivity | reflexivity | reflexivity].
Defined.

(** A run whose second write fails leaves the file as it was, although the
    connection had already stamped [car-1]; a run without failure commits
    both rows. *)
Lemma commit_is_atomic_witness :
  (conn (gather Ex.faulty_ext Ex.cfg (fresh_world Ex.seeded)).2 !! "car-1"
     = Some (Row "Red Car" 1700000000) ∧
   disk (main Ex.faulty_ext Ex.cfg (fresh_world Ex.seeded)).2 = disk (fresh_world Ex.seeded)) ∧
  ∃ html_text products,
    parse_products_from_html Ex.ext html_text = Ok products ∧
    disk (main Ex.ext Ex.cfg (fresh_world Ex.seeded)).2 =
      store_after (time_time Ex.ext (clock_reads (fresh_world Ex.seeded))) products
                  (disk (fresh_world Ex.seeded)) ∧
    (∀ pid, pid ∉ products.*1 →
       disk (main Ex.ext Ex.cfg (fresh_world Ex.seeded)).2 !! pid
       = disk (fresh_world Ex.seeded) !! pid) ∧
    (∀ pid title,
       first_occurrence pid title products →
       disk (main Ex.ext Ex.cfg (fresh_world Ex.seeded)).2 !! pid =
       Some (Row (match disk (fresh_world Ex.seeded) !! pid with
                  | Some r => title_col r
                  | None => title
                  end)
                 (time_time Ex.ext (clock_reads (fresh_world Ex.seeded))))).
Proof.
  split.
  - split; [vm_compute; reflexivity |].
    destruct (commit_is_atomic Ex.faulty_ext Ex.cfg (fresh_world Ex.seeded)) as [Hfail _].
    apply (Hfail (SqliteError "OperationalError('disk I/O error')")
                 (gather Ex.faulty_ext Ex.cfg (fresh_world Ex.seeded)).2).
    vm_compute. reflexivity.
  - destruct (commit_is_atomic Ex.ext Ex.cfg (fresh_world Ex.seeded)) as [_ Hok].
    apply (Hok [("car-2", "Van")] 1 2 (gather Ex.ext Ex.cfg (fresh_world Ex.seeded)).2).
    vm_compute. reflexivity.
Defined.

(** The server answers with a page of 60 characters in 120 bytes. *)
Lemma small_page_rejected_witness :
  String.length Ex.short_page = 120 ∧ Py.len Ex.short_page = 60 ∧
  main_body Ex.short_ext Ex.cfg (fresh_world Ex.seeded) =
    (Raise (RuntimeError suspicious_message),
     (open_and_fetch Ex.short_ext Ex.cfg (fresh_world Ex.seeded)).2) ∧
  disk (main Ex.short_ext Ex.cfg (fresh_world Ex.seeded)).2 = disk (fresh_world Ex.seeded) ∧
  conn (main Ex.short_ext Ex.cfg (fresh_world Ex.seeded)).2 = disk (fresh_world Ex.seeded) ∧
  sqlite_calls (main Ex.short_ext Ex.cfg (fresh_world Ex.seeded)).2 = 3 ∧
  clock_reads (main Ex.short_ext Ex.cfg (fresh_world Ex.seeded)).2 = 0.
Proof.
  split; [vm_compute; reflexivity |]. split; [vm_compute; reflexivity |].
  destruct (small_page_rejected Ex.short_ext Ex.cfg (fresh_world Ex.seeded)
              (open_and_fetch Ex.short_ext Ex.cfg (fresh_world Ex.seeded)).2 Ex.short_page)
    as (Hbody & _ & Hdisk & Hconn & Hcalls & Hclock & _).
  - vm_compute. reflexivity.
  - vm_compute. lia.
  - split_and!; [exact Hbody | exact Hdisk | exact Hconn | exact Hcalls | exact Hclock].
Defined.

(** A full URL in capitals is kept; a plain query is encoded. *)
Lemma build_fetch_url_spec_witness :
  build_fetch_url Ex.cfg "HTTPS://www.firstcry.com/hotwheels/5/0/113?sort=popularity"
    = "HTTPS://www.firstcry.com/hotwheels/5/0/113?sort=popularity" ∧
  build_fetch_url Ex.cfg "hot wheels" = "https://www.firstcry.com/search?query=hot+wheels".
Proof.
  split.
  - destruct (build_fetch_url_spec Ex.cfg
                "HTTPS://www.firstcry.com/hotwheels/5/0/113?sort=popularity") as [Hurl _].
    apply Hurl. exists "HTTPS://", "www.firstcry.com/hotwheels/5/0/113?sort=popularity".
    split; [reflexivity | right; reflexivity].
  - destruct (build_fetch_url_spec Ex.cfg "hot wheels") as (_ & Hquery & _).
    apply Hquery. intros Habs. apply is_http_url_iff in Habs. discriminate Habs.
Defined.

(** The run whose write fails and whose mail server hangs up still returns. *)
Lemma run_fails_only_by_print_witness :
  (main Ex.faulty_ext Ex.cfg (fresh_world Ex.seeded)).1 = Ok () ∧
  smtp_sessions (main Ex.faulty_ext Ex.cfg (fresh_world Ex.seeded)).2 =
    [(true, Message "monitor@example.com" "owner@example.com"
                    "[FirstCry Monitor] Error for hot wheels"
                    "OperationalError('disk I/O error')")] ∧
  delivered (main Ex.faulty_ext Ex.cfg (fresh_world Ex.seeded)).2 = [].
Proof.
  destruct (run_fails_only_by_print Ex.faulty_ext Ex.cfg (fresh_world Ex.seeded))
    as (_ & _ & Hraised & Hsound).
  split; [apply Hsound; intros n line; reflexivity |].
  destruct (Hraised (SqliteError "OperationalError('disk I/O error')")
                    (main_body Ex.faulty_ext Ex.cfg (fresh_world Ex.seeded)).2)
    as (_ & _ & Hsessions & Hdelivered & _).
  - vm_compute. reflexivity.
  - reflexivity.
  - split; [exact Hsessions | exact Hdelivered].
Defined.

(** With the output stream closed the first [print] of the run raises, and
    so does the handler's: [main] does not return normally. *)
Lemma run_can_raise :
  ¬ (∀ (ext : externals) (cfg : config) (w : world), (main ext cfg w).1 = Ok ()).
Proof.
  intros Hclaim.
  specialize (Hclaim Ex.mute_ext Ex.cfg (fresh_world Ex.seeded)).
  vm_compute in Hclaim. discriminate Hclaim.
Qed.

(** Both rows of the example run carry the one clock reading. *)
Lemma one_timestamp_per_run_witness :
  (clock_reads (main Ex.ext Ex.cfg (fresh_world Ex.seeded)).2 ≤ 1)%nat ∧
  ∀ pid, pid ∈ Ex.abc.*1 →
    ∃ title, conn (detect_changes Ex.ext Ex.abc Ex.world_ab).2 !! pid
             = Some (Row title 1700000000).
Proof.
  destruct (one_timestamp_per_run Ex.ext) as (_ & Hall & Hmain).
  split; [apply (Hmain Ex.cfg (fresh_world Ex.seeded)) |].
  apply (Hall Ex.abc Ex.world_ab (detect_changes Ex.ext Ex.abc Ex.world_ab).2
              ([("C", "c")], 2, 3)).
  vm_compute. reflexivity.
Defined.

(** * Further properties *)

(** ** Product ids taken from a path *)

Lemma split_not_nil (sep : ascii) (s : string) : Py.split sep s ≠ [].
Proof.
  induction s as [| c s IH]; cbn [Py.split]; [done |].
  destruct (Ascii.eqb c sep); [done |]. by destruct (Py.split sep s).
Qed.

Lemma contains_char_cons (c d : ascii) (s : string) :
  Py.contains (String c "") (String d s) =
  Ascii.eqb d c || Py.contains (String c "") s.
Proof.
  cbn [Py.contains String.prefix].
  destruct (Ascii.ascii_dec c d) as [-> | Hne].
  - rewrite Ascii.eqb_refl. by destruct s.
  - destruct (Ascii.eqb_spec d c) as [-> | _]; [done |]. done.
Qed.

Lemma contains_char_empty (c : ascii) : Py.contains (String c "") "" = false.
Proof. reflexivity. Qed.

(** The pieces of a split do not contain the separator. *)
Lemma split_pieces (sep : ascii) (s : string) :
  Forall (λ p, Py.contains (String sep "") p = false) (Py.split sep s).
Proof.
  induction s as [| c s IH]; cbn [Py.split].
  - by constructor.
  - destruct (Ascii.eqb_spec c sep) as [-> | Hne]; [by constructor |].
    pose proof (split_not_nil sep s) as Hnil.
    destruct (Py.split sep s) as [| w ws]; [done |].
    apply Forall_cons in IH as [Hw Hws]. constructor; [| done].
    rewrite contains_char_cons, Hw, orb_false_r. by apply Ascii.eqb_neq.
Qed.

Lemma split_append_sep (sep : ascii) (a b : string) :
  Py.split sep (a ++ String sep b) = (Py.split sep a ++ Py.split sep b)%list.
Proof.
  induction a as [| c a IH].
  - rewrite append_empty. cbn [Py.split]. by rewrite Ascii.eqb_refl.
  - rewrite append_cons. cbn [Py.split]. rewrite IH.
    destruct (Ascii.eqb c sep); [done |].
    pose proof (split_not_nil sep a) as Hnil.
    by destruct (Py.split sep a).
Qed.

Lemma split_no_sep (sep : ascii) (s : string) :
  Py.contains (String sep "") s = false → Py.split sep s = [s].
Proof.
  induction s as [| c s IH]; [done |].
  rewrite contains_char_cons. intros [Hc Hs]%orb_false_iff.
  cbn [Py.split]. rewrite Hc, IH by done. done.
Qed.

Lemma split_only_sep (sep : ascii) (s : string) :
  List.filter (λ p, negb (Py.is_empty p)) (Py.split sep s) = [] ↔
  only_char sep s = true.
Proof.
  induction s as [| c s IH]; cbn [Py.split only_char]; [done |].
  destruct (Ascii.eqb c sep); cbn [andb List.filter Py.is_empty negb]; [done |].
  pose proof (split_not_nil sep s) as Hnil.
  destruct (Py.split sep s) as [| w ws]; [done |].
  cbn [List.filter Py.is_empty negb]. split; discriminate.
Qed.

Lemma last_filter_elem (l : list string) (d : string) :
  l ≠ [] → List.last l d ∈ l.
Proof.
  induction l as [| x l IH]; [done |]. intros _.
  destruct l as [| y l]; [left |]. right. by apply IH.
Qed.

(** X1.  The id a link tier takes from a path: it is empty only for the
    empty path; it is the path itself when the path is made of slashes
    only, and otherwise a non-empty text without a slash; it is the last
    segment of the path, whether or not a slash follows that segment. *)
Theorem last_segment_spec (path : string) :
  (last_segment path = "" ↔ path = "") ∧
  ((only_char "/" path = true ∧ last_segment path = path) ∨
   (only_char "/" path = false ∧ last_segment path ≠ "" ∧
    Py.contains "/" (last_segment path) = false)) ∧
  (∀ dir seg,
     seg ≠ "" → Py.contains "/" seg = false →
     (path = dir ++ "/" ++ seg ∨ path = dir ++ "/" ++ seg ++ "/") →
     last_segment path = seg).
Proof.
  assert (Hparts : ∀ p,
            p ∈ List.filter (λ p, negb (Py.is_empty p)) (Py.split "/" path) →
            p ≠ "" ∧ Py.contains "/" p = false).
  { intros p Hp. apply list_elem_of_In, filter_In in Hp as [Hp Hne].
    split; [by destruct p |].
    pose proof (split_pieces "/" path) as Hall.
    rewrite Forall_forall in Hall. apply Hall. by apply list_elem_of_In. }
  assert (Hcases :
    (only_char "/" path = true ∧ last_segment path = path) ∨
    (only_char "/" path = false ∧ last_segment path ≠ "" ∧
     Py.contains "/" (last_segment path) = false)).
  { unfold last_segment in *. cbv zeta.
    destruct (List.filter (λ p, negb (Py.is_empty p)) (Py.split "/" path))
      as [| x l] eqn:E.
    - left. split; [by apply split_only_sep | done].
    - right. split.
      + destruct (only_char "/" path) eqn:Ho; [| done].
        apply split_only_sep in Ho. congruence.
      + apply Hparts. by apply last_filter_elem. }
  split_and!.
  - split.
    + intros Hempty. destruct Hcases as [[_ Heq] | (_ & Hne & _)]; [congruence | done].
    + by intros ->.
  - exact Hcases.
  - intros dir seg Hseg Hslash Hpath.
    assert (Hsplit : ∃ ws,
      List.filter (λ p, negb (Py.is_empty p)) (Py.split "/" path) = (ws ++ [seg])%list).
    { exists (List.filter (λ p, negb (Py.is_empty p)) (Py.split "/" dir)).
      destruct Hpath as [-> | ->].
      - change (dir ++ "/" ++ seg) with (dir ++ String "/" seg).
        rewrite split_append_sep, List.filter_app, (split_no_sep "/" seg) by done.
        cbn [List.filter]. by destruct seg.
      - change (dir ++ "/" ++ seg ++ "/") with (dir ++ String "/" (seg ++ String "/" "")).
        rewrite split_append_sep, split_append_sep, !List.filter_app,
          (split_no_sep "/" seg) by done.
        cbn [List.filter Py.split Py.is_empty negb]. rewrite app_nil_r. by destruct seg. }
    destruct Hsplit as [ws Hws]. unfold last_segment. cbv zeta. rewrite Hws.
    destruct (ws ++ [seg])%list eqn:E; [by destruct ws |].
    rewrite <- E. unfold Py.last_or. apply last_last.
Qed.

(** ** What each tier collects *)

Lemma link_loop_acc (ext : externals) (marker : string)
    (anchors : list anchor) (products : list product) :
  link_loop ext marker anchors products =
  match link_loop ext marker anchors [] with
  | Ok l => Ok (products ++ l)%list
  | Raise e => Raise e
  end.
Proof.
  revert products. induction anchors as [| a anchors IH]; intros products;
    cbn [link_loop].
  - by rewrite app_nil_r.
  - destruct (Py.is_empty (a_text a)); [apply IH |].
    destruct (Py.contains marker (Py.strip (a_href a))); [| apply IH].
    destruct (urlparse_path ext (Py.strip (a_href a))) as [path | shown];
      cbn [lift_outcome]; [| done].
    rewrite !result_bind_ok, (IH (products ++ _)%list), (IH ([] ++ _)%list).
    destruct (link_loop ext marker anchors []); [| done].
    by rewrite <- app_assoc.
Qed.

(** X2.  A link tier (primary or secondary, by its marker) walks the
    anchors in document order and takes one record from every anchor with
    non-empty text whose stripped link contains the marker: the id is the
    last segment of the path [urlparse] gives for the link, the title is the
    text with every run of whitespace collapsed, so it is made of words
    separated by single blanks.  The tier raises exactly when [urlparse]
    raises on such an anchor, and then raises that [ValueError]. *)
Theorem link_tier_records (ext : externals) (marker : string) (anchors : list anchor) :
  match link_loop ext marker anchors [] with
  | Ok l =>
      Forall2
        (λ (a : anchor) (p : product),
           ∃ path,
             urlparse_path ext (Py.strip (a_href a)) = Returns path ∧
             p.1 = last_segment path ∧
             p.2 = Py.join " " (Py.split_ws (a_text a)) ∧
             ∃ words, Forall (λ w, is_word w = true) words ∧ p.2 = Py.join " " words)
        (List.filter (link_match marker) anchors) l
  | Raise e =>
      ∃ a shown,
        a ∈ anchors ∧ link_match marker a = true ∧
        urlparse_path ext (Py.strip (a_href a)) = Fails shown ∧
        e = ValueError shown
  end.
Proof.
  induction anchors as [| a anchors IH]; cbn [link_loop List.filter]; [constructor |].
  unfold link_match at 1 3.
  destruct (Py.is_empty (a_text a)) eqn:Ht; cbn [negb andb].
  { destruct (link_loop ext marker anchors []) as [l | e]; [done |].
    destruct IH as (a' & shown & Hin & H). exists a', shown. split; [by right | done]. }
  destruct (Py.contains marker (Py.strip (a_href a))) eqn:Hc.
  2: { destruct (link_loop ext marker anchors []) as [l | e]; [done |].
       destruct IH as (a' & shown & Hin & H). exists a', shown. split; [by right | done]. }
  destruct (urlparse_path ext (Py.strip (a_href a))) as [path | shown] eqn:Hp;
    cbn [lift_outcome].
  - rewrite result_bind_ok, link_loop_acc.
    destruct (link_loop ext marker anchors []) as [l | e].
    + cbn [app]. constructor; [| done].
      exists path. split_and!; try done.
      exists (Py.split_ws (a_text a)). split; [apply split_ws_words | done].
    + destruct IH as (a' & shown & Hin & H). exists a', shown. split; [by right | done].
  - exists a, shown. split_and!; [left | | done | done].
    unfold link_match. by rewrite Ht, Hc.
Qed.

Lemma split_pieces_other (sep c : ascii) (s : string) :
  Py.contains (String c "") s = false →
  Forall (λ p, Py.contains (String c "") p = false) (Py.split sep s).
Proof.
  induction s as [| d s IH]; cbn [Py.split]; [by repeat constructor |].
  rewrite contains_char_cons. intros [Hd Hs]%orb_false_iff.
  specialize (IH Hs).
  destruct (Ascii.eqb d sep); [by constructor |].
  pose proof (split_not_nil sep s) as Hnil.
  destruct (Py.split sep s) as [| w ws]; [done |].
  apply Forall_cons in IH as [Hw Hws]. constructor; [| done].
  by rewrite contains_char_cons, Hd, Hw.
Qed.

Lemma fallback_loop_acc (ext : externals)
    (anchors : list anchor) (products : list product) :
  fallback_loop ext anchors products =
  match fallback_loop ext anchors [] with
  | Ok l => Ok (products ++ l)%list
  | Raise e => Raise e
  end.
Proof.
  revert products. induction anchors as [| a anchors IH]; intros products;
    cbn [fallback_loop].
  - by rewrite app_nil_r.
  - destruct (Py.is_empty (a_text a) || (Py.len (a_text a) <? 4)%nat); [apply IH |].
    destruct (Py.contains "javascript" (Py.lower (Py.strip (a_href a)))); [apply IH |].
    destruct (urlparse_path ext (Py.strip (a_href a))) as [path | shown];
      cbn [lift_outcome]; [| done].
    rewrite !result_bind_ok, (IH (products ++ _)%list), (IH ([] ++ _)%list).
    destruct (fallback_loop ext anchors []); [| done].
    by rewrite <- app_assoc.
Qed.

(** The id the fallback tier takes from a path and a link. *)
Lemma fallback_id (path href : string) :
  let pid :=
    Py.or_else (hd "" (Py.split "?" (Py.last_or (Py.split "/" path) ""))) href in
  pid = href ∨
  (pid ≠ "" ∧ Py.contains "/" pid = false ∧ Py.contains "?" pid = false).
Proof.
  cbv zeta. unfold Py.or_else.
  set (seg := Py.last_or (Py.split "/" path) "").
  assert (Hseg : Py.contains "/" seg = false).
  { pose proof (split_pieces "/" path) as Hall. rewrite Forall_forall in Hall.
    apply Hall. apply last_filter_elem, split_not_nil. }
  pose proof (split_pieces "?" seg) as Hq.
  pose proof (split_pieces_other "?" "/" seg Hseg) as Hs.
  pose proof (split_not_nil "?" seg) as Hnil.
  destruct (Py.split "?" seg) as [| x xs]; [done |]. cbn [hd].
  apply Forall_cons in Hq as [Hq _]. apply Forall_cons in Hs as [Hs _].
  destruct x as [| c x]; cbn [Py.is_empty]; [by left |]. right. done.
Qed.

(** X3.  The fallback tier takes one record, in document order, from every
    anchor whose text has at least four characters and whose stripped link
    does not contain "javascript" in any letter case.  The title is the
    text as it is.  The id is the raw link, or else a non-empty text with
    neither a slash nor a question mark; so it is empty only when the link
    is empty.  The tier raises exactly when [urlparse] raises on such an
    anchor. *)
Theorem fallback_tier_records (ext : externals) (anchors : list anchor) :
  match fallback_loop ext anchors [] with
  | Ok l =>
      Forall2
        (λ (a : anchor) (p : product),
           p.2 = a_text a ∧ (4 ≤ Py.len p.2)%nat ∧
           Py.contains "javascript" (Py.lower (Py.strip (a_href a))) = false ∧
           (p.1 = Py.strip (a_href a) ∨
            (p.1 ≠ "" ∧ Py.contains "/" p.1 = false ∧ Py.contains "?" p.1 = false)) ∧
           (p.1 = "" → Py.strip (a_href a) = ""))
        (List.filter fallback_match anchors) l
  | Raise e =>
      ∃ a shown,
        a ∈ anchors ∧ fallback_match a = true ∧
        urlparse_path ext (Py.strip (a_href a)) = Fails shown ∧
        e = ValueError shown
  end.
Proof.
  induction anchors as [| a anchors IH]; cbn [fallback_loop List.filter]; [constructor |].
  unfold fallback_match at 1 3.
  destruct (Py.is_empty (a_text a) || (Py.len (a_text a) <? 4)%nat) eqn:Ht;
    cbn [negb andb].
  { destruct (fallback_loop ext anchors []) as [l | e]; [done |].
    destruct IH as (a' & shown & Hin & H). exists a', shown. split; [by right | done]. }
  destruct (Py.contains "javascript" (Py.lower (Py.strip (a_href a)))) eqn:Hj;
    cbn [negb].
  { destruct (fallback_loop ext anchors []) as [l | e]; [done |].
    destruct IH as (a' & shown & Hin & H). exists a', shown. split; [by right | done]. }
  destruct (urlparse_path ext (Py.strip (a_href a))) as [path | shown] eqn:Hp;
    cbn [lift_outcome].
  - rewrite result_bind_ok, fallback_loop_acc.
    destruct (fallback_loop ext anchors []) as [l | e].
    + cbn [app]. constructor; [| done]. cbn [fst snd].
      apply orb_false_iff in Ht as [_ Hlen]. apply Nat.ltb_ge in Hlen.
      pose proof (fallback_id path (Py.strip (a_href a))) as Hid. cbv zeta in Hid.
      split_and!; try done.
      intros Hempty. destruct Hid as [Hid | (Hne & _)]; [congruence | done].
    + destruct IH as (a' & shown & Hin & H). exists a', shown. split; [by right | done].
  - exists a, shown. split_and!; [left | | done | done].
    unfold fallback_match. by rewrite Ht, Hj.
Qed.

Lemma tile_loop_acc (tiles : list tile) (products : list product) :
  tile_loop tiles products = (products ++ tile_loop tiles [])%list.
Proof.
  revert products. induction tiles as [| t tiles IH]; intros products;
    cbn [tile_loop].
  - by rewrite app_nil_r.
  - destruct (Py.is_empty (data_product_id t)); [apply IH |].
    rewrite (IH (products ++ _)%list), (IH ([] ++ _)%list). by rewrite <- app_assoc.
Qed.

(** X4.  The tertiary tier takes one record, in document order, from every
    element whose [data-product-id] is not empty: the stripped attribute
    and the stripped text of the first title element found (anchor, then
    [.product-name], then [h2], then [h3]), or the empty title.  Ids and
    titles of this tier have no whitespace at either end: no whitespace
    character starts them, no non-empty run of whitespace characters ends
    them, and stripping them again changes nothing.  An attribute made of
    whitespace only gives a record with the empty id. *)
Theorem tile_tier_records (tiles : list tile) :
  tile_loop tiles [] =
    List.map
      (λ t, (Py.strip (data_product_id t),
             Py.strip (match title_tag t with Some x => x | None => "" end)))
      (List.filter (λ t, negb (Py.is_empty (data_product_id t))) tiles) ∧
  Forall (λ p : product, Py.strip p.1 = p.1 ∧ Py.strip p.2 = p.2) (tile_loop tiles []) ∧
  Forall (λ p : product,
            Py.starts_space p.1 = false ∧ Py.starts_space p.2 = false ∧
            ∀ a b, p.1 = a ++ b ∨ p.2 = a ++ b → b ≠ "" → Py.all_space b = false)
         (tile_loop tiles []) ∧
  (∀ t, t ∈ tiles → data_product_id t ≠ "" → Py.strip (data_product_id t) = "" →
        ∃ title, ("", title) ∈ tile_loop tiles []).
Proof.
  assert (Hmap : tile_loop tiles [] =
    List.map
      (λ t, (Py.strip (data_product_id t),
             Py.strip (match title_tag t with Some x => x | None => "" end)))
      (List.filter (λ t, negb (Py.is_empty (data_product_id t))) tiles)).
  { induction tiles as [| t tiles IH]; cbn [tile_loop List.filter List.map]; [done |].
    destruct (Py.is_empty (data_product_id t)); cbn [negb]; [done |].
    rewrite tile_loop_acc, IH. done. }
  split_and!; [exact Hmap | | |].
  - rewrite Hmap. apply Forall_forall. intros p Hp.
    apply list_elem_of_In, in_map_iff in Hp as (t & <- & _). cbn [fst snd].
    by rewrite !strip_strip.
  - rewrite Hmap. apply Forall_forall. intros p Hp.
    apply list_elem_of_In, in_map_iff in Hp as (t & <- & _). cbn [fst snd].
    split_and!; [apply strip_start | apply strip_start |].
    intros a b [Hab | Hab]; by eapply strip_end.
  - intros t Hin Hne Hblank. rewrite Hmap. eexists.
    apply list_elem_of_In, in_map_iff. exists t. rewrite Hblank. split; [done |].
    apply filter_In. split; [by apply list_elem_of_In |].
    by apply negb_true_iff, is_empty_false.
Qed.

(** ** Deduplication again *)

Lemma dedup_loop_distinct (products : list product) (unique : dict) :
  NoDup ((unique ++ products)%list).*1 → "" ∉ products.*1 →
  dedup_loop products unique = (unique ++ products)%list.
Proof.
  revert unique. induction products as [| [pid title] products IH];
    intros unique Hnd Hne; cbn [dedup_loop].
  - by rewrite app_nil_r.
  - cbn [fmap list_fmap fst] in Hne. apply not_elem_of_cons in Hne as [Hpid Hne].
    assert (Hfresh : pid ∉ unique.*1).
    { rewrite fmap_app in Hnd. apply NoDup_app in Hnd as (_ & Hdis & _).
      intros Hin. apply (Hdis pid Hin). left. }
    assert (Hempty : Py.is_empty pid = false) by (by destruct pid).
    rewrite Hempty, (proj2 (dict_mem_false pid unique) Hfresh). cbn [negb andb].
    rewrite dict_set_fresh by done. rewrite IH.
    + by rewrite <- app_assoc.
    + by rewrite <- app_assoc.
    + done.
Qed.

(** X5.  Deduplicating an extraction result again gives the same list: the
    result has pairwise distinct non-empty ids, and such a list passes the
    loop of lines 157-162 unchanged. *)
Theorem extraction_result_is_stable (ext : externals) (html : string) (l : list product) :
  parse_products_from_html ext html = Ok l →
  pairs_of (dict_keys (dedup_loop l [])) (dedup_loop l []) = Ok l.
Proof.
  intros Hl.
  destruct (BeautifulSoup ext html) as [s | shown] eqn:Hs;
    [| by rewrite (parse_rejected ext html shown Hs) in Hl].
  destruct (parse_products_from_html_chosen ext html s Hs) as (i & _ & _ & Hres).
  destruct (tier ext s i) as [raw | e]; [| congruence].
  destruct Hres as [_ Hres].
  destruct (dedup_spec raw) as (l' & Hl' & _ & Hnd & Hin & _).
  assert (l = l') as <- by congruence.
  rewrite dedup_loop_distinct.
  - by apply pairs_of_keys.
  - done.
  - intros Hempty. by apply Hin in Hempty as [? _].
Qed.

(** ** Edges of the extraction *)

(** X6.  Once a tier has appended a record, no later tier is tried, even
    when every record it appended has the empty id and is dropped
    afterwards: the result is then empty, whatever the later tiers would
    have found. *)
Theorem empty_ids_block_later_tiers (ext : externals) (html : string) (s : soup)
    (i : nat) (raw : list product) :
  BeautifulSoup ext html = Returns s →
  i < 4 →
  (∀ j, j < i → tier ext s j = Ok []) →
  tier ext s i = Ok raw →
  raw ≠ [] →
  (∀ p, p ∈ raw → p.1 = "") →
  parse_products_from_html ext html = Ok [].
Proof.
  intros Hs Hi Hbefore Hraw Hne Hempty.
  destruct (parse_products_from_html_chosen ext html s Hs) as (i' & Hi' & Hbefore' & Hres).
  assert (i = i') as <-.
  { apply (chosen_tier_unique ext s); try done.
    - left. rewrite Hraw. congruence.
    - destruct (tier ext s i') as [[| p raw'] | e] eqn:E.
      + right. by apply Hres.
      + by left.
      + by left. }
  rewrite Hraw in Hres. destruct Hres as [_ ->].
  destruct (dedup_spec raw) as (l & -> & _ & _ & Hin & _).
  destruct l as [| [pid title] l]; [done |]. exfalso.
  destruct (Hin pid) as [Hpid _].
  destruct Hpid as [Hpid Hraws]; [left |].
  apply list_elem_of_fmap in Hraws as (p & -> & Hp). by apply Hpid, Hempty.
Qed.

Lemma link_loop_raise_inv (ext : externals) (marker : string)
    (anchors : list anchor) (products : list product) (e : exn) :
  link_loop ext marker anchors products = Raise e →
  ∃ a shown,
    a ∈ anchors ∧ urlparse_path ext (Py.strip (a_href a)) = Fails shown ∧
    e = ValueError shown.
Proof.
  revert products. induction anchors as [| a anchors IH]; intros products;
    cbn [link_loop]; [done |].
  assert (Hrest : ∀ ps, link_loop ext marker anchors ps = Raise e →
            ∃ a' shown, a' ∈ a :: anchors ∧
              urlparse_path ext (Py.strip (a_href a')) = Fails shown ∧
              e = ValueError shown).
  { intros ps Hps. destruct (IH ps Hps) as (a' & shown & Hin & H).
    exists a', shown. split; [by right | done]. }
  destruct (Py.is_empty (a_text a)); [apply Hrest |].
  destruct (Py.contains marker (Py.strip (a_href a))); [| apply Hrest].
  destruct (urlparse_path ext (Py.strip (a_href a))) as [path | shown] eqn:Hp;
    cbn [lift_outcome].
  - rewrite result_bind_ok. apply Hrest.
  - intros [= <-]. exists a, shown. split; [left | done].
Qed.

Lemma fallback_loop_raise_inv (ext : externals)
    (anchors : list anchor) (products : list product) (e : exn) :
  fallback_loop ext anchors products = Raise e →
  ∃ a shown,
    a ∈ anchors ∧ urlparse_path ext (Py.strip (a_href a)) = Fails shown ∧
    e = ValueError shown.
Proof.
  revert products. induction anchors as [| a anchors IH]; intros products;
    cbn [fallback_loop]; [done |].
  assert (Hrest : ∀ ps, fallback_loop ext anchors ps = Raise e →
            ∃ a' shown, a' ∈ a :: anchors ∧
              urlparse_path ext (Py.strip (a_href a')) = Fails shown ∧
              e = ValueError shown).
  { intros ps Hps. destruct (IH ps Hps) as (a' & shown & Hin & H).
    exists a', shown. split; [by right | done]. }
  destruct (Py.is_empty (a_text a) || (Py.len (a_text a) <? 4)%nat); [apply Hrest |].
  destruct (Py.contains "javascript" (Py.lower (Py.strip (a_href a)))); [apply Hrest |].
  destruct (urlparse_path ext (Py.strip (a_href a))) as [path | shown] eqn:Hp;
    cbn [lift_outcome].
  - rewrite result_bind_ok. apply Hrest.
  - intros [= <-]. exists a, shown. split; [left | done].
Qed.

(** What a tier raises comes from [urlparse] on one of the links. *)
Lemma tier_raise_inv (ext : externals) (s : soup) (i : nat) (e : exn) :
  tier ext s i = Raise e →
  ∃ a shown,
    a ∈ find_all_a_href s ∧ urlparse_path ext (Py.strip (a_href a)) = Fails shown ∧
    e = ValueError shown.
Proof.
  destruct i as [| [| [| i]]]; cbn [tier].
  - apply link_loop_raise_inv.
  - apply link_loop_raise_inv.
  - done.
  - apply fallback_loop_raise_inv.
Qed.

(** X7.  The extraction raises nothing but what the two parsers raise.
    When the [BeautifulSoup] constructor of line 103 rejects the markup the
    extraction raises that [ParserRejectedMarkup].  Otherwise it raises
    only the [ValueError] of [urlparse] on one of the links of the page;
    the lookups [unique[pid]] of line 162 never raise [KeyError]; and when
    [urlparse] returns for every link, the extraction returns. *)
Theorem extraction_raises_only_parsers (ext : externals) (html : string) :
  match BeautifulSoup ext html with
  | Fails rejected =>
      parse_products_from_html ext html = Raise (ParserRejectedMarkup rejected)
  | Returns s =>
      (∀ e, parse_products_from_html ext html = Raise e →
         ∃ a shown,
           a ∈ find_all_a_href s ∧
           urlparse_path ext (Py.strip (a_href a)) = Fails shown ∧
           e = ValueError shown) ∧
      ((∀ a, a ∈ find_all_a_href s →
             ∃ path, urlparse_path ext (Py.strip (a_href a)) = Returns path) →
       ∃ l, parse_products_from_html ext html = Ok l)
  end.
Proof.
  destruct (BeautifulSoup ext html) as [s | rejected] eqn:Hs;
    [| by apply parse_rejected].
  destruct (parse_products_from_html_chosen ext html s Hs) as (i & Hi & _ & Hres).
  split.
  - intros e He.
    destruct (tier ext s i) as [raw | e'] eqn:E.
    + destruct Hres as [_ Hres]. destruct (dedup_spec raw) as (l & Hl & _). congruence.
    + assert (e = e') as <- by congruence.
      by apply tier_raise_inv in E.
  - intros Hall.
    destruct (tier ext s i) as [raw | e'] eqn:E.
    + destruct Hres as [_ ->]. destruct (dedup_spec raw) as (l & Hl & _). eauto.
    + exfalso. apply tier_raise_inv in E as (a & shown & Hin & Hf & _).
      destruct (Hall a Hin) as [path Hp]. congruence.
Qed.

(** ** Fetcher: bounds of the retry loop *)

Lemma py_range_snoc (lo : Z) (m : nat) :
  py_range lo (lo + Z.of_nat (S m)) = (py_range lo (lo + Z.of_nat m) ++ [lo + Z.of_nat m]%Z)%list.
Proof.
  unfold py_range.
  replace (Z.to_nat (lo + Z.of_nat (S m) - lo)) with (S m) by lia.
  replace (Z.to_nat (lo + Z.of_nat m - lo)) with m by lia.
  rewrite seq_S, List.map_app. done.
Qed.

Lemma sum_of_waits (backoff : Z) (m : nat) :
  (2 * foldr Z.add 0 (List.map (λ k, backoff * k) (py_range 1 (1 + Z.of_nat m)))
   = backoff * Z.of_nat m * (Z.of_nat m + 1))%Z.
Proof.
  induction m as [| m IH].
  - rewrite py_range_empty by lia. simpl. lia.
  - rewrite py_range_snoc, List.map_app, foldr_app. cbn [List.map foldr].
    assert (Hshift : ∀ (l : list Z) (a : Z), foldr Z.add a l = (foldr Z.add 0 l + a)%Z).
    { intros l a. induction l as [| x l IHl]; cbn [foldr]; lia. }
    rewrite Hshift. lia.
Qed.

(** The loop over [range(a, retries + 2)] with at least one turn left does
    not run out: its last turn returns or raises. *)
Lemma retry_loop_not_none (ext : externals) (url : string) (retries backoff : Z)
    (m : nat) (a : Z) (w : world) :
  (a + Z.of_nat (S m) = retries + 2)%Z →
  (retry_loop ext url retries backoff (py_range a (retries + 2)) w).1 ≠ Ok None.
Proof.
  revert a w. induction m as [| m IH]; intros a w Ha;
    rewrite py_range_cons by lia; cbn [retry_loop]; unfold try_except;
    rewrite bind_run; unfold http_get;
    (destruct (requests_get ext url (length (requested w))); cbn [lift_outcome];
     [done |]).
  - by replace (a <=? retries)%Z with false by (symmetry; apply Z.leb_gt; lia).
  - destruct (a <=? retries)%Z; [| done].
    rewrite print_then_run. destruct (print_fault ext _ _); [done |].
    rewrite bind_run.
    match goal with |- context [time_sleep ?s ?w1] =>
      destruct (time_sleep s w1) as [[[] | e] w2] end; [| done].
    apply IH. lia.
Qed.

(** X8.  With a negative retry limit the loop body never runs:
    [requests_get_with_retry] makes no request, does not sleep, and returns
    [None].  With a limit of zero or more it never returns [None]. *)
Theorem none_only_below_zero (ext : externals) (url : string)
    (retries backoff : Z) (w : world) :
  ((retries < 0)%Z →
   requests_get_with_retry ext url retries backoff w = (Ok None, w)) ∧
  ((0 ≤ retries)%Z →
   (requests_get_with_retry ext url retries backoff w).1 ≠ Ok None).
Proof.
  unfold requests_get_with_retry. split.
  - intros Hneg. by rewrite py_range_empty by lia.
  - intros Hpos. apply (retry_loop_not_none _ _ _ _ (Z.to_nat retries)). lia.
Qed.

(** X9.  When every request fails, on a console that takes every line and
    with a backoff that is not negative and whose longest wait
    [backoff * retries] is a length [time.sleep] takes,
    [requests_get_with_retry] makes exactly [retries + 1] requests, sleeps
    after each of them but the last, for
    [backoff * retries * (retries + 1) / 2] seconds in all, and raises what
    the last request raised, not the first.  With a negative backoff the
    first wait already fails: after one failed request with [retries >= 1]
    the function raises what [time.sleep] raises, without a second
    request. *)
Theorem retries_exhausted (ext : externals) (url : string)
    (retries backoff : Z) (w : world) (shown : nat → string) :
  console_sound ext →
  (0 ≤ retries)%Z →
  (∀ j, (j ≤ Z.to_nat retries)%nat →
        requests_get ext url (length (requested w) + j) = Fails (shown j)) →
  ((0 ≤ backoff)%Z → (backoff * retries ≤ max_sleep)%Z →
   (requests_get_with_retry ext url retries backoff w).1 =
     Raise (RequestException (shown (Z.to_nat retries))) ∧
   requested (requests_get_with_retry ext url retries backoff w).2 =
     (requested w ++ replicate (Z.to_nat retries + 1) url)%list ∧
   slept (requests_get_with_retry ext url retries backoff w).2 =
     (slept w ++ List.map (λ k, backoff * k)%Z (py_range 1 (1 + retries)))%list ∧
   (2 * foldr Z.add 0 (List.map (λ k, backoff * k)%Z (py_range 1 (1 + retries)))
    = backoff * retries * (retries + 1))%Z) ∧
  ((backoff < 0)%Z → (1 ≤ retries)%Z →
   (∃ e, (requests_get_with_retry ext url retries backoff w).1 = Raise e ∧
         (e = ValueError sleep_negative ∨ e = OverflowError sleep_too_large)) ∧
   requested (requests_get_with_retry ext url retries backoff w).2 =
     (requested w ++ [url])%list ∧
   slept (requests_get_with_retry ext url retries backoff w).2 = slept w).
Proof.
  intros Hc Hpos Hfail. split.
  2: { intros Hneg Hone. unfold requests_get_with_retry.
       rewrite py_range_cons by lia. cbn [retry_loop]. unfold try_except.
       rewrite bind_run. unfold http_get.
       specialize (Hfail 0 ltac:(lia)).
       replace (length (requested w) + 0) with (length (requested w)) in Hfail by lia.
       rewrite Hfail. cbn [lift_outcome].
       replace (1 <=? retries)%Z with true by (symmetry; apply Z.leb_le; lia).
       rewrite print_then_run, Hc, bind_run. unfold time_sleep.
       destruct ((backoff * 1 <? - max_sleep) || (max_sleep <? backoff * 1))%Z;
         [split_and!; [eexists; split; [done | by right] | done | done] |].
       replace (backoff * 1 <? 0)%Z with true by (symmetry; apply Z.ltb_lt; lia).
       split_and!; [eexists; split; [done | by left] | done | done]. }
  intros Hb Hmax. unfold requests_get_with_retry.
  destruct (retry_loop_spec ext url retries backoff (Z.to_nat (retries + 1)) 1 w
              Hc Hb Hmax ltac:(lia) ltac:(lia))
    as (n & Hn & Hn1 & Hreq & Hsl & _ & Hres).
  destruct (decide (Z.to_nat (retries + 1) = 0)) as [E | _]; [lia |].
  assert (1 ≤ n)%nat by (destruct Hn1; lia).
  rewrite (Hfail (n - 1)) in Hres by lia. destruct Hres as [-> Hres].
  replace (Z.to_nat (retries + 1) - 1) with (Z.to_nat retries) in Hres by lia.
  split_and!.
  - done.
  - rewrite Hreq. do 2 f_equal. lia.
  - rewrite Hsl. do 3 f_equal. lia.
  - pose proof (sum_of_waits backoff (Z.to_nat retries)) as Hsum.
    rewrite Z2Nat.id in Hsum by lia. done.
Qed.

(** X10.  On a console that takes every line, [fetch_search_html] asks for
    the URL that [build_fetch_url] gives for the query, at most three
    times.  It returns the text of the first request that succeeds.  It
    raises only when all three requests failed, and then what the third
    request raised: the [None] of the retry loop and the [AttributeError]
    of [None.text] never occur. *)
Theorem fetch_search_html_result (ext : externals) (cfg : config) (query : string)
    (w : world) :
  console_sound ext →
  let url := build_fetch_url cfg query in
  ∃ n,
    (1 ≤ n)%nat ∧ (n ≤ 3)%nat ∧
    requested (fetch_search_html ext cfg query w).2 =
      (requested w ++ replicate n url)%list ∧
    (∀ j, (j + 1 < n)%nat →
       ∃ shown, requests_get ext url (length (requested w) + j) = Fails shown) ∧
    match requests_get ext url (length (requested w) + (n - 1)) with
    | Returns body => (fetch_search_html ext cfg query w).1 = Ok body
    | Fails shown =>
        n = 3 ∧ (fetch_search_html ext cfg query w).1 = Raise (RequestException shown)
    end.
Proof.
  intros Hc. cbv zeta. unfold fetch_search_html, requests_get_with_retry.
  rewrite print_then_run, Hc, bind_run.
  match goal with |- context [retry_loop _ _ _ _ _ ?w1] => set (w1' := w1) end.
  destruct (retry_loop_spec ext (build_fetch_url cfg query) 2 2 3 1 w1' Hc
              ltac:(lia) ltac:(by vm_compute) ltac:(lia) ltac:(lia))
    as (n & Hn & Hn1 & Hreq & _ & Hfail & Hres).
  change (2 + 2)%Z with 4%Z in *.
  destruct (decide (3 = 0)) as [E | _]; [lia |].
  exists n. subst w1'. cbn [requested] in Hreq, Hfail, Hres.
  destruct (retry_loop ext (build_fetch_url cfg query) 2 2 (py_range 1 4) _)
    as [[[body |] | e] w2] eqn:Hloop; cbn [fst snd] in *.
  - split_and!; [destruct Hn1; lia | done | done | done |].
    destruct (requests_get ext _ (length (requested w) + (n - 1))); [| by destruct Hres].
    by injection Hres as ->.
  - split_and!; [destruct Hn1; lia | done | done | done |].
    destruct (requests_get ext _ (length (requested w) + (n - 1))); [done | by destruct Hres].
  - split_and!; [destruct Hn1; lia | done | done | done |].
    destruct (requests_get ext _ (length (requested w) + (n - 1))); [done |].
    destruct Hres as [-> Hres]. by injection Hres as ->.
Qed.

(** ** URL building, composed *)

Lemma append_inj_l (p a b : string) : p ++ a = p ++ b → a = b.
Proof.
  induction p as [| c p IH]; [done |]. rewrite !append_cons. intros [= H]. auto.
Qed.

(** X11.  When the configured search prefix itself starts with [http://]
    or [https://], every URL that [build_fetch_url] returns does, and
    building a URL from a built URL changes nothing.  Two plain queries that
    give the same URL are the same query. *)
Theorem build_fetch_url_composes (cfg : config) :
  (absolute_http_url (FIRSTCRY_SEARCH_URL cfg) →
   ∀ query,
     absolute_http_url (build_fetch_url cfg query) ∧
     build_fetch_url cfg (build_fetch_url cfg query) = build_fetch_url cfg query) ∧
  (∀ q1 q2,
     ¬ absolute_http_url q1 → ¬ absolute_http_url q2 →
     build_fetch_url cfg q1 = build_fetch_url cfg q2 → q1 = q2).
Proof.
  split.
  - intros (scheme & rest & Hprefix & Hscheme) query.
    assert (Habs : absolute_http_url (build_fetch_url cfg query)).
    { unfold build_fetch_url. destruct (is_http_url query) eqn:E.
      - by apply is_http_url_iff.
      - exists scheme, (rest ++ Py.quote_plus query).
        split; [by rewrite Hprefix, append_assoc | done]. }
    split; [done |].
    apply is_http_url_iff in Habs. unfold build_fetch_url at 1. by rewrite Habs.
  - intros q1 q2 H1 H2. unfold build_fetch_url.
    destruct (is_http_url q1) eqn:E1; [by apply is_http_url_iff in E1 |].
    destruct (is_http_url q2) eqn:E2; [by apply is_http_url_iff in E2 |].
    intros Heq%append_inj_l.
    by rewrite <- (unquote_quote_plus q1), Heq, unquote_quote_plus.
Qed.

(** ** Frames: mail and network *)

Lemma same_mail_refl (w : world) : same_mail w w.
Proof. by split. Qed.

Lemma same_mail_trans (w1 w2 w3 : world) :
  same_mail w1 w2 → same_mail w2 w3 → same_mail w1 w3.
Proof. unfold same_mail. intros [? ?] [? ?]. split; congruence. Qed.

Lemma same_network_refl (w : world) : same_network w w.
Proof. by split. Qed.

Lemma same_network_trans (w1 w2 w3 : world) :
  same_network w1 w2 → same_network w2 w3 → same_network w1 w3.
Proof. unfold same_network. intros [? ?] [? ?]. split; congruence. Qed.

Create HintDb frame_mail discriminated.
Create HintDb frame_net discriminated.

Ltac frame_mail :=
  repeat first
    [ solve [auto 1 with frame_mail nocore]
    | apply preserves_ret; exact same_mail_refl
    | apply preserves_raise; exact same_mail_refl
    | apply preserves_lift_result; exact same_mail_refl
    | apply preserves_bind; [exact same_mail_trans | | intros ?]
    | apply preserves_try_except; [exact same_mail_trans | | intros ?] ].

Ltac frame_net :=
  repeat first
    [ solve [auto 1 with frame_net nocore]
    | apply preserves_ret; exact same_network_refl
    | apply preserves_raise; exact same_network_refl
    | apply preserves_lift_result; exact same_network_refl
    | apply preserves_bind; [exact same_network_trans | | intros ?]
    | apply preserves_try_except; [exact same_network_trans | | intros ?] ].

Lemma print_same_mail (ext : externals) (line : string) :
  preserves same_mail (print ext line).
Proof. intros w. unfold print. by destruct (print_fault ext (length (stdout w)) line). Qed.

Lemma time_sleep_same_mail (seconds : Z) : preserves same_mail (time_sleep seconds).
Proof.
  intros w. unfold time_sleep.
  destruct ((seconds <? - max_sleep) || (max_sleep <? seconds))%Z; [done |].
  by destruct (seconds <? 0)%Z.
Qed.

Lemma http_get_same_mail (ext : externals) (url : string) :
  preserves same_mail (http_get ext url).
Proof. by intros w. Qed.

Lemma read_clock_same_mail (ext : externals) : preserves same_mail (read_clock ext).
Proof. by intros w. Qed.

Lemma sqlite_call_same_mail {A} (ext : externals)
    (act : table → table → A * table * table) :
  preserves same_mail (sqlite_call ext act).
Proof.
  intros w. unfold sqlite_call.
  destruct (sqlite_fault ext (sqlite_calls w)); [done |].
  by destruct (act (disk w) (conn w)) as [[a d] c].
Qed.

#[export] Hint Resolve print_same_mail time_sleep_same_mail http_get_same_mail
  read_clock_same_mail sqlite_call_same_mail : frame_mail.

Lemma retry_loop_same_mail (ext : externals) (url : string)
    (retries backoff : Z) (attempts : list Z) :
  preserves same_mail (retry_loop ext url retries backoff attempts).
Proof.
  induction attempts as [| attempt attempts IH]; cbn [retry_loop].
  - frame_mail.
  - frame_mail. destruct (attempt <=? retries)%Z; frame_mail.
Qed.

#[export] Hint Resolve retry_loop_same_mail : frame_mail.

Lemma open_and_fetch_same_mail (ext : externals) (cfg : config) :
  preserves same_mail (open_and_fetch ext cfg).
Proof.
  unfold open_and_fetch, ensure_db, fetch_search_html, requests_get_with_retry.
  frame_mail.
  match goal with |- preserves _ (match ?x with _ => _ end) => destruct x end;
    frame_mail.
Qed.

Lemma print_sample_same_mail (ext : externals) (i : nat) (products : list product) :
  preserves same_mail (print_sample ext i products).
Proof.
  revert i. induction products as [| [pid title] products IH]; intros i;
    cbn [print_sample]; frame_mail.
Qed.

Lemma detect_loop_same_mail (ext : externals) (now : Z)
    (products new_found : list product) :
  preserves same_mail (detect_loop ext now products new_found).
Proof.
  revert new_found. induction products as [| [pid title] products IH];
    intros new_found; cbn [detect_loop]; frame_mail.
  match goal with |- preserves _ (match ?x with _ => _ end) => destruct x end;
    frame_mail.
Qed.

#[export] Hint Resolve open_and_fetch_same_mail print_sample_same_mail
  detect_loop_same_mail : frame_mail.

Lemma gather_same_mail (ext : externals) (cfg : config) :
  preserves same_mail (gather ext cfg).
Proof.
  unfold gather, detect_changes. frame_mail.
  match goal with |- preserves _ (if ?x then _ else _) => destruct x end;
    frame_mail.
  destruct (SHOW_SAMPLE cfg); frame_mail.
Qed.

Lemma print_same_network (ext : externals) (line : string) :
  preserves same_network (print ext line).
Proof. intros w. unfold print. by destruct (print_fault ext (length (stdout w)) line). Qed.

Lemma read_clock_same_network (ext : externals) : preserves same_network (read_clock ext).
Proof. by intros w. Qed.

Lemma sqlite_call_same_network {A} (ext : externals)
    (act : table → table → A * table * table) :
  preserves same_network (sqlite_call ext act).
Proof.
  intros w. unfold sqlite_call.
  destruct (sqlite_fault ext (sqlite_calls w)); [done |].
  by destruct (act (disk w) (conn w)) as [[a d] c].
Qed.

Lemma smtp_session_same_network (ext : externals) (tls : bool) (msg : message) :
  preserves same_network (smtp_session ext tls msg).
Proof.
  intros w. unfold smtp_session.
  by destruct (smtp_end ext (length (smtp_sessions w))).
Qed.

#[export] Hint Resolve print_same_network read_clock_same_network
  sqlite_call_same_network smtp_session_same_network : frame_net.

Lemma send_email_same_network (ext : externals) (cfg : config) (subject body : string) :
  preserves same_network (send_email ext cfg subject body).
Proof. unfold send_email. destruct (negb (email_configured cfg)); frame_net. Qed.

#[export] Hint Resolve send_email_same_network : frame_net.

Lemma report_same_network (ext : externals) (cfg : config)
    (found : list product * nat * nat) :
  preserves same_network (report ext cfg found).
Proof.
  destruct found as [[new_found prev_count] curr_count]. unfold report, notify.
  frame_net. destruct (negb (no_products new_found)); [frame_net |].
  destruct (prev_count <? curr_count)%nat; frame_net.
Qed.

Lemma handle_error_same_network (ext : externals) (cfg : config) (e : exn) :
  preserves same_network (handle_error ext cfg e).
Proof. unfold handle_error. frame_net. Qed.

Lemma print_sample_same_network (ext : externals) (i : nat) (products : list product) :
  preserves same_network (print_sample ext i products).
Proof.
  revert i. induction products as [| [pid title] products IH]; intros i;
    cbn [print_sample]; frame_net.
Qed.

Lemma detect_loop_same_network (ext : externals) (now : Z)
    (products new_found : list product) :
  preserves same_network (detect_loop ext now products new_found).
Proof.
  revert new_found. induction products as [| [pid title] products IH];
    intros new_found; cbn [detect_loop]; frame_net.
  match goal with |- preserves _ (match ?x with _ => _ end) => destruct x end;
    frame_net.
Qed.

#[export] Hint Resolve print_sample_same_network detect_loop_same_network : frame_net.

Lemma detect_changes_same_network (ext : externals) (products : list product) :
  preserves same_network (detect_changes ext products).
Proof. unfold detect_changes. frame_net. Qed.

Lemma ensure_db_same_network (ext : externals) : preserves same_network (ensure_db ext).
Proof. unfold ensure_db. frame_net. Qed.

(** ** The run: what goes over the network *)

(** The requests and sleeps of the retry loop over [range(a, retries + 2)],
    whatever [print] and [time.sleep] do: a wait that is not slept ends the
    loop. *)
Lemma retry_loop_network (ext : externals) (url : string) (retries backoff : Z)
    (m : nat) (a : Z) (w : world) :
  (a + Z.of_nat m = retries + 2)%Z →
  ∃ n,
    (n ≤ m)%nat ∧ (m = 0 ∨ (1 ≤ n)%nat) ∧
    requested (retry_loop ext url retries backoff (py_range a (retries + 2)) w).2 =
      (requested w ++ replicate n url)%list ∧
    slept (retry_loop ext url retries backoff (py_range a (retries + 2)) w).2 =
      (slept w ++ List.map (λ k, backoff * k)%Z (py_range a (a + Z.of_nat n - 1)))%list.
Proof.
  revert a w. induction m as [| m IH]; intros a w Ha.
  - rewrite py_range_empty by lia. exists 0. simpl.
    rewrite py_range_empty by lia. simpl. rewrite !app_nil_r.
    split_and!; try done. by left.
  - assert (Hone : ∀ (r : result (option string)) w1,
              requested w1 = (requested w ++ [url])%list → slept w1 = slept w →
              ∃ n, (n ≤ S m)%nat ∧ (S m = 0 ∨ (1 ≤ n)%nat) ∧
                   requested (r, w1).2 = (requested w ++ replicate n url)%list ∧
                   slept (r, w1).2 =
                     (slept w ++
                      List.map (λ k, backoff * k)%Z (py_range a (a + Z.of_nat n - 1)))%list).
    { intros r w1 Hreq Hsl. exists 1. cbn [snd replicate].
      rewrite py_range_empty by lia. cbn [List.map]. rewrite app_nil_r.
      split_and!; [lia | by right | done | done]. }
    rewrite py_range_cons by lia. cbn [retry_loop]. unfold try_except.
    rewrite bind_run. unfold http_get.
    destruct (requests_get ext url (length (requested w))) as [body | shown];
      cbn [lift_outcome]; [by apply (Hone (Ok (Some body))) |].
    destruct (Z.leb_spec a retries) as [Hle | Hgt];
      [| by apply (Hone (Raise (RequestException shown)))].
    rewrite print_then_run.
    destruct (print_fault ext _ _) as [fault |];
      [by apply (Hone (Raise (OutputError fault))) |].
    rewrite bind_run. unfold time_sleep. cbn [stdout slept requested].
    destruct ((backoff * a <? - max_sleep) || (max_sleep <? backoff * a))%Z;
      [by apply (Hone (Raise (OverflowError sleep_too_large))) |].
    destruct (backoff * a <? 0)%Z;
      [by apply (Hone (Raise (ValueError sleep_negative))) |].
    match goal with |- context [retry_loop _ _ _ _ _ ?w'] => set (w3 := w') end.
    destruct (IH (a + 1)%Z w3 ltac:(lia)) as (n & Hn & Hn1 & Hreq & Hsl).
    assert (1 ≤ n)%nat by (destruct Hn1; lia).
    exists (S n). rewrite Hreq, Hsl. subst w3. cbn [requested slept].
    rewrite <- !app_assoc. cbn [replicate].
    split_and!; [lia | right; lia | done |].
    f_equal. rewrite (py_range_cons a) by lia. simpl.
    by replace (a + Z.of_nat (S n) - 1)%Z with (a + 1 + Z.of_nat n - 1)%Z by lia.
Qed.

Lemma fetch_search_html_network (ext : externals) (cfg : config) (query : string)
    (w : world) :
  ∃ n,
    (n ≤ 3)%nat ∧
    requested (fetch_search_html ext cfg query w).2 =
      (requested w ++ replicate n (build_fetch_url cfg query))%list ∧
    slept (fetch_search_html ext cfg query w).2 =
      (slept w ++ List.map (λ k, 2 * k)%Z (py_range 1 (Z.of_nat n)))%list.
Proof.
  unfold fetch_search_html, requests_get_with_retry. rewrite print_then_run.
  destruct (print_fault ext _ _).
  { exists 0. cbn [snd replicate]. rewrite py_range_empty by lia.
    cbn [List.map]. rewrite !app_nil_r. split_and!; [lia | done | done]. }
  rewrite bind_run.
  match goal with |- context [retry_loop _ _ _ _ _ ?w1] => set (w1' := w1) end.
  destruct (retry_loop_network ext (build_fetch_url cfg query) 2 2 3 1 w1' ltac:(lia))
    as (n & Hn & Hn1 & Hreq & Hsl).
  change (2 + 2)%Z with 4%Z in *.
  exists n. subst w1'. cbn [requested slept] in Hreq, Hsl.
  replace (1 + Z.of_nat n - 1)%Z with (Z.of_nat n) in Hsl by lia.
  destruct (retry_loop ext (build_fetch_url cfg query) 2 2 (py_range 1 4) _)
    as [[[body |] | e] w2]; cbn [fst snd] in *;
    (split_and!; [done | done | done]).
Qed.

Lemma open_and_fetch_network (ext : externals) (cfg : config) (w : world) :
  ∃ n,
    (n ≤ 3)%nat ∧
    requested (open_and_fetch ext cfg w).2 =
      (requested w ++ replicate n (build_fetch_url cfg (SEARCH_QUERY cfg)))%list ∧
    slept (open_and_fetch ext cfg w).2 =
      (slept w ++ List.map (λ k, 2 * k)%Z (py_range 1 (Z.of_nat n)))%list.
Proof.
  assert (Hnone : ∀ (r : result string) w1,
            requested w1 = requested w → slept w1 = slept w →
            ∃ n, (n ≤ 3)%nat ∧
              requested (r, w1).2 =
                (requested w ++ replicate n (build_fetch_url cfg (SEARCH_QUERY cfg)))%list ∧
              slept (r, w1).2 =
                (slept w ++ List.map (λ k, 2 * k)%Z (py_range 1 (Z.of_nat n)))%list).
  { intros r w1 Hreq Hsl. exists 0. cbn [snd replicate].
    rewrite py_range_empty by lia. cbn [List.map]. rewrite !app_nil_r.
    split_and!; [lia | done | done]. }
  unfold open_and_fetch. rewrite !print_then_run.
  destruct (print_fault ext _ _); [by apply Hnone |].
  destruct (print_fault ext _ _); [by apply Hnone |].
  rewrite bind_run.
  match goal with |- context [ensure_db _ ?w1] => set (w1' := w1) end.
  destruct (ensure_db_same_network ext w1') as [Hreq Hsl].
  destruct (ensure_db ext w1') as [[[] | e] w2]; cbn [snd] in Hreq, Hsl.
  - destruct (fetch_search_html_network ext cfg (SEARCH_QUERY cfg) w2)
      as (n & Hn & Hreq' & Hsl').
    exists n. rewrite Hreq', Hsl', Hreq, Hsl. done.
  - by apply Hnone.
Qed.

Lemma gather_network (ext : externals) (cfg : config) (w : world) :
  same_network (open_and_fetch ext cfg w).2 (gather ext cfg w).2.
Proof.
  rewrite gather_run.
  destruct (open_and_fetch ext cfg w) as [[html_text | e] w1]; cbn [snd];
    [| apply same_network_refl].
  destruct (Py.is_empty html_text || (Py.len html_text <? 100)%nat);
    [apply same_network_refl |].
  destruct (parse_products_from_html ext html_text) as [products | e];
    [| apply same_network_refl].
  apply preserves_bind; [exact same_network_trans | | intros _].
  - destruct (SHOW_SAMPLE cfg); frame_net.
  - apply detect_changes_same_network.
Qed.

Lemma main_network (ext : externals) (cfg : config) (w : world) :
  same_network (gather ext cfg w).2 (main ext cfg w).2.
Proof.
  rewrite main_run.
  destruct (gather ext cfg w) as [[found | e] w1]; cbn [snd];
    [| apply handle_error_same_network].
  pose proof (report_same_network ext cfg found w1) as Hreport.
  destruct (report ext cfg found w1) as [[[] | e] w2]; cbn [snd] in *; [done |].
  eapply same_network_trans; [exact Hreport | apply handle_error_same_network].
Qed.

(** X12.  A run makes at most three requests, all of them for the URL built
    from the configured query, and no other network call; it sleeps only
    between these requests, 2 seconds after the first failure and 4 after
    the second. *)
Theorem run_network (ext : externals) (cfg : config) (w : world) :
  ∃ n,
    (n ≤ 3)%nat ∧
    requested (main ext cfg w).2 =
      (requested w ++ replicate n (build_fetch_url cfg (SEARCH_QUERY cfg)))%list ∧
    slept (main ext cfg w).2 =
      (slept w ++ List.map (λ k, 2 * k)%Z (py_range 1 (Z.of_nat n)))%list ∧
    (∃ waits, slept (main ext cfg w).2 = (slept w ++ waits)%list ∧
              (waits = [] ∨ waits = [2]%Z ∨ waits = [2; 4]%Z)).
Proof.
  destruct (open_and_fetch_network ext cfg w) as (n & Hn & Hreq & Hsl).
  destruct (gather_network ext cfg w) as [Hreq1 Hsl1].
  destruct (main_network ext cfg w) as [Hreq2 Hsl2].
  exists n. rewrite Hreq2, Hsl2, Hreq1, Hsl1, Hreq, Hsl.
  split_and!; try done. eexists. split; [done |].
  destruct n as [| [| [| [| n]]]]; [| | | | lia].
  - left. done.
  - left. done.
  - right. left. done.
  - right. right. done.
Qed.

(** ** The run: mail *)

(** [report], case by case. *)
Lemma report_run (ext : externals) (cfg : config)
    (new_found : list product) (prev_count curr_count : nat) (w : world) :
  report ext cfg (new_found, prev_count, curr_count) w =
  match print_fault ext (length (stdout w))
          ("Parsed products: " ++ pretty curr_count ++
           " (previous stored: " ++ pretty prev_count ++ ")") with
  | Some shown => (Raise (OutputError shown), w)
  | None =>
      match notify ext cfg new_found prev_count curr_count
              (World (stdout w ++
                        [("Parsed products: " ++ pretty curr_count ++
                          " (previous stored: " ++ pretty prev_count ++ ")")%string])
                     (slept w) (requested w) (clock_reads w) (sqlite_calls w)
                     (disk w) (conn w) (smtp_sessions w) (delivered w)) with
      | (Ok _, w2) => print ext "Run complete." w2
      | (Raise e, w2) => (Raise e, w2)
      end
  end.
Proof.
  unfold report. rewrite print_then_run.
  destruct (print_fault ext _ _); [done |]. rewrite bind_run.
  by destruct (notify ext cfg new_found prev_count curr_count _) as [[[] | e] w2].
Qed.

(** What [mail_attempt] gives is a session as [send_email] opens it. *)
Lemma mail_attempt_session (cfg : config) (subject body : string) (s : bool * message) :
  mail_attempt cfg subject body = Some s →
  email_configured cfg = true ∧ session_of cfg s ∧
  msg_subject s.2 = subject ∧ msg_content s.2 = body.
Proof.
  unfold mail_attempt, build_message, session_of.
  destruct (email_configured cfg); [| done].
  destruct (Py.multiline (SMTP_USER cfg)) eqn:H1; [done |].
  destruct (Py.multiline (EMAIL_TO cfg)) eqn:H2; [done |].
  destruct (Py.multiline subject) eqn:H3; [done |].
  cbn [orb]. by intros [= <-].
Qed.

Lemma accepted_in_options (ext : externals) (start : nat)
    (a1 a2 : option (bool * message)) :
  (accepted_of ext start a1 ++
   accepted_of ext (start + length (option_list a1)) a2)%list =
  accepted_in ext start (option_list a1 ++ option_list a2)%list.
Proof.
  destruct a1 as [[t1 m1] |], a2 as [[t2 m2] |];
    unfold option_list;
    cbn [accepted_of accepted_in option_rect app length snd];
    rewrite ?Nat.add_0_r, ?Nat.add_1_r, ?app_nil_r; try done;
    repeat match goal with
           | |- context [accepts ?x] => destruct (accepts x)
           end; done.
Qed.

(** The mail of the notification step. *)
Lemma notify_mail (ext : externals) (cfg : config)
    (new_found : list product) (prev_count curr_count : nat) (w : world) :
  ∃ attempt,
    smtp_sessions (notify ext cfg new_found prev_count curr_count w).2 =
      (smtp_sessions w ++ option_list attempt)%list ∧
    delivered (notify ext cfg new_found prev_count curr_count w).2 =
      (delivered w ++ accepted_of ext (length (smtp_sessions w)) attempt)%list ∧
    (∀ s, attempt = Some s →
       ∃ subject body,
         mail_attempt cfg subject body = Some s ∧
         (subject = "[FirstCry] New items for " ++ SEARCH_QUERY cfg ∨
          subject = "[FirstCry] Count increased for " ++ SEARCH_QUERY cfg)) ∧
    (console_sound ext →
     (notify ext cfg new_found prev_count curr_count w).1 ≠ Ok () →
     attempt ≠ None → smtp_end ext (length (smtp_sessions w)) ≠ Accepted).
Proof.
  assert (Hsend : ∀ subject body,
    (subject = "[FirstCry] New items for " ++ SEARCH_QUERY cfg ∨
     subject = "[FirstCry] Count increased for " ++ SEARCH_QUERY cfg) →
    ∃ attempt,
      smtp_sessions (send_email ext cfg subject body w).2 =
        (smtp_sessions w ++ option_list attempt)%list ∧
      delivered (send_email ext cfg subject body w).2 =
        (delivered w ++ accepted_of ext (length (smtp_sessions w)) attempt)%list ∧
      (∀ s, attempt = Some s →
         ∃ subject body,
           mail_attempt cfg subject body = Some s ∧
           (subject = "[FirstCry] New items for " ++ SEARCH_QUERY cfg ∨
            subject = "[FirstCry] Count increased for " ++ SEARCH_QUERY cfg)) ∧
      (console_sound ext →
       (send_email ext cfg subject body w).1 ≠ Ok () →
       attempt ≠ None → smtp_end ext (length (smtp_sessions w)) ≠ Accepted)).
  { intros subject body Hsubject.
    exists (mail_attempt cfg subject body).
    destruct (send_email_mail ext cfg subject body w) as [Hs Hd].
    split_and!; [done | done | by intros s Hsome; exists subject, body |].
    intros Hc. rewrite send_email_run. unfold mail_attempt.
    destruct (email_configured cfg).
    - destruct (build_message cfg subject body) as [mail | e]; [| done].
      cbv zeta. destruct (smtp_end ext (length (smtp_sessions w))); [| done | done].
      by rewrite print_run.
    - done. }
  unfold notify. destruct (negb (no_products new_found)); [by apply Hsend; left |].
  destruct (prev_count <? curr_count)%nat; [by apply Hsend; right |].
  exists None. destruct (print_mail ext "No new items found this run." w) as [-> ->].
  cbn [option_list accepted_of]. rewrite !app_nil_r.
  split_and!; [done | done | done |].
  intros Hc. by rewrite print_run.
Qed.

(** The mail of the handler. *)
Lemma handle_error_mail (ext : externals) (cfg : config) (e : exn) (w : world) :
  ∃ attempt,
    smtp_sessions (handle_error ext cfg e w).2 =
      (smtp_sessions w ++ option_list attempt)%list ∧
    delivered (handle_error ext cfg e w).2 =
      (delivered w ++ accepted_of ext (length (smtp_sessions w)) attempt)%list ∧
    (∀ s, attempt = Some s →
       mail_attempt cfg ("[FirstCry Monitor] Error for " ++ SEARCH_QUERY cfg) (repr e)
       = Some s).
Proof.
  rewrite handle_error_run. destruct (print_fault ext _ _).
  { exists None. cbn [option_list accepted_of snd]. by rewrite !app_nil_r. }
  exists (mail_attempt cfg ("[FirstCry Monitor] Error for " ++ SEARCH_QUERY cfg) (repr e)).
  match goal with |- context [send_email ext cfg ?s ?b ?w1] =>
    destruct (send_email_mail ext cfg s b w1) as [Hs Hd];
    destruct (send_email ext cfg s b w1) as [[[] | e1] w2]
  end; cbn [snd smtp_sessions delivered] in *; by rewrite Hs, Hd.
Qed.

(** Two steps in a row, each with at most one session. *)
Lemma two_attempts (ext : externals) (w w1 w2 : world)
    (a1 a2 : option (bool * message)) :
  smtp_sessions w1 = (smtp_sessions w ++ option_list a1)%list →
  delivered w1 = (delivered w ++ accepted_of ext (length (smtp_sessions w)) a1)%list →
  smtp_sessions w2 = (smtp_sessions w1 ++ option_list a2)%list →
  delivered w2 = (delivered w1 ++ accepted_of ext (length (smtp_sessions w1)) a2)%list →
  smtp_sessions w2 = (smtp_sessions w ++ (option_list a1 ++ option_list a2))%list ∧
  delivered w2 =
    (delivered w ++
     accepted_in ext (length (smtp_sessions w)) (option_list a1 ++ option_list a2))%list.
Proof.
  intros Hs1 Hd1 Hs2 Hd2. rewrite Hs2, Hd2, Hd1, Hs1, <- !app_assoc, length_app.
  split; [done |]. f_equal. apply accepted_in_options.
Qed.

Lemma no_attempt (ext : externals) (w w1 : world) :
  smtp_sessions w1 = smtp_sessions w → delivered w1 = delivered w →
  smtp_sessions w1 = (smtp_sessions w ++ option_list None)%list ∧
  delivered w1 = (delivered w ++ accepted_of ext (length (smtp_sessions w)) None)%list.
Proof. intros -> ->. cbn. by rewrite !app_nil_r. Qed.

(** X13.  A run opens at most two SMTP sessions: the notification, if the
    change detection returned with new items, and the error mail, if the
    [try] block raised.  Every session uses STARTTLS exactly when the port
    is 587, carries the configured sender and recipient, and has headers of
    one line each; with incomplete mail settings a run opens no session at
    all.  The messages the server accepted are those of the sessions that
    ended with the message accepted, in the order of the sessions; so at
    most two are accepted, and on a console that takes every line two are
    accepted only when the SMTP session of the notification raised after
    the server had accepted the message. *)
Theorem mail_per_run (ext : externals) (cfg : config) (w : world) :
  ∃ notification error_mail : option (bool * message),
    let ss := (option_list notification ++ option_list error_mail)%list in
    smtp_sessions (main ext cfg w).2 = (smtp_sessions w ++ ss)%list ∧
    delivered (main ext cfg w).2 =
      (delivered w ++ accepted_in ext (length (smtp_sessions w)) ss)%list ∧
    (length ss ≤ 2)%nat ∧
    (length (accepted_in ext (length (smtp_sessions w)) ss) ≤ length ss)%nat ∧
    Forall (session_of cfg) ss ∧
    (email_configured cfg = false → ss = []) ∧
    (∀ s, notification = Some s →
       ∃ subject body,
         mail_attempt cfg subject body = Some s ∧
         (subject = "[FirstCry] New items for " ++ SEARCH_QUERY cfg ∨
          subject = "[FirstCry] Count increased for " ++ SEARCH_QUERY cfg)) ∧
    (∀ s, error_mail = Some s →
       ∃ e w1,
         main_body ext cfg w = (Raise e, w1) ∧
         mail_attempt cfg ("[FirstCry Monitor] Error for " ++ SEARCH_QUERY cfg) (repr e)
         = Some s) ∧
    (console_sound ext → notification ≠ None → error_mail ≠ None →
     ∃ shown,
       smtp_end ext (length (smtp_sessions w)) = Refused shown ∨
       smtp_end ext (length (smtp_sessions w)) = AcceptedThenRaised shown).
Proof.
  assert (Hshape : ∀ notification error_mail : option (bool * message),
    (∀ s, notification = Some s →
       ∃ subject body,
         mail_attempt cfg subject body = Some s ∧
         (subject = "[FirstCry] New items for " ++ SEARCH_QUERY cfg ∨
          subject = "[FirstCry] Count increased for " ++ SEARCH_QUERY cfg)) →
    (∀ s, error_mail = Some s →
       ∃ e w1,
         main_body ext cfg w = (Raise e, w1) ∧
         mail_attempt cfg ("[FirstCry Monitor] Error for " ++ SEARCH_QUERY cfg) (repr e)
         = Some s) →
    let ss := (option_list notification ++ option_list error_mail)%list in
    (length ss ≤ 2)%nat ∧
    (length (accepted_in ext (length (smtp_sessions w)) ss) ≤ length ss)%nat ∧
    Forall (session_of cfg) ss ∧
    (email_configured cfg = false → ss = [])).
  { intros notification error_mail Hn He ss.
    assert (Hn' : ∀ s, notification = Some s →
                   email_configured cfg = true ∧ session_of cfg s).
    { intros s Hs. destruct (Hn s Hs) as (subject & body & Hm & _).
      by apply mail_attempt_session in Hm as (? & ? & _). }
    assert (He' : ∀ s, error_mail = Some s →
                   email_configured cfg = true ∧ session_of cfg s).
    { intros s Hs. destruct (He s Hs) as (e & w1 & _ & Hm).
      by apply mail_attempt_session in Hm as (? & ? & _). }
    subst ss.
    destruct notification as [s1 |], error_mail as [s2 |];
      unfold option_list; cbn [option_rect app length accepted_in];
      repeat match goal with
             | |- context [accepts ?x] => destruct (accepts x)
             end; cbn [app length];
      (split_and!;
       [ lia | lia
       | repeat constructor;
         first [by apply Hn' | by apply He']
       | intros Hcfg; first
           [ done
           | destruct (Hn' _ eq_refl) as [Hc _]; congruence
           | destruct (He' _ eq_refl) as [Hc _]; congruence ] ]). }
  assert (Hfinish : ∀ (notification error_mail : option (bool * message)) (w2 : world),
    smtp_sessions w2 =
      (smtp_sessions w ++ (option_list notification ++ option_list error_mail))%list ∧
    delivered w2 =
      (delivered w ++ accepted_in ext (length (smtp_sessions w))
                        (option_list notification ++ option_list error_mail))%list →
    (∀ s, notification = Some s →
       ∃ subject body,
         mail_attempt cfg subject body = Some s ∧
         (subject = "[FirstCry] New items for " ++ SEARCH_QUERY cfg ∨
          subject = "[FirstCry] Count increased for " ++ SEARCH_QUERY cfg)) →
    (∀ s, error_mail = Some s →
       ∃ e w1,
         main_body ext cfg w = (Raise e, w1) ∧
         mail_attempt cfg ("[FirstCry Monitor] Error for " ++ SEARCH_QUERY cfg) (repr e)
         = Some s) →
    (console_sound ext → notification ≠ None → error_mail ≠ None →
     ∃ shown,
       smtp_end ext (length (smtp_sessions w)) = Refused shown ∨
       smtp_end ext (length (smtp_sessions w)) = AcceptedThenRaised shown) →
    ∃ notification error_mail : option (bool * message),
      let ss := (option_list notification ++ option_list error_mail)%list in
      smtp_sessions w2 = (smtp_sessions w ++ ss)%list ∧
      delivered w2 =
        (delivered w ++ accepted_in ext (length (smtp_sessions w)) ss)%list ∧
      (length ss ≤ 2)%nat ∧
      (length (accepted_in ext (length (smtp_sessions w)) ss) ≤ length ss)%nat ∧
      Forall (session_of cfg) ss ∧
      (email_configured cfg = false → ss = []) ∧
      (∀ s, notification = Some s →
         ∃ subject body,
           mail_attempt cfg subject body = Some s ∧
           (subject = "[FirstCry] New items for " ++ SEARCH_QUERY cfg ∨
            subject = "[FirstCry] Count increased for " ++ SEARCH_QUERY cfg)) ∧
      (∀ s, error_mail = Some s →
         ∃ e w1,
           main_body ext cfg w = (Raise e, w1) ∧
           mail_attempt cfg ("[FirstCry Monitor] Error for " ++ SEARCH_QUERY cfg) (repr e)
           = Some s) ∧
      (console_sound ext → notification ≠ None → error_mail ≠ None →
       ∃ shown,
         smtp_end ext (length (smtp_sessions w)) = Refused shown ∨
         smtp_end ext (length (smtp_sessions w)) = AcceptedThenRaised shown)).
  { intros notification error_mail w2 [Hs Hd] Hn He Hlast.
    exists notification, error_mail.
    destruct (Hshape notification error_mail Hn He) as (H1 & H2 & H3 & H4).
    cbv zeta. by split_and!. }
  pose proof (main_body_run ext cfg w) as Hbody. rewrite main_run.
  destruct (gather_same_mail ext cfg w) as [Hs Hd].
  destruct (gather ext cfg w) as [[[[new_found prev_count] curr_count] | e] w1];
    cbn [snd] in Hs, Hd.
  2: { destruct (handle_error_mail ext cfg e w1) as (att & Hs2 & Hd2 & Hatt).
       apply (Hfinish None att).
       - by apply (two_attempts ext w w1); [apply no_attempt | apply no_attempt | |].
       - done.
       - intros s Hsome. exists e, w1. split; [done | by apply Hatt].
       - done. }
  rewrite report_run in Hbody |- *.
  destruct (print_fault ext _ _) as [fault |].
  { destruct (handle_error_mail ext cfg (OutputError fault) w1)
      as (att & Hs2 & Hd2 & Hatt).
    apply (Hfinish None att).
    - by apply (two_attempts ext w w1); [apply no_attempt | apply no_attempt | |].
    - done.
    - intros s Hsome. exists (OutputError fault), w1. split; [done | by apply Hatt].
    - done. }
  match type of Hbody with context [notify _ _ _ _ _ ?w2] =>
    destruct (notify_mail ext cfg new_found prev_count curr_count w2)
      as (att1 & Hs1 & Hd1 & Hatt1 & Hraised);
    destruct (notify ext cfg new_found prev_count curr_count w2) as [[[] | e] w3]
  end; cbn [fst snd smtp_sessions delivered] in *; rewrite Hs in Hs1, Hd1, Hraised;
    rewrite Hd in Hd1.
  - (* the notification returned *)
    unfold print in Hbody |- *.
    destruct (print_fault ext (length (stdout w3)) "Run complete.") as [fault |] eqn:Hfault.
    + destruct (handle_error_mail ext cfg (OutputError fault) w3)
        as (att & Hs2 & Hd2 & Hatt).
      apply (Hfinish att1 att).
      * by apply (two_attempts ext w w3).
      * done.
      * intros s Hsome. exists (OutputError fault), w3. split; [done | by apply Hatt].
      * intros Hc. by rewrite (Hc _ _) in Hfault.
    + apply (Hfinish att1 None).
      * cbn [snd smtp_sessions delivered].
        by apply (two_attempts ext w w3); [| | apply no_attempt | apply no_attempt].
      * done.
      * done.
      * done.
  - (* the notification raised *)
    destruct (handle_error_mail ext cfg e w3) as (att & Hs2 & Hd2 & Hatt).
    apply (Hfinish att1 att).
    + by apply (two_attempts ext w w3).
    + done.
    + intros s Hsome. exists e, w3. split; [done | by apply Hatt].
    + intros Hc Hn1 _. specialize (Hraised Hc ltac:(done) Hn1).
      destruct (smtp_end ext (length (smtp_sessions w))); [done | eauto | eauto].
Qed.

(** ** The store over a run *)

Lemma store_after_known (now : Z) (products : list product) (c : table)
    (pid : string) (r : row) :
  c !! pid = Some r →
  ∃ seen,
    store_after now products c !! pid = Some (Row (title_col r) seen) ∧
    (seen = last_seen r ∨ seen = now).
Proof.
  intros Hr. destruct (decide (pid ∈ products.*1)) as [Hin | Hout].
  - destruct (first_occurrence_exists _ _ Hin) as [title Hfirst].
    exists now. rewrite (store_after_first now products c pid title Hfirst), Hr.
    split; [done | by right].
  - exists (last_seen r). rewrite store_after_untouched, Hr by done.
    split; [by destruct r | by left].
Qed.

Lemma store_after_size (now : Z) (products : list product) (c : table) :
  size (store_after now products c) = size c + length (new_records (dom c) products).
Proof.
  revert c. induction products as [| [pid title] products IH]; intros c;
    cbn [store_after new_records fst length]; [lia |].
  destruct (c !! pid) as [r |] eqn:Hpid.
  - rewrite decide_True by (apply elem_of_dom; by rewrite Hpid).
    rewrite IH, dom_alter_L. f_equal.
    by rewrite <- !size_dom, dom_alter_L.
  - rewrite decide_False by (by apply not_elem_of_dom).
    rewrite IH, dom_insert_L, map_size_insert_None by done. cbn [length]. lia.
Qed.

Lemma store_after_dom (now : Z) (products : list product) (c : table) (pid : string) :
  pid ∈ products.*1 → pid ∈ dom (store_after now products c).
Proof.
  intros Hin. destruct (first_occurrence_exists _ _ Hin) as [title Hfirst].
  apply elem_of_dom. by rewrite (store_after_first now products c pid title Hfirst).
Qed.

Lemma new_records_all_known (known : gset string) (products : list product) :
  (∀ pid, pid ∈ products.*1 → pid ∈ known) → new_records known products = [].
Proof.
  induction products as [| p products IH]; [done |]. intros Hall.
  cbn [new_records]. rewrite decide_True by (apply Hall; left).
  apply IH. intros pid Hpid. apply Hall. by right.
Qed.

Lemma filter_unknown_without (known : gset string) (q : string) (l : list product) :
  q ∉ l.*1 →
  filter (λ p : product, p.1 ∉ known ∖ {[q]}) l = filter (λ p : product, p.1 ∉ known) l.
Proof.
  induction l as [| p l IH]; [done |]. cbn [fmap list_fmap].
  intros [Hne Hq]%not_elem_of_cons.
  destruct (decide (p.1 ∈ known)) as [Hk | Hk].
  - rewrite !filter_cons_False; [by apply IH | by intros Hn; apply Hn |].
    intros Hn. apply Hn. apply elem_of_difference. split; [done |].
    intros Heq%elem_of_singleton. congruence.
  - rewrite !filter_cons_True; [f_equal; by apply IH | done |].
    intros [? _]%elem_of_difference. done.
Qed.

(** Records with pairwise distinct ids: those with a known id are at most as
    many as the known ids. *)
Lemma distinct_ids_count (known : gset string) (l : list product) :
  NoDup l.*1 →
  (length l ≤ size known + length (filter (λ p : product, p.1 ∉ known) l))%nat.
Proof.
  revert known. induction l as [| p l IH]; intros known; [cbn; lia |].
  cbn [fmap list_fmap]. intros [Hp Hnd]%NoDup_cons.
  destruct (decide (p.1 ∈ known)) as [Hk | Hk].
  - rewrite filter_cons_False by (intros Hn; by apply Hn).
    specialize (IH (known ∖ {[p.1]}) Hnd).
    rewrite filter_unknown_without in IH by done.
    assert (Hsize : size known = S (size (known ∖ {[p.1]}))).
    { rewrite size_difference by (by apply singleton_subseteq_l).
      rewrite size_singleton.
      assert (size known ≠ 0); [| lia].
      intros Hz. apply size_empty_inv in Hz. by apply (Hz p.1) in Hk. }
    cbn [length]. lia.
  - rewrite filter_cons_True by done. specialize (IH known Hnd). cbn [length]. lia.
Qed.

Lemma parse_result_distinct (ext : externals) (html : string) (l : list product) :
  parse_products_from_html ext html = Ok l → NoDup l.*1.
Proof.
  intros Hl. destruct (BeautifulSoup ext html) as [s | shown] eqn:Hs.
  2: { unfold parse_products_from_html in Hl. by rewrite Hs in Hl. }
  destruct (parse_products_from_html_chosen ext html s Hs) as (i & _ & _ & Hres).
  destruct (tier ext s i) as [raw | e]; [| congruence].
  destruct Hres as [_ Hres].
  destruct (dedup_spec raw) as (l' & Hl' & _ & Hnd & _). congruence.
Qed.

(** X14.  A run never deletes a row and never changes the title of an id
    the store already knows: a row that was on disk before the run is on
    disk after it with the same title, and its [last_seen] is either as it
    was or the clock reading of this run. *)
Theorem store_only_grows (ext : externals) (cfg : config) (w : world)
    (pid : string) (r : row) :
  disk w !! pid = Some r →
  ∃ seen,
    disk (main ext cfg w).2 !! pid = Some (Row (title_col r) seen) ∧
    (seen = last_seen r ∨ seen = time_time ext (clock_reads w)).
Proof.
  intros Hr. destruct (main_after_gather ext cfg w) as (Hd & _). rewrite Hd.
  destruct (gather ext cfg w) as [[[[new_found prev] curr] | e] w1] eqn:Hg; cbn [snd].
  - apply gather_ok in Hg as (html_text & products & w0 & _ & _ & _ & _ & _ & _ & -> & _).
    by apply store_after_known.
  - apply gather_raise in Hg as [-> _]. exists (last_seen r).
    split; [by destruct r | by left].
Qed.

(** X15.  When a run reaches the commit, the table on disk has grown by
    exactly the number of records reported as new: its size is
    [prev_count + len(new_found)]. *)
Theorem store_grows_by_new (ext : externals) (cfg : config) (w w1 : world)
    (new_found : list product) (prev_count curr_count : nat) :
  gather ext cfg w = (Ok (new_found, prev_count, curr_count), w1) →
  prev_count = size (disk w) ∧
  size (disk (main ext cfg w).2) = prev_count + length new_found.
Proof.
  intros Hg. destruct (main_after_gather ext cfg w) as (Hd & _).
  rewrite Hg in Hd. cbn [snd] in Hd. rewrite Hd.
  apply gather_ok in Hg as (html_text & products & w0 & _ & _ & _ & -> & -> & _ & -> & _).
  split; [done | apply store_after_size].
Qed.

(** X16.  In a run the count-only notification of line 227 is never sent.
    The extraction result has pairwise distinct ids, so it has at most
    [prev_count + len(new_found)] records; when nothing is new,
    [curr_count <= prev_count], and [notify] prints that there are no new
    items.  A run therefore either mails the list of new items or mails
    nothing. *)
Theorem count_only_mail_never_sent (ext : externals) (cfg : config) (w w1 : world)
    (new_found : list product) (prev_count curr_count : nat) :
  gather ext cfg w = (Ok (new_found, prev_count, curr_count), w1) →
  (curr_count ≤ prev_count + length new_found)%nat ∧
  (new_found = [] → (curr_count ≤ prev_count)%nat) ∧
  (∀ w',
     notify ext cfg new_found prev_count curr_count w' =
     if no_products new_found
     then print ext "No new items found this run." w'
     else send_email ext cfg ("[FirstCry] New items for " ++ SEARCH_QUERY cfg)
                     (new_items_body cfg new_found) w').
Proof.
  intros Hg.
  apply gather_ok in Hg as (html_text & products & w0 & _ & _ & Hparse & -> & -> & -> & _).
  apply parse_result_distinct in Hparse.
  assert (Hcount : (length products ≤
            size (disk w) + length (new_records (dom (disk w)) products))%nat).
  { rewrite new_records_filter by done. rewrite <- size_dom.
    by apply distinct_ids_count. }
  split_and!; [done | |].
  - intros Hnil. rewrite Hnil in Hcount. cbn [length] in Hcount. lia.
  - intros w'. unfold notify.
    destruct (new_records (dom (disk w)) products) as [| p l] eqn:Hnew;
      cbn [no_products negb]; [| done].
    cbn [length] in Hcount.
    destruct (Nat.ltb_spec (size (disk w)) (length products)); [lia | done].
Qed.

(** X17.  Change detection is silent the second time: after a detection
    that returned, a detection over the same extraction result finds no new
    record, and it leaves every title as the first one wrote it.  When the
    ids are pairwise distinct the count has not grown either, so nothing is
    mailed. *)
Theorem second_detection_is_silent (ext : externals) (products : list product)
    (w w1 : world) (found : list product * nat * nat) :
  sqlite_sound ext →
  detect_changes ext products w = (Ok found, w1) →
  ∃ w2,
    detect_changes ext products w1 = (Ok ([], size (conn w1), length products), w2) ∧
    (∀ pid, title_col <$> conn w2 !! pid = title_col <$> conn w1 !! pid) ∧
    (NoDup products.*1 →
     (length products ≤ size (conn w1))%nat ∧
     ∀ cfg w',
       notify ext cfg [] (size (conn w1)) (length products) w' =
       print ext "No new items found this run." w').
Proof.
  intros Hsound Hfirst. destruct found as [[new1 prev1] curr1].
  apply detect_changes_ok in Hfirst as (_ & _ & _ & Hconn1 & _ & _).
  destruct (detect_changes_total ext products w1 Hsound)
    as ([[new2 prev2] curr2] & w2 & Hrun).
  destruct (detect_changes_ok _ _ _ _ _ _ _ Hrun) as (Hnew & -> & -> & Hconn2 & _ & _).
  assert (Hknown : ∀ pid, pid ∈ products.*1 → pid ∈ dom (conn w1)).
  { intros pid Hpid. rewrite Hconn1. by apply store_after_dom. }
  rewrite (new_records_all_known _ _ Hknown) in Hnew. subst new2.
  exists w2. split_and!; [done | |].
  - intros pid. rewrite Hconn2.
    destruct (conn w1 !! pid) as [r |] eqn:Hr.
    + destruct (store_after_known (time_time ext (clock_reads w1)) products
                  (conn w1) pid r Hr) as (seen & -> & _). done.
    + rewrite store_after_untouched, Hr; [done |].
      intros Hin. apply Hknown, elem_of_dom in Hin as [r Hr']. congruence.
  - intros Hnd.
    assert (Hlen : (length products ≤ size (conn w1))%nat).
    { pose proof (distinct_ids_count (dom (conn w1)) products Hnd) as Hc.
      rewrite <- new_records_filter, (new_records_all_known _ _ Hknown) in Hc by done.
      rewrite size_dom in Hc. cbn [length] in Hc. lia. }
    split; [done |]. intros cfg w'. unfold notify. cbn [no_products negb].
    destruct (Nat.ltb_spec (size (conn w1)) (length products)); [lia | done].
Qed.
(** ** What a run prints *)

Lemma printed_refl (P : string → Prop) (w : world) : printed P w w.
Proof. exists []. by rewrite app_nil_r. Qed.

Lemma printed_trans (P : string → Prop) (w1 w2 w3 : world) :
  printed P w1 w2 → printed P w2 w3 → printed P w1 w3.
Proof.
  intros (l1 & H1 & F1) (l2 & H2 & F2). exists (l1 ++ l2)%list.
  split; [by rewrite H2, H1, app_assoc | by apply Forall_app].
Qed.

Lemma print_printed (P : string → Prop) (ext : externals) (line : string) :
  P line → preserves (printed P) (print ext line).
Proof.
  intros HP w. unfold print. destruct (print_fault ext (length (stdout w)) line).
  - apply printed_refl.
  - exists [line]. split; [done | by constructor].
Qed.

Lemma silent_printed {A} (P : string → Prop) (m : M A) :
  (∀ w, stdout (m w).2 = stdout w) → preserves (printed P) m.
Proof. intros H w. exists []. by rewrite app_nil_r, H. Qed.

Lemma time_sleep_printed (P : string → Prop) (seconds : Z) :
  preserves (printed P) (time_sleep seconds).
Proof.
  apply silent_printed. intros w. unfold time_sleep.
  destruct ((seconds <? - max_sleep) || (max_sleep <? seconds))%Z; [done |].
  by destruct (seconds <? 0)%Z.
Qed.

Lemma http_get_printed (P : string → Prop) (ext : externals) (url : string) :
  preserves (printed P) (http_get ext url).
Proof. by apply silent_printed. Qed.

Lemma read_clock_printed (P : string → Prop) (ext : externals) :
  preserves (printed P) (read_clock ext).
Proof. by apply silent_printed. Qed.

Lemma sqlite_call_printed {A} (P : string → Prop) (ext : externals)
    (act : table → table → A * table * table) :
  preserves (printed P) (sqlite_call ext act).
Proof.
  apply silent_printed. intros w. unfold sqlite_call.
  destruct (sqlite_fault ext (sqlite_calls w)); [done |].
  by destruct (act (disk w) (conn w)) as [[a d] c].
Qed.

Lemma smtp_session_printed (P : string → Prop) (ext : externals)
    (tls : bool) (msg : message) :
  preserves (printed P) (smtp_session ext tls msg).
Proof.
  apply silent_printed. intros w. unfold smtp_session.
  by destruct (smtp_end ext (length (smtp_sessions w))).
Qed.

Create HintDb frame_log discriminated.

#[export] Hint Resolve time_sleep_printed http_get_printed read_clock_printed
  sqlite_call_printed smtp_session_printed : frame_log.

(** A line that starts differently from the closing line. *)
Ltac other_line :=
  let H := fresh in
  intros H; rewrite ?append_cons in H; congruence.

Ltac frame_log :=
  repeat first
    [ solve [auto 1 with frame_log nocore]
    | apply preserves_ret; exact (printed_refl _)
    | apply preserves_raise; exact (printed_refl _)
    | apply preserves_lift_result; exact (printed_refl _)
    | apply print_printed; other_line
    | apply preserves_bind; [exact (printed_trans _) | | intros ?]
    | apply preserves_try_except; [exact (printed_trans _) | | intros ?] ].

Lemma retry_loop_printed (ext : externals) (url : string)
    (retries backoff : Z) (attempts : list Z) :
  preserves (printed not_closing) (retry_loop ext url retries backoff attempts).
Proof.
  induction attempts as [| attempt attempts IH]; cbn [retry_loop].
  - frame_log.
  - frame_log. destruct (attempt <=? retries)%Z; frame_log.
Qed.

#[export] Hint Resolve retry_loop_printed : frame_log.

Lemma fetch_search_html_printed (ext : externals) (cfg : config) (query : string) :
  preserves (printed not_closing) (fetch_search_html ext cfg query).
Proof.
  unfold fetch_search_html, requests_get_with_retry. frame_log.
  match goal with |- preserves _ (match ?x with _ => _ end) => destruct x end;
    frame_log.
Qed.

Lemma ensure_db_printed (ext : externals) :
  preserves (printed not_closing) (ensure_db ext).
Proof. unfold ensure_db. frame_log. Qed.

Lemma sample_line_not_closing (i : nat) (p : product) :
  not_closing (pretty i ++ ". " ++ p.2 ++ " — id: " ++ p.1).
Proof.
  intros H. apply (f_equal (Py.contains ". ")) in H.
  rewrite (contains_append_l ". " (pretty i)) in H by apply contains_here.
  vm_compute in H. discriminate H.
Qed.

Lemma print_sample_run (ext : externals) (i : nat) (products : list product) (w : world) :
  console_sound ext →
  print_sample ext i products w =
    (Ok (),
     World (stdout w ++ numbered_from i products) (slept w) (requested w)
           (clock_reads w) (sqlite_calls w) (disk w) (conn w)
           (smtp_sessions w) (delivered w)).
Proof.
  intros Hc. revert i w. induction products as [| [pid title] products IH]; intros i w.
  - cbn. rewrite app_nil_r. by destruct w.
  - cbn [print_sample]. rewrite bind_run, print_run by done. rewrite IH.
    cbn [stdout slept requested clock_reads sqlite_calls disk conn smtp_sessions delivered].
    unfold numbered_from. cbn [imap]. rewrite <- app_assoc. cbn [app fst snd].
    rewrite Nat.add_0_r. do 4 f_equal.
    apply imap_ext. intros j p _. cbn. by rewrite Nat.add_succ_r.
Qed.

Lemma numbered_from_not_closing (i : nat) (products : list product) :
  Forall not_closing (numbered_from i products).
Proof.
  unfold numbered_from. apply Forall_forall. intros line Hin.
  apply elem_of_lookup_imap in Hin as (j & p & -> & _).
  apply sample_line_not_closing.
Qed.

Lemma print_sample_printed (ext : externals) (i : nat) (products : list product) :
  preserves (printed not_closing) (print_sample ext i products).
Proof.
  revert i. induction products as [| [pid title] products IH]; intros i;
    cbn [print_sample].
  - apply preserves_ret. exact (printed_refl _).
  - apply preserves_bind; [exact (printed_trans _) | | intros ?; apply IH].
    apply print_printed. exact (sample_line_not_closing i (pid, title)).
Qed.

Lemma detect_loop_printed (ext : externals) (now : Z)
    (products new_found : list product) :
  preserves (printed not_closing) (detect_loop ext now products new_found).
Proof.
  revert new_found. induction products as [| [pid title] products IH];
    intros new_found; cbn [detect_loop]; frame_log.
  match goal with |- preserves _ (match ?x with _ => _ end) => destruct x end;
    frame_log.
Qed.

#[export] Hint Resolve fetch_search_html_printed ensure_db_printed
  print_sample_printed detect_loop_printed : frame_log.

Lemma detect_changes_printed (ext : externals) (products : list product) :
  preserves (printed not_closing) (detect_changes ext products).
Proof. unfold detect_changes. frame_log. Qed.

Lemma send_email_printed (ext : externals) (cfg : config) (subject body : string) :
  preserves (printed not_closing) (send_email ext cfg subject body).
Proof. unfold send_email. destruct (negb (email_configured cfg)); frame_log. Qed.

#[export] Hint Resolve detect_changes_printed send_email_printed : frame_log.

Lemma notify_printed (ext : externals) (cfg : config)
    (new_found : list product) (prev_count curr_count : nat) :
  preserves (printed not_closing) (notify ext cfg new_found prev_count curr_count).
Proof.
  unfold notify. destruct (negb (no_products new_found)); [frame_log |].
  destruct (prev_count <? curr_count)%nat; frame_log.
Qed.

Lemma handle_error_log (ext : externals) (cfg : config) (e : exn) (w : world) :
  console_sound ext →
  ∃ after,
    stdout (handle_error ext cfg e w).2 =
      (stdout w ++ ("Error: " ++ repr e)%string :: after)%list ∧
    handler_lines cfg ("[FirstCry Monitor] Error for " ++ SEARCH_QUERY cfg) after.
Proof.
  intros Hc. rewrite handle_error_run, Hc, send_email_run. cbv zeta.
  unfold handler_lines.
  destruct (email_configured cfg);
    [destruct (build_message cfg _ (repr e)) as [mail | e1];
       [destruct (smtp_end ext _) |] |];
    rewrite ?bind_run, ?print_run by done; rewrite ?print_run by done;
    cbn [snd stdout]; eexists; (split; [by rewrite <- ?app_assoc | auto]).
Qed.

Lemma handler_lines_not_closing (cfg : config) (subject : string) (lines : list string) :
  handler_lines cfg subject lines → Forall not_closing lines.
Proof.
  intros [-> | [-> | ->]]; repeat constructor; other_line.
Qed.

Lemma bind_assoc_run {A B C} (m : M A) (f : A → M B) (g : B → M C) (w : world) :
  ((m ≫= f) ≫= g) w = (m ≫= λ a, f a ≫= g) w.
Proof. rewrite !bind_run. by destruct (m w) as [[a | e] w1]. Qed.

Lemma print_then {A} (P : string → Prop) (ext : externals) (line : string)
    (m : M A) (w : world) :
  console_sound ext →
  preserves (printed P) m →
  ∃ lines, stdout ((print ext line;; m) w).2 = (stdout w ++ line :: lines)%list ∧
           Forall P lines.
Proof.
  intros Hc Hm. rewrite bind_run, print_run by done.
  match goal with |- context [m ?w1] => destruct (Hm w1) as (lines & H & HP) end.
  exists lines. split; [| done]. rewrite H. cbn [stdout]. by rewrite <- app_assoc.
Qed.

(** What lines 186-216 print: the banner, the line of the query, and then
    no closing line. *)
Lemma gather_log (ext : externals) (cfg : config) (w : world) :
  console_sound ext →
  ∃ lines,
    stdout (gather ext cfg w).2 =
      (stdout w ++ Py.repeat_str "=" 40 ::
         ("FirstCry Monitor — query: '" ++ SEARCH_QUERY cfg ++ "'")%string :: lines)%list ∧
    Forall not_closing lines.
Proof.
  intros Hc. unfold gather, open_and_fetch. rewrite bind_assoc_run.
  rewrite bind_run, print_run by done. rewrite bind_assoc_run.
  match goal with |- context [(print ext ?l;; ?m) ?w1] =>
    destruct (print_then not_closing ext l m w1 Hc) as (lines & H & HP)
  end.
  - frame_log.
    match goal with |- preserves _ (if ?x then _ else _) => destruct x end;
      frame_log.
    destruct (SHOW_SAMPLE cfg); frame_log.
  - exists lines. split; [| done]. rewrite H. cbn [stdout]. by rewrite <- app_assoc.
Qed.

(** X20.  What a run prints on a console that takes every line.  It
    starts with the banner of forty [=] and the line of the query.  When the
    [try] block returns, the last print is "Run complete." and no earlier
    print of the run is.  When it raises [e], "Run complete." is not
    printed: the run prints "Error: " and [repr(e)], and after that only
    what the error mail prints, which is nothing when the message could not
    be built or the SMTP session raised. *)
Theorem run_log (ext : externals) (cfg : config) (w : world) :
  console_sound ext →
  ∃ lines,
    stdout (main ext cfg w).2 =
      (stdout w ++ Py.repeat_str "=" 40 ::
         ("FirstCry Monitor — query: '" ++ SEARCH_QUERY cfg ++ "'")%string :: lines)%list ∧
    match (main_body ext cfg w).1 with
    | Ok _ =>
        ∃ before, lines = (before ++ ["Run complete."])%list ∧ Forall not_closing before
    | Raise e =>
        ∃ before after,
          lines = (before ++ ("Error: " ++ repr e)%string :: after)%list ∧
          Forall not_closing lines ∧
          handler_lines cfg ("[FirstCry Monitor] Error for " ++ SEARCH_QUERY cfg) after
    end.
Proof.
  intros Hc. rewrite main_run, main_body_run.
  destruct (gather_log ext cfg w Hc) as (lines0 & H0 & HP0).
  destruct (gather ext cfg w) as [[[[new_found prev_count] curr_count] | e] w1];
    cbn [snd] in H0.
  - rewrite report_run, Hc.
    match goal with |- context [notify _ _ _ _ _ ?w2] =>
      destruct (notify_printed ext cfg new_found prev_count curr_count w2)
        as (lines1 & H1 & HP1);
      destruct (notify ext cfg new_found prev_count curr_count w2) as [[[] | e] w3]
    end; cbn [snd stdout] in H1; rewrite H0 in H1; rewrite ?print_run by done.
    + exists ((lines0 ++ ("Parsed products: " ++ pretty curr_count ++
                   " (previous stored: " ++ pretty prev_count ++ ")")%string
                   :: lines1) ++ ["Run complete."])%list.
      split.
      * cbn [snd stdout]. rewrite H1. rewrite <- ?app_assoc. cbn [app].
        by rewrite <- ?app_assoc.
      * cbn [fst]. eexists. split; [reflexivity |].
        apply Forall_app. split; [done |]. constructor; [other_line | done].
    + destruct (handle_error_log ext cfg e w3 Hc) as (after & H2 & Hafter).
      eexists. split.
      * rewrite H2, H1. rewrite <- ?app_assoc. cbn [app].
        rewrite <- ?app_assoc. cbn [app]. reflexivity.
      * cbn [fst]. exists (lines0 ++ ("Parsed products: " ++ pretty curr_count ++
                              " (previous stored: " ++ pretty prev_count ++ ")")%string
                              :: lines1)%list, after.
        split; [by rewrite <- !app_assoc |]. split; [| done].
        apply Forall_app. split; [done |]. constructor; [other_line |].
        apply Forall_app. split; [done |]. constructor; [other_line |].
        by eapply handler_lines_not_closing.
  - destruct (handle_error_log ext cfg e w1 Hc) as (after & H2 & Hafter).
    eexists. split.
    + rewrite H2, H0. rewrite <- ?app_assoc. cbn [app]. reflexivity.
    + cbn [fst]. exists lines0, after. split; [done |]. split; [| done].
      apply Forall_app. split; [done |]. constructor; [other_line |].
      by eapply handler_lines_not_closing.
Qed.

(** ** Computations that do not read what was printed *)

Lemma same_but_stdout_refl (w : world) : same_but_stdout w w.
Proof. by repeat split. Qed.

Lemma blind_ret {A} (a : A) : output_blind (mret a : M A).
Proof.
  intros w1 w2 H. split; [done |]. split; [done |].
  exists []. by rewrite !app_nil_r.
Qed.

Lemma blind_raise {A} (e : exn) : output_blind (raise e : M A).
Proof.
  intros w1 w2 H. split; [done |]. split; [done |].
  exists []. by rewrite !app_nil_r.
Qed.

Lemma blind_lift_result {A} (r : result A) : output_blind (lift_result r).
Proof.
  intros w1 w2 H. split; [done |]. split; [done |].
  exists []. by rewrite !app_nil_r.
Qed.

Lemma blind_print (ext : externals) (line : string) :
  console_sound ext → output_blind (print ext line).
Proof.
  intros Hc w1 w2 H. rewrite !print_run by done.
  split; [done |]. split; [exact H |]. by exists [line].
Qed.

(** A computation that prints nothing and reads nothing of what was
    printed. *)
Ltac blind_leaf :=
  intros [out1 sl1 rq1 ck1 sq1 d1 c1 ss1 dl1] [out2 sl2 rq2 ck2 sq2 d2 c2 ss2 dl2]
         (? & ? & ? & ? & ? & ? & ? & ?); simplify_eq/=.

Ltac blind_done :=
  split; [done |]; split; [done |]; exists []; by rewrite !app_nil_r.

Lemma blind_time_sleep (seconds : Z) : output_blind (time_sleep seconds).
Proof.
  blind_leaf. unfold time_sleep.
  destruct ((seconds <? - max_sleep) || (max_sleep <? seconds))%Z; [blind_done |].
  destruct (seconds <? 0)%Z; blind_done.
Qed.

Lemma blind_http_get (ext : externals) (url : string) : output_blind (http_get ext url).
Proof. blind_leaf. blind_done. Qed.

Lemma blind_read_clock (ext : externals) : output_blind (read_clock ext).
Proof. blind_leaf. blind_done. Qed.

Lemma blind_sqlite_call {A} (ext : externals)
    (act : table → table → A * table * table) :
  output_blind (sqlite_call ext act).
Proof.
  blind_leaf. unfold sqlite_call. cbn [sqlite_calls disk conn].
  match goal with |- context [sqlite_fault ext ?n] => destruct (sqlite_fault ext n) end;
    [blind_done |].
  match goal with |- context [act ?d ?c] => destruct (act d c) as [[a d'] c'] end.
  blind_done.
Qed.

Lemma blind_smtp_session (ext : externals) (tls : bool) (msg : message) :
  output_blind (smtp_session ext tls msg).
Proof.
  blind_leaf. unfold smtp_session. cbn [smtp_sessions].
  match goal with |- context [smtp_end ext ?n] => destruct (smtp_end ext n) end;
    blind_done.
Qed.

Lemma blind_bind {A B} (m : M A) (f : A → M B) :
  output_blind m → (∀ a, output_blind (f a)) → output_blind (m ≫= f).
Proof.
  intros Hm Hf w1 w2 Hsame. rewrite !bind_run.
  destruct (Hm w1 w2 Hsame) as (Hr & Hs & lines & H1 & H2).
  destruct (m w1) as [[a1 | e1] v1], (m w2) as [[a2 | e2] v2];
    cbn [fst snd] in *; simplify_eq.
  - destruct (Hf a2 v1 v2 Hs) as (Hr' & Hs' & lines' & H1' & H2').
    split; [done |]. split; [done |].
    exists (lines ++ lines')%list. by rewrite H1', H2', H1, H2, <- !app_assoc.
  - split; [done |]. split; [done |]. by exists lines.
Qed.

Lemma blind_try_except {A} (body : M A) (handler : exn → M A) :
  output_blind body → (∀ e, output_blind (handler e)) →
  output_blind (try_except body handler).
Proof.
  intros Hm Hh w1 w2 Hsame. unfold try_except.
  destruct (Hm w1 w2 Hsame) as (Hr & Hs & lines & H1 & H2).
  destruct (body w1) as [[a1 | e1] v1], (body w2) as [[a2 | e2] v2];
    cbn [fst snd] in *; simplify_eq.
  - split; [done |]. split; [done |]. by exists lines.
  - destruct (Hh e2 v1 v2 Hs) as (Hr' & Hs' & lines' & H1' & H2').
    split; [done |]. split; [done |].
    exists (lines ++ lines')%list. by rewrite H1', H2', H1, H2, <- !app_assoc.
Qed.

Create HintDb blind discriminated.

#[export] Hint Resolve blind_time_sleep blind_http_get blind_read_clock
  blind_sqlite_call blind_smtp_session : blind.

Ltac blind :=
  repeat first
    [ solve [auto 1 with blind nocore]
    | apply blind_print; assumption
    | apply blind_ret
    | apply blind_raise
    | apply blind_lift_result
    | apply blind_bind; [| intros ?]
    | apply blind_try_except; [| intros ?] ].

Lemma blind_detect_loop (ext : externals) (now : Z)
    (products new_found : list product) :
  output_blind (detect_loop ext now products new_found).
Proof.
  revert new_found. induction products as [| [pid title] products IH];
    intros new_found; cbn [detect_loop]; blind.
  match goal with |- output_blind (match ?x with _ => _ end) => destruct x end; blind.
Qed.

#[export] Hint Resolve blind_detect_loop : blind.

Lemma blind_send_email (ext : externals) (cfg : config) (subject body : string) :
  console_sound ext → output_blind (send_email ext cfg subject body).
Proof. intros Hc. unfold send_email. destruct (negb (email_configured cfg)); blind. Qed.

(** Lines 202-237 for the extracted [products]: detection, report, and the
    handler around them. *)
Lemma blind_after_sample (ext : externals) (cfg : config) (products : list product) :
  console_sound ext →
  output_blind (detect_changes ext products ≫= report ext cfg) ∧
  output_blind (try_except (detect_changes ext products ≫= report ext cfg)
                           (handle_error ext cfg)).
Proof.
  intros Hc.
  assert (Hbody : output_blind (detect_changes ext products ≫= report ext cfg)).
  { unfold detect_changes. blind. destruct a as [[new_found prev_count] curr_count].
    unfold report, notify. blind.
    destruct (negb (no_products new_found)); [by apply blind_send_email |].
    destruct (prev_count <? curr_count)%nat; [by apply blind_send_email | blind]. }
  split; [exact Hbody |].
  apply blind_try_except; [exact Hbody |]. intros e. unfold handle_error. blind.
  by apply blind_send_email.
Qed.

Lemma open_and_fetch_printed (ext : externals) (cfg : config) :
  preserves (printed not_closing) (open_and_fetch ext cfg).
Proof.
  unfold open_and_fetch.
  apply preserves_bind; [exact (printed_trans _) | | intros ?]; [| frame_log].
  apply print_printed. intros H. vm_compute in H. discriminate H.
Qed.

(** Lines 197-200 return, print the sample when it is asked for, and touch
    nothing else. *)
Lemma show_sample_run (ext : externals) (cfg : config) (products : list product)
    (w : world) :
  console_sound ext →
  (if SHOW_SAMPLE cfg then
     print ext "First 10 parsed products (sample):";;
     print_sample ext 1 (take 10 products)
   else mret ()) w =
  (Ok (),
   World (stdout w ++ (if SHOW_SAMPLE cfg then sample_lines products else []))
         (slept w) (requested w) (clock_reads w) (sqlite_calls w)
         (disk w) (conn w) (smtp_sessions w) (delivered w)).
Proof.
  intros Hc. destruct (SHOW_SAMPLE cfg).
  - rewrite bind_run, print_run by done. rewrite print_sample_run by done.
    cbn [stdout slept requested clock_reads sqlite_calls disk conn smtp_sessions delivered].
    unfold sample_lines. by rewrite <- app_assoc.
  - rewrite app_nil_r. by destruct w.
Qed.

Lemma main_from_page (ext : externals) (cfg : config) (w : world) :
  console_sound ext →
  main ext cfg w =
  match open_and_fetch ext cfg w with
  | (Raise e, w1) => handle_error ext cfg e w1
  | (Ok html_text, w1) =>
      if Py.is_empty html_text || (Py.len html_text <? 100)%nat then
        handle_error ext cfg (RuntimeError suspicious_message) w1
      else
        match parse_products_from_html ext html_text with
        | Raise e => handle_error ext cfg e w1
        | Ok products =>
            try_except (detect_changes ext products ≫= report ext cfg)
                       (handle_error ext cfg)
              (World (stdout w1 ++ (if SHOW_SAMPLE cfg then sample_lines products else []))
                     (slept w1) (requested w1) (clock_reads w1) (sqlite_calls w1)
                     (disk w1) (conn w1) (smtp_sessions w1) (delivered w1))
        end
  end.
Proof.
  intros Hc. unfold main, main_body, try_except. rewrite bind_run, gather_run.
  destruct (open_and_fetch ext cfg w) as [[html_text | e] w1]; [| done].
  destruct (Py.is_empty html_text || (Py.len html_text <? 100)%nat); [done |].
  destruct (parse_products_from_html ext html_text) as [products | e]; [| done].
  by rewrite !bind_run, show_sample_run.
Qed.

Lemma main_body_from_page (ext : externals) (cfg : config) (w : world) :
  console_sound ext →
  main_body ext cfg w =
  match open_and_fetch ext cfg w with
  | (Raise e, w1) => (Raise e, w1)
  | (Ok html_text, w1) =>
      if Py.is_empty html_text || (Py.len html_text <? 100)%nat then
        (Raise (RuntimeError suspicious_message), w1)
      else
        match parse_products_from_html ext html_text with
        | Raise e => (Raise e, w1)
        | Ok products =>
            (detect_changes ext products ≫= report ext cfg)
              (World (stdout w1 ++ (if SHOW_SAMPLE cfg then sample_lines products else []))
                     (slept w1) (requested w1) (clock_reads w1) (sqlite_calls w1)
                     (disk w1) (conn w1) (smtp_sessions w1) (delivered w1))
        end
  end.
Proof.
  intros Hc. unfold main_body. rewrite bind_run, gather_run.
  destruct (open_and_fetch ext cfg w) as [[html_text | e] w1]; [| done].
  destruct (Py.is_empty html_text || (Py.len html_text <? 100)%nat); [done |].
  destruct (parse_products_from_html ext html_text) as [products | e]; [| done].
  by rewrite !bind_run, show_sample_run.
Qed.

(** X21.  On a console that takes every line, [SHOW_SAMPLE] changes what a
    run prints and nothing else.  With the flag on or off the [try] block
    returns or raises the same, and the run ends in the same state of the
    database, the network and the mail.
    The run with the flag prints the same lines as the run without, and the
    sample between those of the download and those of the detection: the
    heading and one numbered line for each of the first ten extracted
    records, numbered from 1, or nothing when the run does not get as far
    as an extraction result. *)
Theorem show_sample_only_prints (ext : externals) (cfg : config) (w : world) :
  console_sound ext →
  let quiet := with_sample cfg false in
  let loud := with_sample cfg true in
  (main_body ext loud w).1 = (main_body ext quiet w).1 ∧
  same_but_stdout (main ext quiet w).2 (main ext loud w).2 ∧
  ∃ before after,
    stdout (open_and_fetch ext cfg w).2 = (stdout w ++ before)%list ∧
    stdout (main ext quiet w).2 = (stdout w ++ before ++ after)%list ∧
    stdout (main ext loud w).2 =
      (stdout w ++ before ++
         match extracted ext cfg w with
         | Some products => sample_lines products
         | None => []
         end ++ after)%list.
Proof.
  intros Hc quiet loud. unfold extracted.
  rewrite (main_from_page ext quiet), (main_from_page ext loud),
    (main_body_from_page ext quiet), (main_body_from_page ext loud) by done.
  change (open_and_fetch ext quiet w) with (open_and_fetch ext cfg w).
  change (open_and_fetch ext loud w) with (open_and_fetch ext cfg w).
  change (handle_error ext quiet) with (handle_error ext cfg).
  change (handle_error ext loud) with (handle_error ext cfg).
  change (report ext quiet) with (report ext cfg).
  change (report ext loud) with (report ext cfg).
  cbn [SHOW_SAMPLE quiet loud with_sample].
  destruct (open_and_fetch_printed ext cfg w) as (before & Hbefore & _).
  destruct (open_and_fetch ext cfg w) as [[html_text | e] w1]; cbn [fst snd] in *.
  - destruct (Py.is_empty html_text || (Py.len html_text <? 100)%nat).
    { destruct (handle_error_log ext cfg (RuntimeError suspicious_message) w1 Hc)
        as (after & Hafter & _).
      split; [done |]. split; [apply same_but_stdout_refl |].
      eexists before, _. split; [done |]. cbn [app].
      rewrite Hafter, Hbefore, <- app_assoc. done. }
    destruct (parse_products_from_html ext html_text) as [products | e].
    + destruct (blind_after_sample ext cfg products Hc) as [Hbody Hrun].
      match goal with |- context [World (stdout w1 ++ sample_lines products) ?a ?b ?c ?d ?e ?f ?g ?h] =>
        set (ws := World (stdout w1 ++ sample_lines products) a b c d e f g h)
      end.
      match goal with |- context [World (stdout w1 ++ []) ?a ?b ?c ?d ?e ?f ?g ?h] =>
        set (wq := World (stdout w1 ++ []) a b c d e f g h)
      end.
      assert (Hsame : same_but_stdout wq ws) by (by repeat split).
      destruct (Hbody wq ws Hsame) as (Hr & _ & _).
      destruct (Hrun wq ws Hsame) as (_ & Hs & after & H1 & H2).
      split; [by rewrite Hr |]. split; [exact Hs |].
      exists before, after. split; [done |].
      rewrite H1, H2. subst wq ws. cbn [stdout].
      rewrite Hbefore, app_nil_r, <- !app_assoc. done.
    + destruct (handle_error_log ext cfg e w1 Hc) as (after & Hafter & _).
      split; [done |]. split; [apply same_but_stdout_refl |].
      eexists before, _. split; [done |]. cbn [app].
      rewrite Hafter, Hbefore, <- app_assoc. done.
  - destruct (handle_error_log ext cfg e w1 Hc) as (after & Hafter & _).
    split; [done |]. split; [apply same_but_stdout_refl |].
    eexists before, _. split; [done |]. cbn [app].
    rewrite Hafter, Hbefore, <- app_assoc. done.
Qed.

(** ** What a run can raise *)












Lemma three_prints_run (ext : externals) (a b c : string) (w : world) :
  console_sound ext →
  (print ext a;; print ext b;; print ext c) w =
    (Ok (),
     World (stdout w ++ [a; b; c]) (slept w) (requested w) (clock_reads w)
           (sqlite_calls w) (disk w) (conn w) (smtp_sessions w) (delivered w)).
Proof.
  intros Hc. rewrite print_then_run, Hc, print_then_run, Hc, print_run by done.
  world_simpl. by rewrite <- !app_assoc.
Qed.

(** X19.  A page in which the extraction finds no product passes silently:
    on a console that takes every line the run reports no new item, writes
    nothing, opens no SMTP session, prints "No new items found this run."
    and returns. *)
Theorem empty_extraction_is_silent (ext : externals) (cfg : config) (w w1 : world)
    (new_found : list product) (prev_count : nat) :
  console_sound ext →
  gather ext cfg w = (Ok (new_found, prev_count, 0), w1) →
  new_found = [] ∧
  disk (main ext cfg w).2 = disk w ∧
  smtp_sessions (main ext cfg w).2 = smtp_sessions w ∧
  main ext cfg w =
    (print ext ("Parsed products: 0 (previous stored: " ++ pretty prev_count ++ ")");;
     print ext "No new items found this run.";;
     print ext "Run complete.") w1.
Proof.
  intros Hc Hg. destruct (gather_same_mail ext cfg w) as [Hs _].
  rewrite Hg in Hs. cbn [snd] in Hs.
  assert (Hmain : main ext cfg w =
    (print ext ("Parsed products: 0 (previous stored: " ++ pretty prev_count ++ ")");;
     print ext "No new items found this run.";;
     print ext "Run complete.") w1 ∧ new_found = [] ∧ disk w1 = disk w).
  { rewrite main_run, Hg.
    apply gather_ok in Hg as (html_text & products & w0 & _ & _ & _ & -> & -> & Hlen & Hd & _).
    destruct products as [| p products]; [| done].
    cbn [new_records store_after] in *. split_and!; [| done | done].
    unfold report, notify. cbn [no_products negb Nat.ltb Nat.leb].
    by rewrite !three_prints_run. }
  destruct Hmain as (Hmain & -> & Hd). rewrite Hmain, three_prints_run by done.
  by split_and!.
Qed.

(** * The further properties on the example data *)

Lemma last_segment_spec_witness :
  last_segment "/hotwheels/car-1/" = "car-1" ∧ last_segment "//" = "//" ∧
  last_segment "" = "".
Proof.
  split_and!.
  - destruct (last_segment_spec "/hotwheels/car-1/") as (_ & _ & Hseg).
    apply (Hseg "/hotwheels" "car-1"); [discriminate | reflexivity | right; reflexivity].
  - destruct (last_segment_spec "//") as (_ & [[_ Hsame] | [Hno _]] & _);
      [exact Hsame | discriminate Hno].
  - destruct (last_segment_spec "") as (Hempty & _). by apply Hempty.
Defined.

Lemma link_tier_records_witness :
  link_loop Ex.ext "/hotwheels/" (find_all_a_href Ex.nbsp_soup) [] =
    Ok [("x", "Red Car Two"); ("x", "Blue Car")] ∧
  Forall2
    (λ (a : anchor) (p : product),
       ∃ path,
         urlparse_path Ex.ext (Py.strip (a_href a)) = Returns path ∧
         p.1 = last_segment path ∧
         p.2 = Py.join " " (Py.split_ws (a_text a)) ∧
         ∃ words, Forall (λ w, is_word w = true) words ∧ p.2 = Py.join " " words)
    (List.filter (link_match "/hotwheels/") (find_all_a_href Ex.nbsp_soup))
    [("x", "Red Car Two"); ("x", "Blue Car")] ∧
  Forall2
    (λ (a : anchor) (p : product),
       ∃ path,
         urlparse_path Ex.ext (Py.strip (a_href a)) = Returns path ∧
         p.1 = last_segment path ∧
         p.2 = Py.join " " (Py.split_ws (a_text a)) ∧
         ∃ words, Forall (λ w, is_word w = true) words ∧ p.2 = Py.join " " words)
    (List.filter (link_match "/hotwheels/") (find_all_a_href Ex.primary_soup))
    [("car-1", "Red Car"); ("car-1", "Blue Car"); ("car-2", "Van")].
Proof.
  split_and!.
  - vm_compute. reflexivity.
  - exact (link_tier_records Ex.ext "/hotwheels/" (find_all_a_href Ex.nbsp_soup)).
  - exact (link_tier_records Ex.ext "/hotwheels/" (find_all_a_href Ex.primary_soup)).
Defined.

Lemma fallback_tier_records_witness :
  fallback_loop Ex.ext Ex2.fallback_anchors [] =
    Ok [("robot-7", "Robot"); ("/toys/", "All toys"); ("", "Nowhere")] ∧
  Forall2
    (λ (a : anchor) (p : product),
       p.2 = a_text a ∧ (4 ≤ Py.len p.2)%nat ∧
       Py.contains "javascript" (Py.lower (Py.strip (a_href a))) = false ∧
       (p.1 = Py.strip (a_href a) ∨
        (p.1 ≠ "" ∧ Py.contains "/" p.1 = false ∧ Py.contains "?" p.1 = false)) ∧
       (p.1 = "" → Py.strip (a_href a) = ""))
    (List.filter fallback_match Ex2.fallback_anchors)
    [("robot-7", "Robot"); ("/toys/", "All toys"); ("", "Nowhere")].
Proof.
  split; [vm_compute; reflexivity |].
  exact (fallback_tier_records Ex.ext Ex2.fallback_anchors).
Defined.

Lemma tile_tier_records_witness :
  tile_loop Ex2.tiles [] = [("77", "Scooter"); ("78", "")] ∧
  tile_loop [Tile (Ex.nbsp ++ "9" ++ Ex.nbsp) (Some (Ex.nbsp ++ "Kart")) None None None] []
    = [("9", "Kart")] ∧
  ∃ title, ("", title) ∈ tile_loop (select_data_product_id Ex2.blank_tile_soup) [].
Proof.
  split_and!.
  - destruct (tile_tier_records Ex2.tiles) as (Hmap & _). exact Hmap.
  - destruct (tile_tier_records
                [Tile (Ex.nbsp ++ "9" ++ Ex.nbsp) (Some (Ex.nbsp ++ "Kart")) None None None])
      as (Hmap & _).
    rewrite Hmap. vm_compute. reflexivity.
  - destruct (tile_tier_records (select_data_product_id Ex2.blank_tile_soup))
      as (_ & _ & _ & Hblank).
    apply (Hblank (Tile "  " None None None None)); [left | discriminate | reflexivity].
Defined.

Lemma extraction_result_is_stable_witness :
  parse_products_from_html Ex.ext "" = Ok [("car-1", "Red Car"); ("car-2", "Van")] ∧
  pairs_of (dict_keys (dedup_loop [("car-1", "Red Car"); ("car-2", "Van")] []))
           (dedup_loop [("car-1", "Red Car"); ("car-2", "Van")] [])
  = Ok [("car-1", "Red Car"); ("car-2", "Van")].
Proof.
  assert (Hrun : parse_products_from_html Ex.ext ""
                 = Ok [("car-1", "Red Car"); ("car-2", "Van")])
    by (vm_compute; reflexivity).
  split; [exact Hrun |].
  exact (extraction_result_is_stable Ex.ext "" _ Hrun).
Defined.

(** The blank [data-product-id] keeps the fallback tier from running. *)
Lemma empty_ids_block_later_tiers_witness :
  tier Ex2.blank_tile_ext Ex2.blank_tile_soup 3 = Ok [("about-us", "About us")] ∧
  parse_products_from_html Ex2.blank_tile_ext "" = Ok [].
Proof.
  split; [vm_compute; reflexivity |].
  apply (empty_ids_block_later_tiers Ex2.blank_tile_ext "" Ex2.blank_tile_soup 2
           [("", "")]).
  - reflexivity.
  - lia.
  - intros j Hj. destruct j as [| [| j]]; [vm_compute; reflexivity .. | lia].
  - vm_compute. reflexivity.
  - discriminate.
  - intros p ->%list_elem_of_singleton. reflexivity.
Defined.

Lemma extraction_raises_only_parsers_witness :
  parse_products_from_html Ex2.strict_ext "" = Raise (ValueError "ValueError('Invalid IPv6 URL')") ∧
  (∃ a shown,
     a ∈ find_all_a_href Ex.primary_soup ∧
     urlparse_path Ex2.strict_ext (Py.strip (a_href a)) = Fails shown ∧
     ValueError "ValueError('Invalid IPv6 URL')" = ValueError shown) ∧
  ∃ l, parse_products_from_html Ex.ext "" = Ok l.
Proof.
  assert (Hrun : parse_products_from_html Ex2.strict_ext ""
                 = Raise (ValueError "ValueError('Invalid IPv6 URL')"))
    by (vm_compute; reflexivity).
  split_and!; [exact Hrun | |].
  - pose proof (extraction_raises_only_parsers Ex2.strict_ext "") as H.
    change (BeautifulSoup Ex2.strict_ext "") with (Returns Ex.primary_soup) in H.
    cbv iota in H. destruct H as [Honly _]. exact (Honly _ Hrun).
  - pose proof (extraction_raises_only_parsers Ex.ext "") as H.
    change (BeautifulSoup Ex.ext "") with (Returns Ex.primary_soup) in H.
    cbv iota in H. destruct H as [_ Hreturns].
    apply Hreturns. intros a _. by eexists.
Defined.

Lemma none_only_below_zero_witness :
  requests_get_with_retry Ex.ext "https://www.firstcry.com/hotwheels" (-1) 2 (fresh_world ∅)
    = (Ok None, fresh_world ∅) ∧
  (requests_get_with_retry Ex.ext "https://www.firstcry.com/hotwheels" 0 2
     (fresh_world ∅)).1 ≠ Ok None.
Proof.
  split.
  - destruct (none_only_below_zero Ex.ext "https://www.firstcry.com/hotwheels" (-1) 2
                (fresh_world ∅)) as [Hneg _].
    apply Hneg. lia.
  - destruct (none_only_below_zero Ex.ext "https://www.firstcry.com/hotwheels" 0 2
                (fresh_world ∅)) as [_ Hpos].
    apply Hpos. lia.
Defined.

(** Three refused requests: the third refusal is raised, after 2 + 4
    seconds of sleep.  With a backoff of -1 the first wait is refused. *)
Lemma retries_exhausted_witness :
  (requests_get_with_retry Ex2.dead_ext "https://www.firstcry.com/hotwheels" 2 2
     (fresh_world ∅)).1 = Raise (RequestException "ConnectionError('attempt 2')") ∧
  slept (requests_get_with_retry Ex2.dead_ext "https://www.firstcry.com/hotwheels" 2 2
           (fresh_world ∅)).2 = [2; 4]%Z ∧
  requested (requests_get_with_retry Ex2.dead_ext "https://www.firstcry.com/hotwheels" 2 (-1)
               (fresh_world ∅)).2 = ["https://www.firstcry.com/hotwheels"].
Proof.
  assert (Hc : console_sound Ex2.dead_ext) by (intros n line; reflexivity).
  destruct (retries_exhausted Ex2.dead_ext "https://www.firstcry.com/hotwheels" 2 2
              (fresh_world ∅) Ex2.refused Hc) as [Hwait _].
  { lia. }
  { intros j _. reflexivity. }
  destruct (retries_exhausted Ex2.dead_ext "https://www.firstcry.com/hotwheels" 2 (-1)
              (fresh_world ∅) Ex2.refused Hc) as [_ Hneg].
  { lia. }
  { intros j _. reflexivity. }
  destruct Hwait as (Hraise & _ & Hslept & _); [lia | unfold max_sleep; lia |].
  destruct Hneg as (_ & Hreq & _); [lia | lia |].
  split_and!; [exact Hraise | exact Hslept | exact Hreq].
Defined.

Lemma fetch_search_html_result_witness :
  ∃ n,
    (1 ≤ n)%nat ∧ (n ≤ 3)%nat ∧
    requested (fetch_search_html Ex.ext Ex.cfg "hot wheels" (fresh_world ∅)).2 =
      replicate n "https://www.firstcry.com/search?query=hot+wheels" ∧
    (fetch_search_html Ex.ext Ex.cfg "hot wheels" (fresh_world ∅)).1 = Ok Ex.page.
Proof.
  destruct (fetch_search_html_result Ex.ext Ex.cfg "hot wheels" (fresh_world ∅))
    as (n & H1 & H3 & Hreq & Hfail & Hres).
  { intros n line. reflexivity. }
  exists n. split_and!; [exact H1 | exact H3 | exact Hreq |].
  destruct n as [| [| [| [| n]]]]; [lia | | | exact Hres | lia].
  - exfalso. vm_compute in Hres. destruct Hres as [E _]. discriminate E.
  - exfalso. vm_compute in Hres. destruct Hres as [E _]. discriminate E.
Defined.

Lemma build_fetch_url_composes_witness :
  build_fetch_url Ex.cfg (build_fetch_url Ex.cfg "hot wheels")
    = "https://www.firstcry.com/search?query=hot+wheels" ∧
  (build_fetch_url Ex.cfg "hot wheels" = build_fetch_url Ex.cfg "hot wheels" →
   "hot wheels" = "hot wheels").
Proof.
  destruct (build_fetch_url_composes Ex.cfg) as [Hidem Hinj].
  split.
  - destruct (Hidem ltac:(exists "https://", "www.firstcry.com/search?query=";
                          split; [reflexivity | right; reflexivity]) "hot wheels")
      as [_ Hsame].
    exact Hsame.
  - apply Hinj; intros Habs; apply is_http_url_iff in Habs; discriminate Habs.
Defined.

Lemma run_network_witness :
  ∃ n,
    (n ≤ 3)%nat ∧
    requested (main Ex.ext Ex.cfg (fresh_world Ex.seeded)).2 =
      replicate n "https://www.firstcry.com/search?query=hot+wheels" ∧
    slept (main Ex.ext Ex.cfg (fresh_world Ex.seeded)).2 =
      List.map (λ k, 2 * k)%Z (py_range 1 (Z.of_nat n)).
Proof.
  destruct (run_network Ex.ext Ex.cfg (fresh_world Ex.seeded)) as (n & Hn & Hreq & Hsl & _).
  exists n. split_and!; [exact Hn | exact Hreq | exact Hsl].
Defined.

(** The run whose notification breaks off after the server has accepted
    it: two sessions, and both messages accepted. *)
Lemma mail_per_run_witness :
  length (delivered (main Ex2.late_ext Ex.cfg (fresh_world Ex.seeded)).2) = 2 ∧
  ∃ notification error_mail : option (bool * message),
    smtp_sessions (main Ex2.late_ext Ex.cfg (fresh_world Ex.seeded)).2 =
      (option_list notification ++ option_list error_mail)%list ∧
    Forall (session_of Ex.cfg) (option_list notification ++ option_list error_mail)%list.
Proof.
  split; [vm_compute; reflexivity |].
  destruct (mail_per_run Ex2.late_ext Ex.cfg (fresh_world Ex.seeded))
    as (notification & error_mail & Hs & _ & _ & _ & Hall & _).
  exists notification, error_mail. split; [exact Hs | exact Hall].
Defined.

Lemma store_only_grows_witness :
  disk (fresh_world Ex.seeded) !! "car-1" = Some (Row "Red Car" 1600000000) ∧
  ∃ seen,
    disk (main Ex.ext Ex.cfg (fresh_world Ex.seeded)).2 !! "car-1"
      = Some (Row "Red Car" seen) ∧
    (seen = 1600000000%Z ∨ seen = 1700000000%Z).
Proof.
  assert (Hrow : disk (fresh_world Ex.seeded) !! "car-1" = Some (Row "Red Car" 1600000000))
    by (vm_compute; reflexivity).
  split; [exact Hrow |].
  exact (store_only_grows Ex.ext Ex.cfg (fresh_world Ex.seeded) "car-1" _ Hrow).
Defined.

Lemma store_grows_by_new_witness :
  size (disk (main Ex.ext Ex.cfg (fresh_world Ex.seeded)).2) = 1 + 1.
Proof.
  destruct (store_grows_by_new Ex.ext Ex.cfg (fresh_world Ex.seeded)
              (gather Ex.ext Ex.cfg (fresh_world Ex.seeded)).2 [("car-2", "Van")] 1 2)
    as [_ Hsize].
  - vm_compute. reflexivity.
  - exact Hsize.
Defined.

(** A second run over the page of the first: two records, two rows. *)
Lemma count_only_mail_never_sent_witness :
  (2 ≤ 2 + 0)%nat ∧
  ∀ w', notify Ex.ext Ex.cfg [] 2 2 w' = print Ex.ext "No new items found this run." w'.
Proof.
  destruct (count_only_mail_never_sent Ex.ext Ex.cfg
              (main Ex.ext Ex.cfg (fresh_world Ex.seeded)).2
              (gather Ex.ext Ex.cfg (main Ex.ext Ex.cfg (fresh_world Ex.seeded)).2).2
              [] 2 2) as (Hcount & _ & Hnotify).
  - vm_compute. reflexivity.
  - split; [exact Hcount | exact Hnotify].
Defined.

Lemma second_detection_is_silent_witness :
  sqlite_sound Ex.ext ∧
  ∃ w2,
    detect_changes Ex.ext Ex.abc (detect_changes Ex.ext Ex.abc Ex.world_ab).2
      = (Ok ([], 3, 3), w2).
Proof.
  assert (Hs : sqlite_sound Ex.ext) by (intros n; reflexivity).
  split; [exact Hs |].
  destruct (second_detection_is_silent Ex.ext Ex.abc Ex.world_ab
              (detect_changes Ex.ext Ex.abc Ex.world_ab).2 ([("C", "c")], 2, 3) Hs)
    as (w2 & Hrun & _).
  - vm_compute. reflexivity.
  - exists w2. exact Hrun.
Defined.


Lemma empty_extraction_is_silent_witness :
  disk (main Ex2.empty_ext Ex.cfg (fresh_world Ex.seeded)).2 = disk (fresh_world Ex.seeded) ∧
  smtp_sessions (main Ex2.empty_ext Ex.cfg (fresh_world Ex.seeded)).2 = [].
Proof.
  destruct (empty_extraction_is_silent Ex2.empty_ext Ex.cfg (fresh_world Ex.seeded)
              (gather Ex2.empty_ext Ex.cfg (fresh_world Ex.seeded)).2 [] 1)
    as (_ & Hdisk & Hmail & _).
  - intros n line. reflexivity.
  - vm_compute. reflexivity.
  - split; [exact Hdisk | exact Hmail].
Defined.

Lemma run_log_witness :
  ∃ before,
    stdout (main Ex.ext Ex.cfg (fresh_world Ex.seeded)).2 =
      ("========================================" ::
       "FirstCry Monitor — query: 'hot wheels'" :: before ++ ["Run complete."])%list ∧
    Forall not_closing before.
Proof.
  destruct (run_log Ex.ext Ex.cfg (fresh_world Ex.seeded)) as (lines & Hout & Hcase).
  { intros n line. reflexivity. }
  assert (E : (main_body Ex.ext Ex.cfg (fresh_world Ex.seeded)).1 = Ok ())
    by (vm_compute; reflexivity).
  rewrite E in Hcase. destruct Hcase as (before & -> & Hbefore).
  exists before. split; [exact Hout | exact Hbefore].
Defined.

Lemma show_sample_only_prints_witness :
  same_but_stdout (main Ex.ext (with_sample Ex.cfg false) (fresh_world Ex.seeded)).2
                  (main Ex.ext (with_sample Ex.cfg true) (fresh_world Ex.seeded)).2 ∧
  extracted Ex.ext Ex.cfg (fresh_world Ex.seeded) = Some [("car-1", "Red Car"); ("car-2", "Van")].
Proof.
  split; [| vm_compute; reflexivity].
  assert (Hc : console_sound Ex.ext) by (intros n line; reflexivity).
  exact (proj1 (proj2 (show_sample_only_prints Ex.ext Ex.cfg (fresh_world Ex.seeded) Hc))).
Defined.
